(** * Zephyr test dashboard: a shallow embedding of [zephyr_react_dashboard.js]

    The development models the data-shaping logic of the React dashboard:
    the MCP tool client ([callTool]), the three loaders ([loadProjects],
    [loadVersions], [loadDashboard]), the components [MetricCard],
    [ProgressBar] and [CycleCard], the chart data and the page that
    [ZephyrDashboard] returns.  A component is modelled by what its
    function computes and by what React does with the elements it
    returns: a value between tags is rendered, or React throws.

    JavaScript values are embedded as the inductive type [value]; objects
    produced by [JSON.parse] are finite maps from property names to values.
    Numbers are IEEE 754 doubles in the source.  Here a finite double is
    given by the rational it denotes, and the arithmetic of the source
    rounds the exact result to the nearest double, ties to even, with
    gradual underflow and overflow to an infinity ([round64]).  [NaN] and
    the two infinities are values of their own.  The sign of zero is not
    kept: the source never divides by a zero and prints both zeros alike. *)

From Stdlib Require Import QArith Qabs Qround Qpower ZArith Lia Lqa Ascii SpecFloat.
From stdpp Require Import base strings list gmap pretty.

Local Open Scope string_scope.

Set Default Proof Using "Type".

(** ** JavaScript values *)

Inductive num :=
| NaN
| Inf (negative : bool)
| Fin (q : Q).

#[warnings="-register-all"]
Inductive value :=
| VUndefined
| VNull
| VBool (b : bool)
| VNum (n : num)
| VStr (s : string)
| VArr (items : list value)
| VObj (fields : gmap string value).

(** Thrown values.  Everything the modelled code can throw is an [Error]
    object; the code only ever reads its [message]. *)
Inductive Error :=
| PlainError (msg : string)      (* new Error(msg) *)
| TypeError (msg : string)
| SyntaxError (msg : string).

Definition message (e : Error) : string :=
  match e with
  | PlainError m | TypeError m | SyntaxError m => m
  end.

(** Completion of an expression or a statement: a value or a throw. *)
Inductive completion (A : Type) :=
| Normal (a : A)
| Throw (e : Error).
Arguments Normal {A} a.
Arguments Throw {A} e.

#[global] Instance completion_ret : MRet completion := fun A a => Normal a.
#[global] Instance completion_bind : MBind completion := fun A B k c =>
  match c with
  | Normal a => k a
  | Throw e => Throw e
  end.

#[global] Instance completion_fmap : FMap completion := fun A B f c =>
  match c with
  | Normal a => Normal (f a)
  | Throw e => Throw e
  end.

(** ** Numbers *)

Definition Qlt_bool (a b : Q) : bool := negb (Qle_bool b a).
Definition Qzero (q : Q) : bool := Qeq_bool q 0.

Definition pow2 (e : Z) : Q := (2 ^ e)%Q.

(** The binade of a positive rational: the [e] with
    [2^e <= x < 2^(e+1)]. *)
Definition ilog2 (x : Q) : Z :=
  let e := (Z.log2 (Qnum x) - Z.log2 (Zpos (Qden x)))%Z in
  if Qlt_bool x (pow2 e) then (e - 1)%Z else e.

(** The nearest integer, the even one of two that are equally near. *)
Definition nearest_even (m : Q) : Z :=
  let f := Qfloor m in
  match Qcompare (m - inject_Z f) (1 # 2) with
  | Lt => f
  | Gt => (f + 1)%Z
  | Eq => if Z.even f then f else (f + 1)%Z
  end.

(** Rounding of an exact result to binary64.  The doubles of the binade
    [e] are the multiples of [2^(e-52)]; below [2^(-1022)] they are the
    multiples of [2^(-1074)].  A result that rounds to [2^1024] or beyond
    is an infinity. *)
Definition round64 (x : Q) : num :=
  if Qzero x then Fin 0
  else
    let e := Z.max (ilog2 (Qabs x)) (-1022) in
    let ulp := pow2 (e - 52) in
    let r := Qred (inject_Z (nearest_even (x / ulp)) * ulp) in
    if Qle_bool (pow2 1024) (Qabs r) then Inf (Qlt_bool x 0) else Fin r.

Definition num_sub (a b : num) : num :=
  match a, b with
  | NaN, _ | _, NaN => NaN
  | Inf s, Inf s' => if Bool.eqb s s' then NaN else Inf s
  | Inf s, Fin _ => Inf s
  | Fin _, Inf s => Inf (negb s)
  | Fin x, Fin y => round64 (x - y)
  end.

Definition num_mul (a b : num) : num :=
  match a, b with
  | NaN, _ | _, NaN => NaN
  | Inf s, Inf s' => Inf (xorb s s')
  | Inf s, Fin q | Fin q, Inf s =>
      if Qzero q then NaN else Inf (xorb s (Qlt_bool q 0))
  | Fin x, Fin y => round64 (x * y)
  end.

Definition num_div (a b : num) : num :=
  match a, b with
  | NaN, _ | _, NaN => NaN
  | Inf _, Inf _ => NaN
  | Inf s, Fin q => Inf (xorb s (Qlt_bool q 0))
  | Fin _, Inf _ => Fin 0
  | Fin x, Fin y =>
      if Qzero y then (if Qzero x then NaN else Inf (Qlt_bool x 0))
      else round64 (x / y)
  end.

(** [a > b] on numbers; every comparison with [NaN] is false. *)
Definition num_gt (a b : num) : bool :=
  match a, b with
  | NaN, _ | _, NaN => false
  | Inf s, Inf s' => negb s && s'
  | Inf s, Fin _ => negb s
  | Fin _, Inf s => s
  | Fin x, Fin y => Qlt_bool y x
  end.

Definition num_falsy (n : num) : bool :=
  match n with
  | NaN => true
  | Inf _ => false
  | Fin q => Qzero q
  end.

(** ** Coercions and operators *)

(** ToBoolean. *)
Definition truthy (v : value) : bool :=
  match v with
  | VUndefined | VNull => false
  | VBool b => b
  | VNum n => negb (num_falsy n)
  | VStr s => negb (String.eqb s "")
  | VArr _ | VObj _ => true
  end.

(** [a || b] and [a && b]; both operands are already evaluated, which is
    sound wherever the right operand is a literal or cannot throw. *)
Definition js_or (a b : value) : value := if truthy a then a else b.
Definition js_and (a b : value) : value := if truthy a then b else a.

Definition nullish (v : value) : bool :=
  match v with
  | VUndefined | VNull => true
  | _ => false
  end.

Definition describe (v : value) : string :=
  match v with
  | VNull => "null"
  | _ => "undefined"
  end.

(** Property read [o.k] (and [o[k]]): a [TypeError] on [null] and
    [undefined], the own property of an object, [length] of an array or
    of a string.  Inherited methods are not values of this model; the two
    method calls of the source ([map] and [toFixed]) have definitions of
    their own below.  The wording of the [TypeError] message is the
    engine's (V8 here). *)
Definition cannot_read (o : value) (k : string) : Error :=
  TypeError ("Cannot read properties of " +:+ describe o +:+
             " (reading '" +:+ k +:+ "')").

Definition of_length (n : nat) : value := VNum (Fin (inject_Z (Z.of_nat n))).

Definition member (o : value) (k : string) : completion value :=
  match o with
  | VUndefined | VNull => Throw (cannot_read o k)
  | VObj fields => Normal (default VUndefined (fields !! k))
  | VArr items =>
      if String.eqb k "length" then Normal (of_length (length items))
      else Normal VUndefined
  | VStr s =>
      if String.eqb k "length" then Normal (of_length (String.length s))
      else Normal VUndefined
  | VBool _ | VNum _ => Normal VUndefined
  end.

(** Indexed read [o[i]] for a number literal [i]. *)
Definition index (o : value) (i : nat) : completion value :=
  match o with
  | VUndefined | VNull => Throw (cannot_read o (pretty i))
  | VArr items => Normal (default VUndefined (items !! i))
  | VObj fields => Normal (default VUndefined (fields !! pretty i))
  | VStr s =>
      Normal (match String.get i s with
              | Some c => VStr (String c "")
              | None => VUndefined
              end)
  | VBool _ | VNum _ => Normal VUndefined
  end.

(** Optional chaining [o?.k]. *)
Definition opt_member (o : value) (k : string) : completion value :=
  if nullish o then Normal VUndefined else member o k.

(** Object and number literals. *)
Definition obj (l : list (string * value)) : value := VObj (list_to_map l).
Definition int (z : Z) : value := VNum (Fin (inject_Z z)).

(** The number that a decimal literal denotes: the nearest double. *)
Definition number (q : Q) : value := VNum (round64 q).

(** ToPrimitive on a value that [JSON.parse] has made.  An object inherits
    [valueOf], which returns the object itself, and [toString], which
    returns a string.  An own property of the name [toString] is a JSON
    value, hence not callable, and hides the inherited method: such an
    object has no primitive value and the conversion throws.  An array is
    converted by [join], which converts each of its elements. *)
Fixpoint convertible (v : value) : bool :=
  match v with
  | VObj fields =>
      match fields !! "toString" with
      | Some _ => false
      | None => true
      end
  | VArr items => forallb convertible items
  | _ => true
  end.

Definition ToPrimitive (v : value) : completion unit :=
  if convertible v then Normal tt
  else Throw (TypeError "Cannot convert object to primitive value").

(** ** React children

    What React renders for a value put between tags: text for a string
    or a number, nothing for a boolean, [null] and [undefined], the items
    one by one for an array.  An object is not a child: React throws when
    it meets one.  Its message also lists the keys of the object; it is
    cut short here. *)
Fixpoint valid_child (v : value) : bool :=
  match v with
  | VObj _ => false
  | VArr items => forallb valid_child items
  | _ => true
  end.

Definition child (v : value) : completion unit :=
  if valid_child v then Normal tt
  else Throw (PlainError "Objects are not valid as a React child").

Section Platform.

(** Built-ins of the host that the model does not re-implement. *)
Variable StringToNumber : string -> num.         (* Number(s) for a string s *)
Variable ArrayToString : list value -> string.    (* Array.prototype.toString *)
Variable NumberToString : Q -> string.            (* Number::toString, used by toFixed from 1e21 on *)
Variable JSON_parse : value -> completion value.  (* JSON.parse, with its ToString of the argument *)

(** ToNumber of a value whose conversion to a primitive does not throw
    ([convertible]); the operators below say when it throws. *)
Definition ToNumber (v : value) : num :=
  match v with
  | VUndefined => NaN
  | VNull => Fin 0
  | VBool b => Fin (if b then 1 else 0)
  | VNum n => n
  | VStr s => StringToNumber s
  | VArr items => StringToNumber (ArrayToString items)
  | VObj _ => NaN            (* "[object Object]" is not a numeric string *)
  end.

(** [a - b] once both operands are converted. *)
Definition js_sub (a b : value) : value := VNum (num_sub (ToNumber a) (ToNumber b)).

(** [a - b]: the left operand is converted first. *)
Definition sub (a b : value) : completion value :=
  ToPrimitive a;; ToPrimitive b;; mret (js_sub a b).

(** [a > n] where the right operand is a number literal: the left operand
    is converted with ToNumber. *)
Definition js_gt (a : value) (n : num) : bool := num_gt (ToNumber a) n.

(** [x.toFixed(1)] for a number [x].  [tenths q] is the integer [n] for
    which [n / 10] is closest to [|q|], the larger one on a tie; its last
    digit goes behind the decimal point. *)
Definition tenths (q : Q) : Z := Qfloor (Qabs q * 10 + (1 # 2)).

Definition fixed1 (q : Q) : string :=
  let n := tenths q in
  (if Qlt_bool q 0 then "-" else "") +:+ pretty (n / 10)%Z +:+ "." +:+ pretty (n mod 10)%Z.

Definition toFixed1 (x : num) : string :=
  match x with
  | NaN => "NaN"
  | Inf s => if s then "-Infinity" else "Infinity"
  | Fin q => if Qle_bool (inject_Z (10 ^ 21)%Z) (Qabs q) then NumberToString q else fixed1 q
  end.

(** ** Metric Card Component

    At every use the title, the icon, the colour and the subtitle are
    string literals; the value is the one child that depends on the
    data. *)
Definition MetricCard (value : value) : completion unit := child value.

(** ** Progress Bar Component *)

Record Bar := {
  bar_label : string;
  bar_value : value;
  bar_total : value;
  bar_percentage : num;
  bar_text : string            (* percentage.toFixed(1) followed by "%" *)
}.

(** [const percentage = total > 0 ? (value / total) * 100 : 0]; both
    operands of the division are converted with ToNumber. *)
Definition percentage (value total : value) : num :=
  if js_gt total (Fin 0)
  then num_mul (num_div (ToNumber value) (ToNumber total)) (Fin 100)
  else Fin 0.

Definition ProgressBar (label : string) (value total : value) : Bar :=
  let percentage := percentage value total in
  {| bar_label := label;
     bar_value := value;
     bar_total := total;
     bar_percentage := percentage;
     bar_text := toFixed1 percentage +:+ "%" |}.

(** The component: its body, then the elements it returns as React
    renders them.  [total > 0] converts [total]; [value / total] is
    evaluated only when the test holds and converts [value] first.  The
    children [{value}] and [{total}] must be valid; the label and the
    printed percentage are strings.  When nothing throws the bar is
    [ProgressBar label value total]. *)
Definition render_ProgressBar (label : string) (value total : value) : completion Bar :=
  ToPrimitive total;;
  (if js_gt total (Fin 0) then ToPrimitive value else mret tt);;
  child value;;
  child total;;
  mret (ProgressBar label value total).

(** ** Cycle Card Component *)

Record Card := {
  card_name : value;
  card_description : value;
  card_total : value;
  card_passed : value;
  card_failed : value;
  card_blocked : value;
  card_unexecuted : value;
  card_executionRate : value;     (* the local executionRate; the JSX does not use it *)
  card_passRate : value;          (* the local passRate; the JSX does not use it *)
  card_execution : Bar;
  card_pass : Bar
}.

(** The three [const] of the component and the expressions of its JSX
    from top to bottom; then the elements it returns as React renders
    them, from top to bottom: the seven children, then the two progress
    bars. *)
Definition CycleCard (cycle : value) : completion Card :=
  total ← member cycle "total_tests";
  execution_rate ← member cycle "execution_rate";
  let executionRate := js_or execution_rate (VNum (Fin 0)) in
  pass_rate ← member cycle "pass_rate";
  let passRate := js_or pass_rate (VNum (Fin 0)) in
  inner ← member cycle "cycle";
  name ← member inner "name";
  description ← member inner "description";
  passed ← member cycle "passed";
  failed ← member cycle "failed";
  blocked ← member cycle "blocked";
  unexecuted ← member cycle "unexecuted";
  executed ← sub total unexecuted;
  child name;;
  child description;;
  child total;;
  child passed;;
  child failed;;
  child blocked;;
  child unexecuted;;
  execution ← render_ProgressBar "Execution Progress" executed total;
  pass ← render_ProgressBar "Pass Rate" passed total;
  mret {| card_name := name;
          card_description := description;
          card_total := total;
          card_passed := passed;
          card_failed := failed;
          card_blocked := blocked;
          card_unexecuted := unexecuted;
          card_executionRate := executionRate;
          card_passRate := passRate;
          card_execution := execution;
          card_pass := pass |}.

(** A call of something that is not a function; [callee] is the text of
    the called expression, which the engine (V8 here) puts in the
    message. *)
Definition not_a_function (callee : string) : Error :=
  TypeError (callee +:+ " is not a function").

(** [a?.map(f)]: nothing on [null] and [undefined], the mapped array on
    an array; any other receiver has no [map] method. *)
Definition opt_map {A} (callee : string) (f : value -> completion A) (a : value)
  : completion (option (list A)) :=
  match a with
  | VUndefined | VNull => Normal None
  | VArr items => Some <$> mapM f items
  | _ => Throw (not_a_function callee)
  end.

(** [a.map(f)] *)
Definition call_map {A} (callee : string) (f : value -> completion A) (a : value)
  : completion (list A) :=
  match a with
  | VUndefined | VNull => Throw (cannot_read a "map")
  | VArr items => mapM f items
  | _ => Throw (not_a_function callee)
  end.

(** The array (or [undefined]) such a call evaluates to. *)
Definition array_or_undefined (r : option (list value)) : value :=
  match r with
  | Some items => VArr items
  | None => VUndefined
  end.

(** [x.toFixed(1)] for a receiver that is not nullish: only numbers have
    the method. *)
Definition call_toFixed1 (callee : string) (x : value) : completion string :=
  match x with
  | VNum n => Normal (toFixed1 n)
  | _ => Throw (not_a_function callee)
  end.

(** ** MCP Client Hook *)

Record Request := {
  toolName : string;
  arguments : value
}.

(** What the transport does with one request: [fetch] rejects, or
    [response.json()] rejects, or the body parses to [result]. *)
Inductive transport :=
| FetchRejects (e : Error)
| JsonRejects (e : Error)
| Body (result : value).

(** The part of [callTool] that runs once the response is there.  The
    [catch] of the source logs and rethrows the same error, so a throw
    anywhere in the [try] block is the rejection of the promise. *)
Definition callTool_settle (t : transport) : completion value :=
  match t with
  | FetchRejects e => Throw e
  | JsonRejects e => Throw e
  | Body result =>
      r ← member result "result";
      cond ← (if truthy r then member r "content" else mret r);
      if truthy cond then
        r' ← member result "result";
        content ← member r' "content";
        item ← index content 0;
        text ← member item "text";
        JSON_parse text
      else Throw (PlainError "Invalid response from MCP server")
  end.

(** ** Main Dashboard Component: state *)

Record DashboardData := {
  report : value;
  progress : value;
  regressionTests : value;
  negativeTests : value
}.

Record State := {
  projects : value;
  selectedProject : value;
  selectedVersion : value;
  versions : value;
  dashboardData : option DashboardData;     (* [None] is [null] *)
  loading : bool;
  error : value
}.

Definition initialState : State :=
  {| projects := VArr [];
     selectedProject := VStr "";
     selectedVersion := VStr "";
     versions := VArr [];
     dashboardData := None;
     loading := false;
     error := VStr "" |}.

(** The component state together with the requests sent so far. *)
Record World := {
  ui : State;
  sent : list Request
}.

(** An asynchronous function run against the responses that have arrived:
    it returns, or throws, or is still suspended at an [await]. *)
Inductive result (A : Type) :=
| Returned (a : A)
| Raised (e : Error)
| Suspended.
#[global] Arguments Returned {A} a.
#[global] Arguments Raised {A} e.
#[global] Arguments Suspended {A}.

Definition Act (A : Type) : Type := World -> result A * World.

#[global] Instance Act_ret : MRet Act := fun A a w => (Returned a, w).
#[global] Instance Act_bind : MBind Act := fun A B k m w =>
  match m w with
  | (Returned a, w') => k a w'
  | (Raised e, w') => (Raised e, w')
  | (Suspended, w') => (Suspended, w')
  end.

Definition lift {A} (c : completion A) : Act A := fun w =>
  match c with
  | Normal a => (Returned a, w)
  | Throw e => (Raised e, w)
  end.

Definition suspend {A} : Act A := fun w => (Suspended, w).

(** [try { body } catch (err) { handler }] *)
Definition try_catch {A} (body : Act A) (handler : Error -> Act A) : Act A := fun w =>
  match body w with
  | (Raised e, w') => handler e w'
  | other => other
  end.

(** [try { body } finally { final }]; a suspended body has not reached
    its [finally] block. *)
Definition try_finally {A} (body : Act A) (final : Act unit) : Act A := fun w =>
  match body w with
  | (Suspended, w') => (Suspended, w')
  | (r, w') =>
      match final w' with
      | (Returned _, w'') => (r, w'')
      | (Raised e, w'') => (Raised e, w'')
      | (Suspended, w'') => (Suspended, w'')
      end
  end.

Definition get_state : Act State := fun w => (Returned (ui w), w).

Definition set_state (f : State -> State) : Act unit := fun w =>
  (Returned tt, {| ui := f (ui w); sent := sent w |}).

Definition with_projects (v : value) (s : State) : State :=
  {| projects := v;
     selectedProject := selectedProject s;
     selectedVersion := selectedVersion s;
     versions := versions s;
     dashboardData := dashboardData s;
     loading := loading s;
     error := error s |}.

Definition with_versions (v : value) (s : State) : State :=
  {| projects := projects s;
     selectedProject := selectedProject s;
     selectedVersion := selectedVersion s;
     versions := v;
     dashboardData := dashboardData s;
     loading := loading s;
     error := error s |}.

Definition with_dashboardData (d : option DashboardData) (s : State) : State :=
  {| projects := projects s;
     selectedProject := selectedProject s;
     selectedVersion := selectedVersion s;
     versions := versions s;
     dashboardData := d;
     loading := loading s;
     error := error s |}.

Definition with_loading (b : bool) (s : State) : State :=
  {| projects := projects s;
     selectedProject := selectedProject s;
     selectedVersion := selectedVersion s;
     versions := versions s;
     dashboardData := dashboardData s;
     loading := b;
     error := error s |}.

Definition with_error (v : value) (s : State) : State :=
  {| projects := projects s;
     selectedProject := selectedProject s;
     selectedVersion := selectedVersion s;
     versions := versions s;
     dashboardData := dashboardData s;
     loading := loading s;
     error := v |}.

Definition with_selectedProject (v : value) (s : State) : State :=
  {| projects := projects s;
     selectedProject := v;
     selectedVersion := selectedVersion s;
     versions := versions s;
     dashboardData := dashboardData s;
     loading := loading s;
     error := error s |}.

Definition with_selectedVersion (v : value) (s : State) : State :=
  {| projects := projects s;
     selectedProject := selectedProject s;
     selectedVersion := v;
     versions := versions s;
     dashboardData := dashboardData s;
     loading := loading s;
     error := error s |}.

Definition setSelectedProject (v : value) : Act unit := set_state (with_selectedProject v).
Definition setSelectedVersion (v : value) : Act unit := set_state (with_selectedVersion v).
Definition setProjects (v : value) : Act unit := set_state (with_projects v).
Definition setVersions (v : value) : Act unit := set_state (with_versions v).
Definition setDashboardData (d : option DashboardData) : Act unit := set_state (with_dashboardData d).
Definition setLoading (b : bool) : Act unit := set_state (with_loading b).
Definition setError (v : value) : Act unit := set_state (with_error v).

(** A promise is represented by its settlement: the value it is fulfilled
    with or the error it is rejected with. *)
Definition promise : Type := completion value.

(** Calling [callTool] sends the request at once ([fetch] is called before
    the first [await] of the function) and returns the promise. *)
Definition callTool (name : string) (args : value) (t : transport) : Act promise := fun w =>
  (Returned (callTool_settle t),
   {| ui := ui w; sent := sent w ++ [{| toolName := name; arguments := args |}] |}).

(** [await p] for a promise that has settled. *)
Definition await {A} (p : completion A) : Act A := lift p.

(** ** Promise.all

    The combined promise collects the values of the input promises in
    their slots as they are fulfilled, in whatever order they arrive; it is
    fulfilled with the array of values once every slot is filled and
    rejected with the first rejection that arrives.  Once settled it does
    not change. *)
Record AllState := {
  slots : list (option value);
  settled : option (completion (list value))
}.

Definition all_init (n : nat) : AllState :=
  {| slots := replicate n None;
     settled := if Nat.eqb n 0 then Some (Normal []) else None |}.

Definition all_arrive (ps : list promise) (a : AllState) (i : nat) : AllState :=
  match settled a with
  | Some _ => a
  | None =>
      match ps !! i with
      | None => a
      | Some (Throw e) => {| slots := slots a; settled := Some (Throw e) |}
      | Some (Normal v) =>
          let filled := <[i := Some v]> (slots a) in
          {| slots := filled; settled := Normal <$> mapM id filled |}
      end
  end.

(** [arrivals] lists the indices of the input promises in the order in
    which they settle. *)
Definition Promise_all (ps : list promise) (arrivals : list nat)
  : option (completion (list value)) :=
  settled (foldl (all_arrive ps) (all_init (length ps)) arrivals).

(** [await Promise.all(ps)] *)
Definition await_all (ps : list promise) (arrivals : list nat) : Act (list value) :=
  match Promise_all ps arrivals with
  | Some c => await c
  | None => suspend
  end.

(** ** Main Dashboard Component: loaders

    [loadProjects] and [loadVersions] do nothing but send their request
    before their one [await]; the state changes when the response is
    there.  A run of one of them is given the outcome of its call and
    stands for the moment the response arrives; running it on the world
    that a suspended [loadDashboard] has left is a response that arrives
    while the dashboard load is pending.  [loadDashboard] changes the
    state before its [await] as well, so it is run against the responses
    that have arrived and can be left suspended. *)

Definition loadProjects (t : transport) : Act unit :=
  try_catch
    (p ← callTool "get_projects" (obj []) t;
     result ← await p;
     err ← lift (member result "error");
     if truthy err then setError err
     else
       ps ← lift (member result "projects");
       setProjects (js_or ps (VArr [])))
    (fun err => setError (VStr ("Failed to load projects: " +:+ message err))).

Definition loadVersions (projectId : value) (t : transport) : Act unit :=
  try_catch
    (p ← callTool "get_release_status" (obj [("project_id", projectId)]) t;
     result ← await p;
     err ← lift (member result "error");
     if truthy err then setError err
     else
       releases ← lift (member result "releases");
       mapped ← lift (opt_map "result.releases?.map" (fun r => member r "version") releases);
       let versionList := js_or (array_or_undefined mapped) (VArr []) in
       setVersions versionList)
    (fun err => setError (VStr ("Failed to load versions: " +:+ message err))).

Definition element (rs : list value) (i : nat) : value := default VUndefined (rs !! i).

Definition loadDashboard (t0 t1 t2 t3 : transport) (arrivals : list nat) : Act unit :=
  s ← get_state;
  setLoading true;;
  setError (VStr "");;
  try_finally
    (try_catch
       (p0 ← callTool "generate_test_report"
               (obj [("project_id", selectedProject s);
                     ("version_id", selectedVersion s);
                     ("include_details", VBool false)]) t0;
        p1 ← callTool "get_execution_progress"
               (obj [("project_id", selectedProject s);
                     ("version_id", selectedVersion s)]) t1;
        p2 ← callTool "get_regression_test_count"
               (obj [("project_id", selectedProject s);
                     ("version_id", selectedVersion s)]) t2;
        p3 ← callTool "get_negative_test_count"
               (obj [("project_id", selectedProject s);
                     ("version_id", selectedVersion s)]) t3;
        rs ← await_all [p0; p1; p2; p3] arrivals;
        setDashboardData (Some {| report := element rs 0;
                                  progress := element rs 1;
                                  regressionTests := element rs 2;
                                  negativeTests := element rs 3 |}))
       (fun err => setError (VStr ("Failed to load dashboard: " +:+ message err))))
    (setLoading false).

Definition refreshDashboard (t0 t1 t2 t3 : transport) (arrivals : list nat) : Act unit :=
  s ← get_state;
  if truthy (js_and (selectedProject s) (selectedVersion s))
  then loadDashboard t0 t1 t2 t3 arrivals
  else mret tt.

(** ** Main Dashboard Component: effects and handlers *)

(** The three [useEffect] callbacks.  The first runs on mount, the second
    after a render in which [selectedProject] has changed, the third after
    one in which [selectedProject] or [selectedVersion] has changed. *)
Definition effect_mount (t : transport) : Act unit := loadProjects t.

Definition effect_selectedProject (t : transport) : Act unit :=
  s ← get_state;
  if truthy (selectedProject s)
  then loadVersions (selectedProject s) t
  else mret tt.

Definition effect_selection (t0 t1 t2 t3 : transport) (arrivals : list nat) : Act unit :=
  s ← get_state;
  if truthy (js_and (selectedProject s) (selectedVersion s))
  then loadDashboard t0 t1 t2 t3 arrivals
  else mret tt.

(** The [onChange] handlers of the two selects; [chosen] is
    [e.target.value], the value of the chosen option. *)
Definition onProjectChange (chosen : string) : Act unit := setSelectedProject (VStr chosen).
Definition onVersionChange (chosen : string) : Act unit := setSelectedVersion (VStr chosen).

(** ** Main Dashboard Component: render *)

Record Metrics := {
  metric_total_tests : value;
  metric_execution_rate : string;
  metric_pass_rate : string;
  metric_open_defects : value;
  metric_regression_tests : value;
  metric_negative_tests : value;
  metric_test_cycles : value
}.

Definition zero : value := VNum (Fin 0).

(** The [value] props of the seven metric cards, in the order of the
    JSX. *)
Definition keyMetrics (d : DashboardData) : completion Metrics :=
  om ← member (report d) "overall_metrics";
  total_tests ← opt_member om "total_tests";
  om ← member (report d) "overall_metrics";
  execution_rate ← opt_member om "execution_rate";
  execution_text ←
    call_toFixed1 "(dashboardData.report.overall_metrics?.execution_rate || 0).toFixed"
      (js_or execution_rate zero);
  om ← member (report d) "overall_metrics";
  pass_rate ← opt_member om "pass_rate";
  pass_text ←
    call_toFixed1 "(dashboardData.report.overall_metrics?.pass_rate || 0).toFixed"
      (js_or pass_rate zero);
  ds ← member (report d) "defect_summary";
  openDefects ← opt_member ds "openDefects";
  total_regression_tests ← opt_member (regressionTests d) "total_regression_tests";
  negative_test_count ← opt_member (negativeTests d) "negative_test_count";
  cb ← member (report d) "cycle_breakdown";
  len ← opt_member cb "length";
  mret {| metric_total_tests := js_or total_tests zero;
          metric_execution_rate := execution_text +:+ "%";
          metric_pass_rate := pass_text +:+ "%";
          metric_open_defects := js_or openDefects zero;
          metric_regression_tests := js_or total_regression_tests zero;
          metric_negative_tests := js_or negative_test_count zero;
          metric_test_cycles := js_or len zero |}.

(** The seven metric cards as React renders them. *)
Definition metricCards (m : Metrics) : completion unit :=
  MetricCard (metric_total_tests m);;
  MetricCard (VStr (metric_execution_rate m));;
  MetricCard (VStr (metric_pass_rate m));;
  MetricCard (metric_open_defects m);;
  MetricCard (metric_regression_tests m);;
  MetricCard (metric_negative_tests m);;
  MetricCard (metric_test_cycles m).

(** [dashboardData.progress?.progress?.map((cycle, index) => <CycleCard
    key={index} cycle={cycle} />)]: one element for each cycle.  The
    callback only builds the element; React calls [CycleCard] when it
    renders it. *)
Definition cycleElements (d : DashboardData) : completion (list value) :=
  cycles ← opt_member (progress d) "progress";
  elements ← opt_map "dashboardData.progress?.progress?.map" mret cycles;
  mret (default [] elements).

(** The cycle cards of the page. *)
Definition cycleDetails (d : DashboardData) : completion (list Card) :=
  elements ← cycleElements d;
  mapM CycleCard elements.

(** *** Prepare chart data *)

Record ExecutionChart := {
  chart_labels : list value;
  chart_passed : list value;
  chart_failed : list value;
  chart_blocked : list value;
  chart_unexecuted : list value
}.

Definition getExecutionChartData (dashboardData : option DashboardData)
  : completion (option ExecutionChart) :=
  match dashboardData with
  | None => mret None
  | Some d =>
      guard ← opt_member (progress d) "progress";
      if negb (truthy guard) then mret None
      else
        cycles ← member (progress d) "progress";
        labels ← call_map "cycles.map"
                   (fun c => cycle ← member c "cycle"; member cycle "name") cycles;
        passed ← call_map "cycles.map" (fun c => member c "passed") cycles;
        failed ← call_map "cycles.map" (fun c => member c "failed") cycles;
        blocked ← call_map "cycles.map" (fun c => member c "blocked") cycles;
        unexecuted ← call_map "cycles.map" (fun c => member c "unexecuted") cycles;
        mret (Some {| chart_labels := labels;
                      chart_passed := passed;
                      chart_failed := failed;
                      chart_blocked := blocked;
                      chart_unexecuted := unexecuted |})
  end.

Definition getDistributionChartData (dashboardData : option DashboardData)
  : completion (option (list value)) :=
  match dashboardData with
  | None => mret None
  | Some d =>
      guard ← opt_member (report d) "overall_metrics";
      if negb (truthy guard) then mret None
      else
        metrics ← member (report d) "overall_metrics";
        passed ← member metrics "passed";
        failed ← member metrics "failed";
        blocked ← member metrics "blocked";
        unexecuted ← member metrics "unexecuted";
        mret (Some [passed; failed; blocked; unexecuted])
  end.

(** *** The page *)

Record ProjectOption := {
  project_option_id : value;
  project_option_key : value;
  project_option_name : value
}.

Record VersionOption := {
  version_option_id : value;
  version_option_name : value
}.

(** The callbacks of the two [map] calls of the header.  Each builds an
    [option] element; building it converts the [key] to a string. *)
Definition projectOption (project : value) : completion ProjectOption :=
  id ← member project "id";
  key ← member project "key";
  name ← member project "name";
  ToPrimitive id;;
  mret {| project_option_id := id;
          project_option_key := key;
          project_option_name := name |}.

Definition versionOption (version : value) : completion VersionOption :=
  id ← member version "id";
  name ← member version "name";
  ToPrimitive id;;
  mret {| version_option_id := id; version_option_name := name |}.

(** The children of the two kinds of [option] as React renders them. *)
Definition render_projectOption (o : ProjectOption) : completion unit :=
  child (project_option_key o);;
  child (project_option_name o).

Definition render_versionOption (o : VersionOption) : completion unit :=
  child (version_option_name o).

(** What the component function computes for the dashboard: the props
    of the metric cards and of the two charts, and the cycle elements. *)
Record DashboardElements := {
  element_metrics : Metrics;
  element_execution_chart : option ExecutionChart;
  element_distribution_chart : option (list value);
  element_cycles : list value
}.

Definition dashboardElements (d : DashboardData) : completion DashboardElements :=
  metrics ← keyMetrics d;
  execution_chart ← getExecutionChartData (Some d);
  distribution_chart ← getDistributionChartData (Some d);
  cycles ← cycleElements d;
  mret {| element_metrics := metrics;
          element_execution_chart := execution_chart;
          element_distribution_chart := distribution_chart;
          element_cycles := cycles |}.

Record DashboardView := {
  view_metrics : Metrics;
  view_execution_chart : option ExecutionChart;
  view_distribution_chart : option (list value);
  view_cards : list Card
}.

(** The dashboard as React renders it: the metric cards, then the cycle
    cards.  The two chart components are given their data; what they
    draw is not modelled. *)
Definition dashboardView (elements : DashboardElements) : completion DashboardView :=
  metricCards (element_metrics elements);;
  cards ← mapM CycleCard (element_cycles elements);
  mret {| view_metrics := element_metrics elements;
          view_execution_chart := element_execution_chart elements;
          view_distribution_chart := element_distribution_chart elements;
          view_cards := cards |}.

Inductive MainView :=
| LoadingSpinner
| Dashboard (view : DashboardView)
| Welcome.

Record Page := {
  page_projects : list ProjectOption;
  page_versions_disabled : bool;
  page_versions : list VersionOption;
  page_refresh_disabled : bool;
  page_error : option value;            (* the red banner and its text *)
  page_main : MainView
}.

(** What the component shows for a state.  First the component function
    runs: it evaluates the expressions of its JSX from top to bottom and
    returns the elements.  Then React renders the elements from top to
    bottom, calling the components among them: the options of the two
    selects, the error banner, the metric cards and the cycle cards.
    Styling and the chart options are left out. *)
Definition render (s : State) : completion Page :=
  project_options ← call_map "projects.map" projectOption (projects s);
  versions_length ← member (versions s) "length";
  version_options ← call_map "versions.map" versionOption (versions s);
  elements ← (if loading s then mret None
              else match dashboardData s with
                   | Some d => Some <$> dashboardElements d
                   | None => mret None
                   end);
  mapM render_projectOption project_options;;
  mapM render_versionOption version_options;;
  (if truthy (error s) then child (error s) else mret tt);;
  main ← (if loading s then mret LoadingSpinner
          else match elements with
               | Some elements => Dashboard <$> dashboardView elements
               | None => mret Welcome
               end);
  mret {| page_projects := project_options;
          page_versions_disabled := negb (truthy versions_length);
          page_versions := version_options;
          page_refresh_disabled :=
            negb (truthy (selectedProject s)) || negb (truthy (selectedVersion s)) || loading s;
          page_error := if truthy (error s) then Some (error s) else None;
          page_main := main |}.

End Platform.

(** ** A host for the closed examples

    The examples below run the model on concrete inputs.  There the
    built-ins are instantiated as follows: strings and arrays convert to
    [NaN], and [JSON.parse] knows the texts of a table. *)
Definition host_StringToNumber : string -> num := fun _ => NaN.
Definition host_ArrayToString : list value -> string := fun _ => "".
Definition host_NumberToString : Q -> string := fun _ => "1e+21".

Definition host_parse (table : list (string * value)) (text : value) : completion value :=
  match text with
  | VStr s =>
      match list_find (fun p => String.eqb (fst p) s) table with
      | Some (_, (_, v)) => Normal v
      | None => Throw (SyntaxError "Unexpected token")
      end
  | _ => Throw (SyntaxError "Unexpected token")
  end.

(** The MCP envelope [{result: {content: [{text: text}]}}]. *)
Definition envelope (text : string) : value :=
  obj [("result", obj [("content", VArr [obj [("text", VStr text)]])])].

(** ** Vocabulary of the statements *)

(** The four requests of one dashboard load, in the order of the source. *)
Definition dashboard_requests (s : State) : list Request :=
  [ {| toolName := "generate_test_report";
       arguments := obj [("project_id", selectedProject s);
                         ("version_id", selectedVersion s);
                         ("include_details", VBool false)] |};
    {| toolName := "get_execution_progress";
       arguments := obj [("project_id", selectedProject s);
                         ("version_id", selectedVersion s)] |};
    {| toolName := "get_regression_test_count";
       arguments := obj [("project_id", selectedProject s);
                         ("version_id", selectedVersion s)] |};
    {| toolName := "get_negative_test_count";
       arguments := obj [("project_id", selectedProject s);
                         ("version_id", selectedVersion s)] |} ].

(** The world once [loadDashboard] has reached its [await]. *)
Definition started (w : World) : World :=
  {| ui := with_error (VStr "") (with_loading true (ui w));
     sent := sent w ++ dashboard_requests (ui w) |}.

(** The world once [loadDashboard] has run to its end with the last state
    update [f] of its [try] or [catch] block. *)
Definition finished (f : State -> State) (w : World) : World :=
  {| ui := with_loading false (f (ui (started w)));
     sent := sent (started w) |}.

Definition failure_text (e : Error) : value :=
  VStr ("Failed to load dashboard: " +:+ message e).

Definition loaded (rs : list value) : option DashboardData :=
  Some {| report := element rs 0;
          progress := element rs 1;
          regressionTests := element rs 2;
          negativeTests := element rs 3 |}.


(** The response carries the content field: the guard
    [result.result && result.result.content] of [callTool] is truthy. *)
Definition has_content (result : value) : Prop :=
  ∃ r content,
    member result "result" = Normal r ∧ truthy r = true ∧
    member r "content" = Normal content ∧ truthy content = true.

(** The counts of the execution summary of the documentation, as a cycle,
    and its smoke-test cycle. *)
Definition summary_cycle : value :=
  obj [("cycle", obj [("id", VStr "100"); ("name", VStr "All tests")]);
       ("total_tests", int 450); ("passed", int 320); ("failed", int 45);
       ("blocked", int 15); ("unexecuted", int 70)].

Definition smoke_cycle : value :=
  obj [("cycle", obj [("id", VStr "101"); ("name", VStr "Smoke Test");
                      ("description", VStr "Basic functionality tests")]);
       ("total_tests", int 50); ("passed", int 45); ("failed", int 3);
       ("blocked", int 1); ("unexecuted", int 1);
       ("execution_rate", int 98); ("pass_rate", int 90)].

(** The smoke-test cycle as an upstream that sends the counts only. *)
Definition bare_cycle : value :=
  obj [("cycle", obj [("id", VStr "101"); ("name", VStr "Smoke Test")]);
       ("total_tests", int 50); ("passed", int 45); ("failed", int 3);
       ("blocked", int 1); ("unexecuted", int 1)].

(** A cycle without tests. *)
Definition empty_cycle : value :=
  obj [("cycle", obj [("id", VStr "102"); ("name", VStr "Not planned yet")]);
       ("total_tests", int 0); ("passed", int 0); ("failed", int 0);
       ("blocked", int 0); ("unexecuted", int 0)].

(** The world after one more request. *)
Definition with_request (name : string) (args : value) (w : World) : World :=
  {| ui := ui w; sent := sent w ++ [{| toolName := name; arguments := args |}] |}.

(** *** Concrete inputs of the examples *)

Definition dq : string := String "034"%char "".
Definition quoted (s : string) : string := dq +:+ s +:+ dq.

(** The JSON text of an upstream error and the object it parses to. *)
Definition upstream_error_text : string :=
  "{" +:+ quoted "error" +:+ ":" +:+ quoted "Version not found" +:+ "}".
Definition upstream_error : value := obj [("error", VStr "Version not found")].

Definition host_table : list (string * value) :=
  [("{}", obj []); ("null", VNull); (upstream_error_text, upstream_error)].
Definition host_JSON_parse : value -> completion value := host_parse host_table.

(** A project and a version are selected; nothing is loaded yet. *)
Definition selected : World :=
  {| ui := {| projects := VArr [];
              selectedProject := VStr "10001";
              selectedVersion := VStr "10100";
              versions := VArr [];
              dashboardData := None;
              loading := false;
              error := VStr "" |};
     sent := [] |}.

Definition empty_response : transport := Body (envelope "{}").
Definition null_response : transport := Body (envelope "null").
Definition error_response : transport := Body (envelope upstream_error_text).
Definition offline : transport := FetchRejects (TypeError "Failed to fetch").

Definition not_json : transport := JsonRejects (SyntaxError "Unexpected token <").

(** A cycle whose upstream sends the total only. *)
Definition countless_cycle : value :=
  obj [("cycle", obj [("id", VStr "103"); ("name", VStr "Exploratory")]);
       ("total_tests", int 50)].

(** A release status with two releases, the second without a version. *)
Definition releases_text : string :=
  "{" +:+ quoted "releases" +:+ ":[{" +:+ quoted "version" +:+ ":{" +:+
  quoted "id" +:+ ":" +:+ quoted "10100" +:+ "," +:+
  quoted "name" +:+ ":" +:+ quoted "v2.1.0" +:+ "}},{}]}".
Definition release_status : value :=
  obj [("releases",
        VArr [obj [("version", obj [("id", VStr "10100"); ("name", VStr "v2.1.0")])];
              obj []])].

(** A project list with one project, and one without the list. *)
Definition projects_text : string :=
  "{" +:+ quoted "projects" +:+ ":[{" +:+ quoted "id" +:+ ":" +:+ quoted "10001" +:+ "," +:+
  quoted "key" +:+ ":" +:+ quoted "MYAPP" +:+ "," +:+
  quoted "name" +:+ ":" +:+ quoted "My Application" +:+ "}]}".
Definition project_list : value :=
  obj [("projects",
        VArr [obj [("id", VStr "10001"); ("key", VStr "MYAPP");
                   ("name", VStr "My Application")]])].

Definition more_table : list (string * value) :=
  [("{}", obj []); ("null", VNull); (releases_text, release_status);
   (projects_text, project_list)].
Definition more_JSON_parse : value -> completion value := host_parse more_table.

(** The report, the progress and the two counts in the shapes of the
    documentation; the regression count is the one of a later moment. *)
Definition sample_metrics : value :=
  obj [("total_tests", int 450); ("passed", int 320); ("failed", int 45);
       ("blocked", int 15); ("unexecuted", int 70);
       ("execution_rate", number (844 # 10));
       ("pass_rate", number (711 # 10));
       ("regression_test_count", int 125);
       ("negative_test_count", int 35)].

Definition sample_report : value :=
  obj [("project_id", VStr "10001"); ("version_id", VStr "10100");
       ("overall_metrics", sample_metrics);
       ("cycle_breakdown",
        VArr [obj [("cycle", obj [("id", VStr "101"); ("name", VStr "Smoke Test")]);
                   ("metrics", obj [("total", int 50); ("passed", int 45);
                                    ("failed", int 3); ("blocked", int 1);
                                    ("unexecuted", int 1);
                                    ("execution_rate", int 98);
                                    ("pass_rate", int 90)])]]);
       ("defect_summary",
        obj [("totalDefects", int 23); ("openDefects", int 8);
             ("resolvedDefects", int 15)])].

Definition sample_progress : value :=
  obj [("project_id", VStr "10001"); ("version_id", VStr "10100");
       ("progress", VArr [smoke_cycle; empty_cycle])].

Definition later_regression : value :=
  obj [("project_id", VStr "10001"); ("version_id", VStr "10100");
       ("total_regression_tests", int 130)].

Definition sample_negative : value :=
  obj [("project_id", VStr "10001"); ("version_id", VStr "10100");
       ("negative_test_count", int 35)].

Definition sample_data : DashboardData :=
  {| report := sample_report; progress := sample_progress;
     regressionTests := later_regression; negativeTests := sample_negative |}.

(** The negative count of a later moment. *)
Definition later_negative : value :=
  obj [("project_id", VStr "10001"); ("version_id", VStr "10100");
       ("negative_test_count", int 40)].

(** The JSON texts of these results, built like the values they parse
    to. *)
Definition json_object (fields : list (string * string)) : string :=
  "{" +:+ String.concat "," ((λ field, quoted field.1 +:+ ":" +:+ field.2) <$> fields) +:+ "}".
Definition json_array (items : list string) : string :=
  "[" +:+ String.concat "," items +:+ "]".

Definition report_text : string :=
  json_object
    [("project_id", quoted "10001"); ("version_id", quoted "10100");
     ("overall_metrics",
      json_object [("total_tests", "450"); ("passed", "320"); ("failed", "45");
                   ("blocked", "15"); ("unexecuted", "70");
                   ("execution_rate", "84.4"); ("pass_rate", "71.1");
                   ("regression_test_count", "125");
                   ("negative_test_count", "35")]);
     ("cycle_breakdown",
      json_array
        [json_object
           [("cycle", json_object [("id", quoted "101"); ("name", quoted "Smoke Test")]);
            ("metrics", json_object [("total", "50"); ("passed", "45"); ("failed", "3");
                                     ("blocked", "1"); ("unexecuted", "1");
                                     ("execution_rate", "98"); ("pass_rate", "90")])]]);
     ("defect_summary",
      json_object [("totalDefects", "23"); ("openDefects", "8");
                   ("resolvedDefects", "15")])].

Definition progress_text : string :=
  json_object
    [("project_id", quoted "10001"); ("version_id", quoted "10100");
     ("progress",
      json_array
        [json_object
           [("cycle", json_object [("id", quoted "101"); ("name", quoted "Smoke Test");
                                   ("description", quoted "Basic functionality tests")]);
            ("total_tests", "50"); ("passed", "45"); ("failed", "3");
            ("blocked", "1"); ("unexecuted", "1");
            ("execution_rate", "98"); ("pass_rate", "90")];
         json_object
           [("cycle", json_object [("id", quoted "102");
                                   ("name", quoted "Not planned yet")]);
            ("total_tests", "0"); ("passed", "0"); ("failed", "0");
            ("blocked", "0"); ("unexecuted", "0")]])].

Definition regression_text : string :=
  json_object [("project_id", quoted "10001"); ("version_id", quoted "10100");
               ("total_regression_tests", "130")].

Definition negative_text : string :=
  json_object [("project_id", quoted "10001"); ("version_id", quoted "10100");
               ("negative_test_count", "40")].

Definition sample_table : list (string * value) :=
  [(report_text, sample_report); (progress_text, sample_progress);
   (regression_text, later_regression); (negative_text, later_negative);
   (upstream_error_text, upstream_error)].
Definition sample_JSON_parse : value -> completion value := host_parse sample_table.

Definition report_response : transport := Body (envelope report_text).
Definition progress_response : transport := Body (envelope progress_text).
Definition regression_response : transport := Body (envelope regression_text).
Definition negative_response : transport := Body (envelope negative_text).

(** The reading of 23 tests out of 80: 28.75 percent in exact
    arithmetic. *)
Definition quarter_cycle : value :=
  obj [("cycle", obj [("id", VStr "104"); ("name", VStr "Regression")]);
       ("total_tests", int 80); ("passed", int 23); ("failed", int 0);
       ("blocked", int 0); ("unexecuted", int 57)].

(** A cycle that reports more passed and more unexecuted tests than it
    has tests. *)
Definition overfull_cycle : value :=
  obj [("cycle", obj [("id", VStr "105"); ("name", VStr "Overfull")]);
       ("total_tests", int 50); ("passed", int 60); ("failed", int 0);
       ("blocked", int 0); ("unexecuted", int 60)].

(** A cycle whose name is given in two languages. *)
Definition bilingual_cycle : value :=
  obj [("cycle", obj [("id", VStr "106");
                      ("name", obj [("en", VStr "Smoke Test"); ("de", VStr "Rauchtest")])]);
       ("total_tests", int 50); ("passed", int 45); ("failed", int 3);
       ("blocked", int 1); ("unexecuted", int 1)].

(** [v.k1.k2] and so on. *)
Definition read (v : value) (path : list string) : completion value :=
  foldl (fun c k => o ← c; member o k) (Normal v) path.

(** The merge rule in the words of the specification, to compare with
    what [loadDashboard] stores: the total of the merged report is the one
    of the summary call, the two counts are copied into its overall
    metrics, and its cycle breakdown has one entry for each cycle of the
    progress call. *)
Definition merge_rule_as_stated
    (summary progress_result regression negative : value) (merged : DashboardData) : Prop :=
  read (report merged) ["overall_metrics"; "total_tests"] =
    read summary ["overall_metrics"; "total_tests"] ∧
  read (report merged) ["overall_metrics"; "regression_test_count"] =
    read regression ["total_regression_tests"] ∧
  read (report merged) ["overall_metrics"; "negative_test_count"] =
    read negative ["negative_test_count"] ∧
  ∃ cycles entries,
    read progress_result ["progress"] = Normal (VArr cycles) ∧
    read (report merged) ["cycle_breakdown"] = Normal (VArr entries) ∧
    length entries = length cycles.

(** The percentage of a progress bar by the operations on binary64
    floats that the Standard Library specifies, to compare [round64]
    with. *)
Definition binary64 (z : Z) : spec_float := binary_normalize 53 1024 z 0 false.

Definition SF2num (s : spec_float) : num :=
  match s with
  | S754_zero _ => Fin 0
  | S754_infinity negative => Inf negative
  | S754_nan => NaN
  | S754_finite negative m e =>
      Fin (Qred ((if negative then -1 else 1) * inject_Z (Zpos m) * pow2 e))
  end.

(** The same number. *)
Definition num_eqb (a b : num) : bool :=
  match a, b with
  | NaN, NaN => true
  | Inf s, Inf s' => Bool.eqb s s'
  | Fin x, Fin y => Qeq_bool x y
  | _, _ => false
  end.

Definition binary64_percentage (v t : Z) : num :=
  SF2num (SFmul 53 1024 (SFdiv 53 1024 (binary64 v) (binary64 t)) (binary64 100)).

(** The pairs of a value and a total with [0 <= value <= total] and
    [1 <= total <= n]. *)
Definition counts_upto (n : nat) : list (Z * Z) :=
  t ← seq 1 n; v ← seq 0 (S t); [(Z.of_nat v, Z.of_nat t)].

(** The reads whose values a cycle card puts between tags, in the order
    of the JSX; [inner] is [cycle.cycle]. *)
Definition card_children (cycle inner : value) : list (completion value) :=
  [member inner "name"; member inner "description"; member cycle "total_tests";
   member cycle "passed"; member cycle "failed"; member cycle "blocked";
   member cycle "unexecuted"].

(** A read gives a value that React can render. *)
Definition renders (read : completion value) : Prop :=
  ∃ v, read = Normal v ∧ valid_child v = true.

(** The dashboard of a page, when the page shows one. *)
Definition shown_dashboard (page : Page) : option DashboardView :=
  match page_main page with
  | Dashboard view => Some view
  | _ => None
  end.

(** A progress bar shows a rate within the tolerance of rounding: its
    percentage is a double [p] within the [2^-51]th part of the rate, of
    the same sign, and its text is [p] printed with one decimal, the
    tenths nearest to [p]; so what is printed differs from the rate by at
    most half a tenth and that part of the rate. *)
Definition shows_rate (bar : Bar) (rate : Q) : Prop :=
  ∃ p, bar_percentage bar = Fin p ∧
       (Qabs (p - rate) <= Qabs rate * pow2 (-51))%Q ∧
       ((p < 0)%Q ↔ (rate < 0)%Q) ∧
       bar_text bar = fixed1 p +:+ "%" ∧
       (Qabs (inject_Z (tenths p) / 10 - Qabs rate) <= (1 # 20) + Qabs rate * pow2 (-51))%Q.

(** What holds of the combined promise after the promises listed in
    [seen] have settled. *)
Definition all_inv (ps : list promise) (seen : list nat) (a : AllState) : Prop :=
  length (slots a) = length ps ∧
  (∀ i v, slots a !! i = Some (Some v) → ps !! i = Some (Normal v) ∧ i ∈ seen) ∧
  match settled a with
  | None =>
      mapM id (slots a) = None ∧
      ∀ i p, i ∈ seen → ps !! i = Some p →
             ∃ v, p = Normal v ∧ slots a !! i = Some (Some v)
  | Some (Normal vs) => slots a = Some <$> vs
  | Some (Throw e) => ∃ j, j ∈ seen ∧ ps !! j = Some (Throw e)
  end.

(** * Properties *)

(** ** Rounding *)

Section Rounding.

Local Open Scope Q_scope.

Lemma pow2_pos e : 0 < pow2 e.
Proof. apply Qpower_0_lt. reflexivity. Qed.

Lemma pow2_plus a b : pow2 (a + b) == pow2 a * pow2 b.
Proof. apply Qpower_plus. discriminate. Qed.

Lemma pow2_le a b : (a <= b)%Z -> pow2 a <= pow2 b.
Proof. intros H. apply Qpower_le_compat_l; [exact H|]. discriminate. Qed.

Lemma pow2_lt a b : (a < b)%Z -> pow2 a < pow2 b.
Proof. intros H. apply Qpower_lt_compat_l; [exact H|]. reflexivity. Qed.

Lemma pow2_lt_inv a b : pow2 a < pow2 b -> (a < b)%Z.
Proof. intros H. apply (Qpower_lt_compat_l_inv 2); [exact H|]. reflexivity. Qed.

Lemma pow2_Z n : (0 <= n)%Z -> pow2 n == inject_Z (2 ^ n).
Proof. intros H. unfold pow2. rewrite Zpower_Qpower by exact H. reflexivity. Qed.

Lemma Qlt_bool_true a b : Qlt_bool a b = true <-> a < b.
Proof.
  unfold Qlt_bool. destruct (Qle_bool b a) eqn:E; simpl.
  - apply Qle_bool_iff in E. split; [discriminate|]. intros H. lra.
  - split; [|reflexivity]. intros _. apply Qnot_le_lt. intros H.
    apply Qle_bool_iff in H. congruence.
Qed.

Lemma Qlt_bool_false a b : Qlt_bool a b = false <-> b <= a.
Proof.
  unfold Qlt_bool. destruct (Qle_bool b a) eqn:E; simpl.
  - apply Qle_bool_iff in E. split; [intros _; exact E|reflexivity].
  - split; [discriminate|]. intros H. apply Qle_bool_iff in H. congruence.
Qed.

Lemma ilog2_spec x : 0 < x -> pow2 (ilog2 x) <= x /\ x < pow2 (ilog2 x + 1).
Proof.
  intros Hx. destruct x as [n d]. unfold ilog2. cbn [Qnum Qden].
  assert (Hn : (0 < n)%Z).
  { unfold Qlt in Hx. simpl in Hx. lia. }
  set (a := Z.log2 n). set (b := Z.log2 (Z.pos d)).
  assert (Ha : (0 <= a)%Z) by apply Z.log2_nonneg.
  assert (Hb : (0 <= b)%Z) by apply Z.log2_nonneg.
  destruct (Z.log2_spec n Hn) as [Ha1 Ha2]. fold a in Ha1, Ha2.
  destruct (Z.log2_spec (Z.pos d) eq_refl) as [Hb1 Hb2]. fold b in Hb1, Hb2.
  assert (Hq : n # d == inject_Z n / inject_Z (Z.pos d)) by apply Qmake_Qdiv.
  assert (HD : 0 < inject_Z (Z.pos d)) by reflexivity.
  assert (A1 : pow2 a <= inject_Z n) by (rewrite pow2_Z by lia; rewrite <- Zle_Qle; lia).
  assert (A2 : inject_Z n < pow2 (a + 1)).
  { rewrite pow2_Z by lia. rewrite <- Zlt_Qlt. replace (a + 1)%Z with (Z.succ a) by lia. lia. }
  assert (B1 : pow2 b <= inject_Z (Z.pos d)) by (rewrite pow2_Z by lia; rewrite <- Zle_Qle; lia).
  assert (B2 : inject_Z (Z.pos d) < pow2 (b + 1)).
  { rewrite pow2_Z by lia. rewrite <- Zlt_Qlt. replace (b + 1)%Z with (Z.succ b) by lia. lia. }
  assert (Hlow : pow2 (a - b - 1) <= n # d).
  { rewrite Hq. apply Qle_shift_div_l; [exact HD|].
    apply Qle_trans with (pow2 (a - b - 1) * pow2 (b + 1)).
    - apply Qmult_le_l; [apply pow2_pos|]. lra.
    - rewrite <- pow2_plus. replace (a - b - 1 + (b + 1))%Z with a by lia. exact A1. }
  assert (Hup : n # d < pow2 (a - b + 1)).
  { rewrite Hq. apply Qlt_shift_div_r; [exact HD|].
    apply Qlt_le_trans with (pow2 (a + 1)); [exact A2|].
    apply Qle_trans with (pow2 (a - b + 1) * pow2 b).
    - rewrite <- pow2_plus. replace (a - b + 1 + b)%Z with (a + 1)%Z by lia. apply Qle_refl.
    - apply Qmult_le_l; [apply pow2_pos|]. exact B1. }
  destruct (Qlt_bool (n # d) (pow2 (a - b))) eqn:E.
  - apply Qlt_bool_true in E. split; [exact Hlow|].
    replace (a - b - 1 + 1)%Z with (a - b)%Z by lia. exact E.
  - apply Qlt_bool_false in E. split; [exact E | exact Hup].
Qed.

Lemma nearest_even_close m : Qabs (inject_Z (nearest_even m) - m) <= 1 # 2.
Proof.
  unfold nearest_even.
  pose proof (Qfloor_le m) as Hl. pose proof (Qlt_floor m) as Hu.
  rewrite inject_Z_plus in Hu. change (inject_Z 1) with 1 in Hu.
  set (f := Qfloor m) in *.
  apply Qabs_Qle_condition.
  destruct (Qcompare (m - inject_Z f) (1 # 2)) eqn:E.
  - apply Qeq_alt in E. destruct (Z.even f).
    + split; lra.
    + rewrite inject_Z_plus. change (inject_Z 1) with 1. split; lra.
  - apply Qlt_alt in E. split; lra.
  - apply Qgt_alt in E. rewrite inject_Z_plus. change (inject_Z 1) with 1. split; lra.
Qed.

Lemma nearest_even_le m k : m <= inject_Z k -> (nearest_even m <= k)%Z.
Proof.
  intros H. unfold nearest_even.
  pose proof (Qfloor_le m) as Hl. pose proof (Qlt_floor m) as Hu.
  rewrite inject_Z_plus in Hu. change (inject_Z 1) with 1 in Hu.
  set (f := Qfloor m) in *.
  assert (Hf : (f <= k)%Z) by (rewrite Zle_Qle; lra).
  assert (Hlt : m - inject_Z f > 0 -> (f + 1 <= k)%Z).
  { intros Hpos. assert (inject_Z f < inject_Z k) by lra.
    rewrite <- Zlt_Qlt in H0. lia. }
  destruct (Qcompare (m - inject_Z f) (1 # 2)) eqn:E.
  - apply Qeq_alt in E. destruct (Z.even f); [exact Hf|]. apply Hlt. lra.
  - exact Hf.
  - apply Qgt_alt in E. apply Hlt. lra.
Qed.

Lemma nearest_even_ge m k : inject_Z k <= m -> (k <= nearest_even m)%Z.
Proof.
  intros H. unfold nearest_even.
  pose proof (Qfloor_le m) as Hl. pose proof (Qlt_floor m) as Hu.
  rewrite inject_Z_plus in Hu. change (inject_Z 1) with 1 in Hu.
  set (f := Qfloor m) in *.
  assert (Hf : (k <= f)%Z).
  { assert (inject_Z k < inject_Z (f + 1)).
    { rewrite inject_Z_plus. change (inject_Z 1) with 1. lra. }
    rewrite <- Zlt_Qlt in H0. lia. }
  destruct (Qcompare (m - inject_Z f) (1 # 2)); [destruct (Z.even f)| |]; lia.
Qed.

Lemma nearest_even_Z k : nearest_even (inject_Z k) = k.
Proof.
  apply Z.le_antisymm.
  - apply nearest_even_le. apply Qle_refl.
  - apply nearest_even_ge. apply Qle_refl.
Qed.

Lemma nearest_even_comp m m' : m == m' -> nearest_even m = nearest_even m'.
Proof.
  intros H. unfold nearest_even. rewrite (Qfloor_comp _ _ H).
  assert (E : Qcompare (m - inject_Z (Qfloor m')) (1 # 2) =
              Qcompare (m' - inject_Z (Qfloor m')) (1 # 2)).
  { apply Qcompare_comp; [|reflexivity]. rewrite H. reflexivity. }
  rewrite E. reflexivity.
Qed.

Lemma Qzero_true x : Qzero x = true <-> x == 0.
Proof. unfold Qzero. apply Qeq_bool_iff. Qed.

Lemma Qzero_false x : Qzero x = false <-> ~ x == 0.
Proof.
  unfold Qzero. destruct (Qeq_bool x 0) eqn:E.
  - apply Qeq_bool_iff in E. split; [discriminate|]. intros H. destruct (H E).
  - split; [|reflexivity]. intros _ H. apply Qeq_bool_iff in H. congruence.
Qed.

Lemma round64_zero x : x == 0 -> round64 x = Fin 0.
Proof. intros H. unfold round64. apply Qzero_true in H. rewrite H. reflexivity. Qed.

(** A value that is not zero and does not overflow is rounded to a
    multiple of the spacing of its binade. *)
Lemma round64_finite x :
  ~ x == 0 ->
  let ulp := pow2 (Z.max (ilog2 (Qabs x)) (-1022) - 52) in
  let k := nearest_even (x / ulp) in
  Qabs (inject_Z k * ulp) < pow2 1024 ->
  round64 x = Fin (Qred (inject_Z k * ulp)).
Proof.
  intros Hx ulp k Hr. unfold round64. apply Qzero_false in Hx. rewrite Hx.
  fold ulp. fold k.
  destruct (Qle_bool (pow2 1024) (Qabs (Qred (inject_Z k * ulp)))) eqn:E; [|reflexivity].
  apply Qle_bool_iff in E. rewrite Qred_correct in E. lra.
Qed.

Lemma Qabs_pos_lt x : ~ x == 0 -> 0 < Qabs x.
Proof.
  intros H. destruct (Qlt_le_dec 0 (Qabs x)) as [|Hle]; [assumption|].
  exfalso. apply H. revert Hle. apply Qabs_case; intros; lra.
Qed.

Lemma ilog2_lower x e : pow2 e <= x -> (e <= ilog2 x)%Z.
Proof.
  intros H. assert (Hx : 0 < x) by (pose proof (pow2_pos e); lra).
  destruct (ilog2_spec x Hx) as [_ Hu].
  assert (pow2 e < pow2 (ilog2 x + 1)) by lra.
  apply pow2_lt_inv in H0. lia.
Qed.

Lemma ilog2_upper x e : 0 < x -> x < pow2 e -> (ilog2 x < e)%Z.
Proof.
  intros Hx H. destruct (ilog2_spec x Hx) as [Hl _].
  assert (pow2 (ilog2 x) < pow2 e) by lra.
  apply pow2_lt_inv in H0. exact H0.
Qed.

Lemma pow2_inv e : / pow2 e == pow2 (- e).
Proof. unfold pow2. rewrite Qpower_opp. reflexivity. Qed.

Lemma Qdiv_pow2 x e : x / pow2 e == x * pow2 (- e).
Proof. unfold Qdiv. rewrite pow2_inv. reflexivity. Qed.

(** The relative error of rounding in the normal range. *)
Lemma round64_error x :
  pow2 (-1022) <= Qabs x -> Qabs x <= pow2 1023 ->
  exists r, round64 x = Fin r /\ Qabs (r - x) <= Qabs x * pow2 (-53).
Proof.
  intros Hlow Hup.
  assert (Hx : ~ x == 0).
  { intros H. rewrite H in Hlow. change (Qabs 0) with 0 in Hlow.
    pose proof (pow2_pos (-1022)). lra. }
  pose proof (ilog2_lower _ _ Hlow) as He.
  destruct (ilog2_spec (Qabs x) (Qabs_pos_lt x Hx)) as [Hl Hu].
  pose proof (round64_finite x Hx) as Hfin. cbv zeta in Hfin.
  set (e := ilog2 (Qabs x)) in *.
  rewrite (Z.max_l e (-1022)) in Hfin by lia.
  set (ulp := pow2 (e - 52)) in *.
  set (k := nearest_even (x / ulp)) in *.
  assert (Hulp : 0 < ulp) by apply pow2_pos.
  assert (Hhalf : ulp * (1 # 2) == pow2 e * pow2 (-53)).
  { unfold ulp. replace (e - 52)%Z with (e + -52)%Z by lia. rewrite pow2_plus.
    assert (pow2 (-52) * (1 # 2) == pow2 (-53)) by reflexivity.
    rewrite <- H. ring. }
  assert (Herr : Qabs (inject_Z k * ulp - x) <= Qabs x * pow2 (-53)).
  { assert (E : inject_Z k * ulp - x == (inject_Z k - x / ulp) * ulp).
    { field. lra. }
    rewrite E, Qabs_Qmult, (Qabs_pos ulp) by lra.
    apply Qle_trans with ((1 # 2) * ulp).
    - apply Qmult_le_compat_r; [apply nearest_even_close|lra].
    - rewrite Qmult_comm, Hhalf. apply Qmult_le_compat_r; [exact Hl|].
      pose proof (pow2_pos (-53)). lra. }
  exists (Qred (inject_Z k * ulp)). split.
  - apply Hfin.
    assert (Qabs (inject_Z k * ulp) <= Qabs x + Qabs x * pow2 (-53)).
    { assert (E : inject_Z k * ulp == x + (inject_Z k * ulp - x)) by ring.
      rewrite E at 1. eapply Qle_trans; [apply Qabs_triangle|]. lra. }
    assert (pow2 1023 + pow2 1023 * pow2 (-53) < pow2 1024) by reflexivity.
    assert (Qabs x * pow2 (-53) <= pow2 1023 * pow2 (-53)).
    { apply Qmult_le_compat_r; [exact Hup|]. pose proof (pow2_pos (-53)). lra. }
    lra.
  - rewrite Qred_correct. exact Herr.
Qed.

Lemma pow2_scale K e :
  (e <= 52)%Z -> inject_Z K / pow2 (e - 52) == inject_Z (K * 2 ^ (52 - e)).
Proof.
  intros He. rewrite Qdiv_pow2, inject_Z_mult, <- pow2_Z by lia.
  replace (- (e - 52))%Z with (52 - e)%Z by lia. reflexivity.
Qed.

Lemma pow2_unscale K e :
  (e <= 52)%Z -> inject_Z (K * 2 ^ (52 - e)) * pow2 (e - 52) == inject_Z K.
Proof.
  intros He. rewrite <- pow2_scale by exact He. field.
  pose proof (pow2_pos (e - 52)). lra.
Qed.

(** Rounding does not leave an interval whose ends are integers below
    2^53: they are doubles of every binade below theirs. *)
Lemma round64_bounded x K :
  0 <= x -> x <= inject_Z K -> (K < 2 ^ 53)%Z ->
  exists r, round64 x = Fin r /\ 0 <= r /\ r <= inject_Z K.
Proof.
  intros H0 HK Hlt.
  destruct (Qzero x) eqn:Hz.
  { exists 0. unfold round64. rewrite Hz. split; [reflexivity|]. split; lra. }
  apply Qzero_false in Hz.
  assert (Hpos : 0 < x) by (destruct (Qlt_le_dec 0 x); [assumption|]; destruct Hz; lra).
  assert (Habs : Qabs x == x) by (apply Qabs_pos; lra).
  assert (H53 : inject_Z K < pow2 53).
  { rewrite pow2_Z by lia. rewrite <- Zlt_Qlt. exact Hlt. }
  assert (He : (ilog2 (Qabs x) < 53)%Z).
  { apply ilog2_upper; rewrite Habs; lra. }
  pose proof (round64_finite x Hz) as Hfin. cbv zeta in Hfin.
  set (e := Z.max (ilog2 (Qabs x)) (-1022)) in *.
  assert (He' : (e <= 52)%Z) by (unfold e; lia).
  set (ulp := pow2 (e - 52)) in *.
  set (k := nearest_even (x / ulp)) in *.
  assert (Hulp : 0 < ulp) by apply pow2_pos.
  assert (Hk0 : (0 <= k)%Z).
  { apply nearest_even_ge. change (inject_Z 0) with 0.
    apply Qle_shift_div_l; [exact Hulp|]. lra. }
  assert (HkM : (k <= K * 2 ^ (52 - e))%Z).
  { apply nearest_even_le. rewrite <- pow2_scale by exact He'. fold ulp.
    apply Qle_shift_div_l; [exact Hulp|].
    assert (E : x / ulp * ulp == x) by (field; lra). rewrite E. exact HK. }
  assert (Hr0 : 0 <= inject_Z k * ulp).
  { apply Qmult_le_0_compat; [|lra]. change 0 with (inject_Z 0). rewrite <- Zle_Qle. exact Hk0. }
  assert (HrK : inject_Z k * ulp <= inject_Z K).
  { rewrite <- (pow2_unscale K e He'). fold ulp.
    apply Qmult_le_compat_r; [|lra]. rewrite <- Zle_Qle. exact HkM. }
  exists (Qred (inject_Z k * ulp)). split; [|rewrite Qred_correct; split; assumption].
  apply Hfin. rewrite Qabs_pos by exact Hr0.
  assert (pow2 53 < pow2 1024) by (apply pow2_lt; lia). lra.
Qed.

(** Integers below 2^53 in magnitude are doubles. *)
Lemma round64_integer z :
  (Z.abs z < 2 ^ 53)%Z -> exists r, round64 (inject_Z z) = Fin r /\ r == inject_Z z.
Proof.
  intros Hlt.
  destruct (Qzero (inject_Z z)) eqn:Hz.
  { exists 0. unfold round64. rewrite Hz. split; [reflexivity|].
    apply Qzero_true in Hz. symmetry. exact Hz. }
  apply Qzero_false in Hz.
  assert (Hne : z <> 0%Z) by (intros ->; apply Hz; reflexivity).
  assert (Habs : Qabs (inject_Z z) == inject_Z (Z.abs z)).
  { unfold inject_Z, Qabs. reflexivity. }
  assert (H53 : Qabs (inject_Z z) < pow2 53).
  { rewrite Habs, pow2_Z by lia. rewrite <- Zlt_Qlt. exact Hlt. }
  assert (H1 : pow2 0 <= Qabs (inject_Z z)).
  { rewrite Habs. change (pow2 0) with (inject_Z 1). rewrite <- Zle_Qle. lia. }
  pose proof (ilog2_lower _ _ H1) as Hlo.
  assert (Hhi : (ilog2 (Qabs (inject_Z z)) < 53)%Z).
  { apply ilog2_upper; [|exact H53]. pose proof (pow2_pos 0). lra. }
  pose proof (round64_finite (inject_Z z) Hz) as Hfin. cbv zeta in Hfin.
  set (e := Z.max (ilog2 (Qabs (inject_Z z))) (-1022)) in *.
  assert (He' : (e <= 52)%Z) by (unfold e; lia).
  set (ulp := pow2 (e - 52)) in *.
  assert (Hk : nearest_even (inject_Z z / ulp) = (z * 2 ^ (52 - e))%Z).
  { unfold ulp. rewrite (nearest_even_comp _ _ (pow2_scale z e He')). apply nearest_even_Z. }
  rewrite Hk in Hfin.
  assert (Hr : inject_Z (z * 2 ^ (52 - e)) * ulp == inject_Z z) by (apply pow2_unscale; exact He').
  exists (Qred (inject_Z (z * 2 ^ (52 - e)) * ulp)). split; [|rewrite Qred_correct; exact Hr].
  apply Hfin. rewrite Hr.
  assert (pow2 53 < pow2 1024) by (apply pow2_lt; lia). lra.
Qed.

Lemma ilog2_unique x e : pow2 e <= x -> x < pow2 (e + 1) -> ilog2 x = e.
Proof.
  intros Hl Hu. assert (Hx : 0 < x) by (pose proof (pow2_pos e); lra).
  pose proof (ilog2_lower x e Hl). pose proof (ilog2_upper x (e + 1) Hx Hu). lia.
Qed.

Lemma ilog2_comp x y : 0 < x -> x == y -> ilog2 x = ilog2 y.
Proof.
  intros Hx H. destruct (ilog2_spec x Hx) as [Hl Hu].
  symmetry. apply ilog2_unique; rewrite <- H; assumption.
Qed.

Lemma Qzero_comp x y : x == y -> Qzero x = Qzero y.
Proof.
  intros H. destruct (Qzero y) eqn:E.
  - apply Qzero_true. apply Qzero_true in E. rewrite H. exact E.
  - apply Qzero_false. apply Qzero_false in E. rewrite H. exact E.
Qed.

Lemma Qlt_bool_comp a b a' b' : a == a' -> b == b' -> Qlt_bool a b = Qlt_bool a' b'.
Proof.
  intros Ha Hb. destruct (Qlt_bool a' b') eqn:E.
  - apply Qlt_bool_true. apply Qlt_bool_true in E. rewrite Ha, Hb. exact E.
  - apply Qlt_bool_false. apply Qlt_bool_false in E. rewrite Ha, Hb. exact E.
Qed.

Lemma Qle_bool_comp a b a' b' : a == a' -> b == b' -> Qle_bool a b = Qle_bool a' b'.
Proof.
  intros Ha Hb. destruct (Qle_bool a' b') eqn:E.
  - apply Qle_bool_iff. apply Qle_bool_iff in E. rewrite Ha, Hb. exact E.
  - destruct (Qle_bool a b) eqn:E'; [|reflexivity].
    apply Qle_bool_iff in E'. rewrite Ha, Hb in E'. apply Qle_bool_iff in E'. congruence.
Qed.

(** Rounding depends on the rational, not on the fraction that gives
    it. *)
Lemma round64_comp x y : x == y -> round64 x = round64 y.
Proof.
  intros H. unfold round64. rewrite (Qzero_comp x y H).
  destruct (Qzero y) eqn:Hz; [reflexivity|].
  apply Qzero_false in Hz.
  assert (Habs : Qabs x == Qabs y) by (rewrite H; reflexivity).
  assert (Hpos : 0 < Qabs x) by (apply Qabs_pos_lt; rewrite H; exact Hz).
  rewrite (ilog2_comp _ _ Hpos Habs).
  set (ulp := pow2 (Z.max (ilog2 (Qabs y)) (-1022) - 52)).
  assert (Hk : nearest_even (x / ulp) = nearest_even (y / ulp)).
  { apply nearest_even_comp. rewrite H. reflexivity. }
  rewrite Hk. rewrite (Qlt_bool_comp x 0 y 0 H (Qeq_refl 0)). reflexivity.
Qed.

(** The percentage of a progress bar: a division and a multiplication,
    each rounded. *)
Lemma percent_zero v t : 0 < t -> v == 0 -> num_mul (num_div (Fin v) (Fin t)) (Fin 100) = Fin 0.
Proof.
  intros Ht Hv. unfold num_div.
  assert (Hz : Qzero t = false) by (apply Qzero_false; lra).
  rewrite Hz. rewrite (round64_zero (v / t)).
  - simpl. apply round64_zero. ring.
  - rewrite Hv. unfold Qdiv. ring.
Qed.

Lemma percent_error v t :
  0 < t -> pow2 (-60) <= Qabs (v / t) -> Qabs (v / t) <= pow2 60 ->
  exists p, num_mul (num_div (Fin v) (Fin t)) (Fin 100) = Fin p /\
            Qabs (p - v / t * 100) <= Qabs (v / t * 100) * pow2 (-51) /\
            (p < 0 <-> v / t * 100 < 0).
Proof.
  intros Ht Hlo Hhi. unfold num_div.
  assert (Hz : Qzero t = false) by (apply Qzero_false; lra).
  rewrite Hz. set (x := v / t) in *.
  assert (L1 : pow2 (-1022) <= pow2 (-60)) by (apply pow2_le; lia).
  assert (L2 : pow2 60 <= pow2 1023) by (apply pow2_le; lia).
  destruct (round64_error x) as (d & Hd & Ed); [lra|lra|].
  rewrite Hd. cbn [num_mul].
  change (pow2 (-53)) with (1 # 9007199254740992) in Ed.
  change (pow2 (-60)) with (1 # 1152921504606846976) in Hlo.
  change (pow2 60) with (1152921504606846976 # 1) in Hhi.
  assert (Hd100 : pow2 (-1022) <= Qabs (d * 100) /\ Qabs (d * 100) <= pow2 1023).
  { assert (pow2 (-1022) <= 1 # 1152921504606846976) by exact L1.
    assert (pow2 70 <= pow2 1023) by (apply pow2_le; lia).
    change (pow2 70) with (1180591620717411303424 # 1) in H0.
    revert Hlo Hhi Ed. apply (Qabs_case x); intros Hx Hlo Hhi Ed;
      apply Qabs_Qle_condition in Ed;
      apply (Qabs_case (d * 100)); intros; split; lra. }
  destruct Hd100 as [D1 D2].
  destruct (round64_error (d * 100) D1 D2) as (p & Hp & Ep).
  exists p. split; [exact Hp|].
  change (pow2 (-53)) with (1 # 9007199254740992) in Ep.
  change (pow2 (-51)) with (1 # 2251799813685248).
  revert Hlo Hhi Ed Ep. apply (Qabs_case x); intros Hx Hlo Hhi Ed Ep;
    apply Qabs_Qle_condition in Ed.
  - assert (0 <= d * 100) by lra. rewrite (Qabs_pos (d * 100)) in Ep by assumption.
    apply Qabs_Qle_condition in Ep.
    rewrite (Qabs_pos (x * 100)) by lra.
    split; [apply Qabs_Qle_condition; split; lra | split; intros; lra].
  - assert (d * 100 <= 0) by lra. rewrite (Qabs_neg (d * 100)) in Ep by assumption.
    apply Qabs_Qle_condition in Ep.
    rewrite (Qabs_neg (x * 100)) by lra.
    split; [apply Qabs_Qle_condition; split; lra | split; intros; lra].
Qed.

Lemma percent_bounded v t :
  0 < t -> 0 <= v -> v <= t ->
  exists p, num_mul (num_div (Fin v) (Fin t)) (Fin 100) = Fin p /\ 0 <= p /\ p <= 100.
Proof.
  intros Ht H0 Hv. unfold num_div.
  assert (Hz : Qzero t = false) by (apply Qzero_false; lra).
  rewrite Hz.
  assert (X0 : 0 <= v / t) by (apply Qle_shift_div_l; [exact Ht|lra]).
  assert (X1 : v / t <= inject_Z 1) by (apply Qle_shift_div_r; [exact Ht|]; change (inject_Z 1) with 1; lra).
  destruct (round64_bounded (v / t) 1 X0 X1 eq_refl) as (d & Hd & D0 & D1).
  rewrite Hd. cbn [num_mul]. change (inject_Z 1) with 1 in D1.
  destruct (round64_bounded (d * 100) 100) as (p & Hp & P0 & P1).
  - lra.
  - change (inject_Z 100) with 100. lra.
  - reflexivity.
  - exists p. split; [exact Hp|]. change (inject_Z 100) with 100 in P1. split; assumption.
Qed.

End Rounding.

(** ** Promise.all *)

Lemma all_inv_init ps : all_inv ps [] (all_init (length ps)).
Proof.
  unfold all_inv, all_init; simpl. split; [apply length_replicate|]. split.
  - intros i v [? _]%lookup_replicate. discriminate.
  - destruct (length ps) as [|n]; simpl; [done|].
    split; [done|]. intros i p Hi. by apply elem_of_nil in Hi.
Qed.

Lemma all_inv_step ps seen a i :
  all_inv ps seen a → all_inv ps (seen ++ [i]) (all_arrive ps a i).
Proof.
  intros (Hlen & Hslots & Hset). unfold all_arrive.
  destruct (settled a) as [[vs|e]|] eqn:Ea.
  - unfold all_inv. rewrite Ea. split; [done|]. split; [|done].
    intros j v Hj. destruct (Hslots j v Hj). split; [done|]. apply elem_of_app; by left.
  - unfold all_inv. rewrite Ea. split; [done|]. split.
    + intros j v Hj. destruct (Hslots j v Hj). split; [done|]. apply elem_of_app; by left.
    + destruct Hset as (j & ? & ?). exists j. split; [|done]. apply elem_of_app; by left.
  - destruct Hset as [Hnone Hseen].
    destruct (ps !! i) as [[v|e]|] eqn:Ei.
    + assert (Hi : i < length (slots a)).
      { rewrite Hlen. by eapply lookup_lt_Some. }
      assert (Hfilled : ∀ (j : nat) w, <[i:=Some v]> (slots a) !! j = Some (Some w) →
                               ps !! j = Some (Normal w) ∧ j ∈ (seen ++ [i])%list).
      { intros j w Hj. destruct (decide (i = j)) as [->|Hne].
        - rewrite list_lookup_insert_eq in Hj by done.
          injection Hj as ->. split; [done|]. apply elem_of_app; right. by apply list_elem_of_singleton.
        - rewrite list_lookup_insert_ne in Hj by done.
          destruct (Hslots j w Hj). split; [done|]. apply elem_of_app; by left. }
      unfold all_inv; simpl. rewrite length_insert. split; [done|]. split; [done|].
      destruct (mapM id (<[i:=Some v]> (slots a))) as [vs|] eqn:Em; simpl.
      * apply mapM_Some_1 in Em. apply list_eq. intros j.
        rewrite list_lookup_fmap.
        destruct (<[i:=Some v]> (slots a) !! j) as [o|] eqn:Ej.
        -- destruct (Forall2_lookup_l _ _ _ j o Em Ej) as (w & -> & Hw).
           simpl in Hw. by subst.
        -- apply lookup_ge_None in Ej.
           rewrite (Forall2_length _ _ _ Em) in Ej.
           by rewrite (proj2 (lookup_ge_None _ _) Ej).
      * split; [done|]. intros j p [Hj| ->%list_elem_of_singleton]%elem_of_app Hp.
        -- destruct (Hseen j p Hj Hp) as (w & -> & Hw). exists w. split; [done|].
           destruct (decide (i = j)) as [->|Hne].
           ++ rewrite Ei in Hp. injection Hp as ->.
              by rewrite list_lookup_insert_eq.
           ++ by rewrite list_lookup_insert_ne.
        -- rewrite Ei in Hp. injection Hp as <-. exists v. split; [done|].
           by rewrite list_lookup_insert_eq.
    + unfold all_inv; simpl. split; [done|]. split.
      * intros j v Hj. destruct (Hslots j v Hj). split; [done|]. apply elem_of_app; by left.
      * exists i. split; [|done]. apply elem_of_app; right. by apply list_elem_of_singleton.
    + unfold all_inv. rewrite Ea. split; [done|]. split.
      * intros j v Hj. destruct (Hslots j v Hj). split; [done|]. apply elem_of_app; by left.
      * split; [done|]. intros j p [Hj| ->%list_elem_of_singleton]%elem_of_app Hp.
        -- by apply Hseen.
        -- congruence.
Qed.

Lemma all_inv_run ps arrivals :
  all_inv ps arrivals (foldl (all_arrive ps) (all_init (length ps)) arrivals).
Proof.
  induction arrivals as [|i seen IH] using rev_ind.
  - apply all_inv_init.
  - rewrite foldl_snoc. by apply all_inv_step.
Qed.

#[local] Instance Normal_inj {A} : Inj (=) (=) (@Normal A).
Proof. intros x y. congruence. Qed.

Lemma Promise_all_fulfilled_inv ps arrivals vs :
  Promise_all ps arrivals = Some (Normal vs) → ps = Normal <$> vs.
Proof.
  unfold Promise_all. intros Hs.
  destruct (all_inv_run ps arrivals) as (Hlen & Hslots & Hset).
  rewrite Hs in Hset. rewrite Hset in Hlen, Hslots.
  rewrite length_fmap in Hlen.
  apply list_eq. intros i. rewrite list_lookup_fmap.
  destruct (vs !! i) as [v|] eqn:Ei; simpl.
  - apply (Hslots i v). by rewrite list_lookup_fmap, Ei.
  - apply lookup_ge_None. apply lookup_ge_None in Ei. lia.
Qed.

Lemma Promise_all_rejected_inv ps arrivals e :
  Promise_all ps arrivals = Some (Throw e) →
  ∃ j, j ∈ arrivals ∧ ps !! j = Some (Throw e).
Proof.
  unfold Promise_all. intros Hs.
  destruct (all_inv_run ps arrivals) as (_ & _ & Hset).
  by rewrite Hs in Hset.
Qed.

Lemma Promise_all_pending_inv ps arrivals :
  Promise_all ps arrivals = None →
  ∃ i, i < length ps ∧ i ∉ arrivals.
Proof.
  unfold Promise_all. intros Hs.
  destruct (all_inv_run ps arrivals) as (Hlen & _ & Hset).
  rewrite Hs in Hset. destruct Hset as [Hnone Hseen].
  apply mapM_None_1, Exists_exists in Hnone. destruct Hnone as (o & Ho & Hid).
  simpl in Hid. subst o. apply list_elem_of_lookup in Ho. destruct Ho as [i Hi].
  exists i. split.
  - rewrite <- Hlen. by eapply lookup_lt_Some.
  - intros Hin.
    assert (is_Some (ps !! i)) as [p Hp].
    { apply lookup_lt_is_Some. rewrite <- Hlen. by eapply lookup_lt_Some. }
    destruct (Hseen i p Hin Hp) as (v & _ & Hv). congruence.
Qed.

(** Every promise fulfilled and arrived: fulfilled with the values in the
    order of the input, whatever the order of arrival. *)
Lemma Promise_all_fulfilled vs arrivals :
  (∀ i, i < length vs → i ∈ arrivals) →
  Promise_all (Normal <$> vs) arrivals = Some (Normal vs).
Proof.
  intros Hall.
  destruct (Promise_all (Normal <$> vs) arrivals) as [[vs'|e]|] eqn:Hs.
  - apply Promise_all_fulfilled_inv in Hs.
    apply (inj (fmap Normal)) in Hs. by subst.
  - apply Promise_all_rejected_inv in Hs. destruct Hs as (j & _ & Hj).
    rewrite list_lookup_fmap in Hj. destruct (vs !! j); discriminate.
  - apply Promise_all_pending_inv in Hs. destruct Hs as (i & Hi & Hni).
    rewrite length_fmap in Hi. destruct (Hni (Hall i Hi)).
Qed.

(** One promise has not settled yet and none of the others is rejected:
    the combined promise is still pending. *)
Lemma Promise_all_pending vs arrivals i :
  i < length vs → i ∉ arrivals →
  Promise_all (Normal <$> vs) arrivals = None.
Proof.
  intros Hi Hni.
  destruct (Promise_all (Normal <$> vs) arrivals) as [[vs'|e]|] eqn:Hs; [| |done].
  - pose proof Hs as Heq. apply Promise_all_fulfilled_inv in Heq.
    apply (inj (fmap Normal)) in Heq. subst vs'.
    unfold Promise_all in Hs.
    destruct (all_inv_run (Normal <$> vs) arrivals) as (_ & Hslots & Hset).
    rewrite Hs in Hset. rewrite Hset in Hslots.
    destruct (lookup_lt_is_Some_2 vs i Hi) as [v Hv].
    destruct (Hslots i v) as [_ Hin]; [by rewrite list_lookup_fmap, Hv|].
    destruct (Hni Hin).
  - apply Promise_all_rejected_inv in Hs. destruct Hs as (j & _ & Hj).
    rewrite list_lookup_fmap in Hj. destruct (vs !! j); discriminate.
Qed.

(** A rejection that has arrived rejects the combined promise, with the
    error of some rejected input promise that has arrived. *)
Lemma Promise_all_rejected ps arrivals i e :
  i ∈ arrivals → ps !! i = Some (Throw e) →
  ∃ e' j, Promise_all ps arrivals = Some (Throw e') ∧
          j ∈ arrivals ∧ ps !! j = Some (Throw e').
Proof.
  intros Hin Hi.
  destruct (Promise_all ps arrivals) as [[vs|e']|] eqn:Hs.
  - apply Promise_all_fulfilled_inv in Hs. subst ps.
    rewrite list_lookup_fmap in Hi. destruct (vs !! i); discriminate.
  - destruct (Promise_all_rejected_inv _ _ _ Hs) as (j & ? & ?). by exists e', j.
  - unfold Promise_all in Hs.
    destruct (all_inv_run ps arrivals) as (_ & _ & Hset).
    rewrite Hs in Hset. destruct Hset as [_ Hseen].
    destruct (Hseen i _ Hin Hi) as (v & ? & _). discriminate.
Qed.

(** With a rejected input promise the combined promise is never
    fulfilled, whatever has arrived. *)
Lemma Promise_all_not_fulfilled ps arrivals i e vs :
  ps !! i = Some (Throw e) → Promise_all ps arrivals ≠ Some (Normal vs).
Proof.
  intros Hi Hs. apply Promise_all_fulfilled_inv in Hs. subst ps.
  rewrite list_lookup_fmap in Hi. destruct (vs !! i); discriminate.
Qed.

(** ** The dashboard load *)

Section Properties.

Variable StringToNumber : string -> num.
Variable ArrayToString : list value -> string.
Variable NumberToString : Q -> string.
Variable JSON_parse : value -> completion value.

Abbreviation settle := (callTool_settle JSON_parse).
Abbreviation run_loadDashboard := (loadDashboard JSON_parse).

(** [loadDashboard] in one equation: the synchronous part, then the three
    ways the combined promise can stand. *)
Lemma loadDashboard_run t0 t1 t2 t3 arrivals w :
  run_loadDashboard t0 t1 t2 t3 arrivals w =
  match Promise_all [settle t0; settle t1; settle t2; settle t3] arrivals with
  | None => (Suspended, started w)
  | Some (Normal rs) => (Returned tt, finished (with_dashboardData (loaded rs)) w)
  | Some (Throw e) => (Returned tt, finished (with_error (failure_text e)) w)
  end.
Proof.
  unfold loadDashboard, await_all, started, finished, dashboard_requests.
  unfold mbind, Act_bind, try_finally, try_catch, callTool, get_state,
    setLoading, setError, setDashboardData, set_state, await, lift, suspend.
  cbn [ui sent fst snd].
  rewrite <- !app_assoc. cbn [app].
  destruct (Promise_all _ arrivals) as [[rs|e]|]; reflexivity.
Qed.

(** The stored dashboard data changes only in a load whose four calls
    are all fulfilled, and then to the four results side by side. *)
Lemma loadDashboard_data t0 t1 t2 t3 arrivals w :
  dashboardData (ui (run_loadDashboard t0 t1 t2 t3 arrivals w).2) = dashboardData (ui w) ∨
  ∃ r0 r1 r2 r3,
    settle t0 = Normal r0 ∧ settle t1 = Normal r1 ∧
    settle t2 = Normal r2 ∧ settle t3 = Normal r3 ∧
    run_loadDashboard t0 t1 t2 t3 arrivals w =
      (Returned tt, finished (with_dashboardData (loaded [r0; r1; r2; r3])) w).
Proof.
  rewrite loadDashboard_run.
  destruct (Promise_all _ arrivals) as [[rs|e]|] eqn:Hs; [|by left..].
  right. apply Promise_all_fulfilled_inv in Hs.
  destruct rs as [|r0 [|r1 [|r2 [|r3 [|]]]]]; try discriminate.
  injection Hs as -> -> -> ->. by exists r0, r1, r2, r3.
Qed.

(** Rejected calls.  If one of the four calls of the dashboard load is
    rejected, the load fails as a whole once that rejection has arrived:
    it ends in its [catch] block with the message of a rejected call and
    nothing else is stored.  Whatever has arrived, and in whatever order,
    the stored dashboard data is not touched. *)
Theorem loadDashboard_all_or_nothing t0 t1 t2 t3 arrivals w i t e :
  [t0; t1; t2; t3] !! i = Some t →
  settle t = Throw e →
  i ∈ arrivals →
  (∃ e' j t',
      j ∈ arrivals ∧ [t0; t1; t2; t3] !! j = Some t' ∧ settle t' = Throw e' ∧
      run_loadDashboard t0 t1 t2 t3 arrivals w =
        (Returned tt, finished (with_error (failure_text e')) w)) ∧
  (∀ arrivals',
      dashboardData (ui (run_loadDashboard t0 t1 t2 t3 arrivals' w).2) =
      dashboardData (ui w)).
Proof.
  intros Hi He Hin.
  assert (Hp : [settle t0; settle t1; settle t2; settle t3] !! i = Some (Throw e)).
  { change ((settle <$> [t0; t1; t2; t3]) !! i = Some (Throw e)).
    by rewrite list_lookup_fmap, Hi; simpl; rewrite He. }
  split.
  - destruct (Promise_all_rejected _ arrivals i e Hin Hp) as (e' & j & Hs & Hj & Hje).
    change ((settle <$> [t0; t1; t2; t3]) !! j = Some (Throw e')) in Hje.
    rewrite list_lookup_fmap in Hje.
    destruct ([t0; t1; t2; t3] !! j) as [t'|] eqn:Et; [|discriminate].
    injection Hje as Hje.
    exists e', j, t'. repeat (split; [done|]).
    by rewrite loadDashboard_run, Hs.
  - intros arrivals'. rewrite loadDashboard_run.
    destruct (Promise_all _ arrivals') as [[rs|e']|] eqn:Hs; [|done..].
    by destruct (Promise_all_not_fulfilled _ arrivals' i e rs Hp).
Qed.

(** The two ways a load of four successful calls can stand. *)
Lemma loadDashboard_fulfilled t0 t1 t2 t3 r0 r1 r2 r3 arrivals w :
  settle t0 = Normal r0 → settle t1 = Normal r1 →
  settle t2 = Normal r2 → settle t3 = Normal r3 →
  (∀ i, i < 4 → i ∈ arrivals) →
  run_loadDashboard t0 t1 t2 t3 arrivals w =
    (Returned tt, finished (with_dashboardData (loaded [r0; r1; r2; r3])) w).
Proof.
  intros H0 H1 H2 H3 Hall. rewrite loadDashboard_run, H0, H1, H2, H3.
  change [Normal r0; Normal r1; Normal r2; Normal r3]
    with (@Normal value <$> [r0; r1; r2; r3]).
  by rewrite Promise_all_fulfilled.
Qed.

Lemma loadDashboard_suspended t0 t1 t2 t3 r0 r1 r2 r3 arrivals w i :
  settle t0 = Normal r0 → settle t1 = Normal r1 →
  settle t2 = Normal r2 → settle t3 = Normal r3 →
  i < 4 → i ∉ arrivals →
  run_loadDashboard t0 t1 t2 t3 arrivals w = (Suspended, started w).
Proof.
  intros H0 H1 H2 H3 Hi Hni. rewrite loadDashboard_run, H0, H1, H2, H3.
  change [Normal r0; Normal r1; Normal r2; Normal r3]
    with (@Normal value <$> [r0; r1; r2; r3]).
  by rewrite (Promise_all_pending _ _ i).
Qed.

(** C5.  The four requests of a dashboard load are sent before any
    response is looked at, in the order of the source.  When the four
    calls succeed, the load continues only after all four responses have
    arrived, and then stores the four results in the order of the calls,
    whatever the order of arrival; while one response is missing, the
    load stays suspended in its loading state. *)
Theorem loadDashboard_fan_out_join_all t0 t1 t2 t3 r0 r1 r2 r3 arrivals w :
  settle t0 = Normal r0 → settle t1 = Normal r1 →
  settle t2 = Normal r2 → settle t3 = Normal r3 →
  sent (run_loadDashboard t0 t1 t2 t3 [] w).2 = (sent w ++ dashboard_requests (ui w))%list ∧
  sent (run_loadDashboard t0 t1 t2 t3 arrivals w).2 = (sent w ++ dashboard_requests (ui w))%list ∧
  ((∀ i, i < 4 → i ∈ arrivals) →
     run_loadDashboard t0 t1 t2 t3 arrivals w =
       (Returned tt, finished (with_dashboardData (loaded [r0; r1; r2; r3])) w)) ∧
  (∀ i, i < 4 → i ∉ arrivals →
     run_loadDashboard t0 t1 t2 t3 arrivals w = (Suspended, started w)).
Proof.
  intros H0 H1 H2 H3.
  split; [|split; [|split]].
  - rewrite loadDashboard_run. by destruct (Promise_all _ []) as [[?|?]|].
  - rewrite loadDashboard_run. by destruct (Promise_all _ arrivals) as [[?|?]|].
  - intros Hall. by apply loadDashboard_fulfilled.
  - intros i Hi Hni. by apply (loadDashboard_suspended _ _ _ _ r0 r1 r2 r3 _ _ i).
Qed.

(** C9.  A dashboard load that ends with an error message has changed
    the error and loading fields of the state and no other: the projects,
    the selections, the versions and the stored dashboard data are the
    ones from before the load. *)
Theorem loadDashboard_failure_frame t0 t1 t2 t3 arrivals w :
  truthy (error (ui (run_loadDashboard t0 t1 t2 t3 arrivals w).2)) = true →
  ∃ e,
    ui (run_loadDashboard t0 t1 t2 t3 arrivals w).2 =
      {| projects := projects (ui w);
         selectedProject := selectedProject (ui w);
         selectedVersion := selectedVersion (ui w);
         versions := versions (ui w);
         dashboardData := dashboardData (ui w);
         loading := false;
         error := failure_text e |}.
Proof.
  rewrite loadDashboard_run.
  destruct (Promise_all _ arrivals) as [[rs|e]|]; simpl; [discriminate| |discriminate].
  intros _. by exists e.
Qed.

(** ** Progress bars and cycle cards *)

Abbreviation run_percentage := (percentage StringToNumber ArrayToString).
Abbreviation run_ProgressBar := (ProgressBar StringToNumber ArrayToString NumberToString).
Abbreviation run_CycleCard := (CycleCard StringToNumber ArrayToString NumberToString).

Lemma Qlt_bool_pos t : (0 < t)%Q → Qlt_bool 0 t = true.
Proof.
  intros H. unfold Qlt_bool. destruct (Qle_bool t 0) eqn:E; [|done].
  apply Qle_bool_imp_le in E. lra.
Qed.

Lemma Qzero_pos t : (0 < t)%Q → Qzero t = false.
Proof.
  intros H. unfold Qzero. destruct (Qeq_bool t 0) eqn:E; [|done].
  apply Qeq_bool_eq in E. lra.
Qed.

Lemma Qlt_bool_zero q : (q == 0)%Q → Qlt_bool 0 q = false.
Proof.
  intros H. unfold Qlt_bool.
  replace (Qle_bool q 0) with true; [done|].
  symmetry. apply Qle_bool_iff. lra.
Qed.

(** The digit behind the point is the closest one. *)
Lemma tenths_close q : (Qabs (inject_Z (tenths q) / 10 - Qabs q) <= 1 # 20)%Q.
Proof.
  unfold tenths. set (x := (Qabs q * 10 + (1 # 2))%Q).
  pose proof (Qfloor_le x) as Hl. pose proof (Qlt_floor x) as Hu.
  rewrite inject_Z_plus in Hu. change (inject_Z 1) with 1%Q in Hu.
  apply Qabs_Qle_condition. unfold x in *. unfold Qdiv.
  change (/ 10)%Q with (1 # 10)%Q. split; lra.
Qed.

(** A total that is not above zero (zero, negative, missing, [null],
    [NaN]) gives the percentage 0. *)
Lemma percentage_guard value total :
  js_gt StringToNumber ArrayToString total (Fin 0) = false →
  run_percentage value total = Fin 0.
Proof. unfold percentage. by intros ->. Qed.

Lemma percentage_numbers v t :
  (0 < t)%Q →
  run_percentage (VNum (Fin v)) (VNum (Fin t)) = num_mul (num_div (Fin v) (Fin t)) (Fin 100).
Proof.
  intros Ht. unfold percentage, js_gt. cbn [ToNumber num_gt].
  by rewrite (Qlt_bool_pos t Ht).
Qed.

Lemma ToPrimitive_inv v u : ToPrimitive v = Normal u → convertible v = true.
Proof. unfold ToPrimitive. by destruct (convertible v). Qed.

Lemma child_inv v u : child v = Normal u → valid_child v = true.
Proof. unfold child. by destruct (valid_child v). Qed.

Lemma sub_inv a b v :
  sub StringToNumber ArrayToString a b = Normal v →
  v = js_sub StringToNumber ArrayToString a b ∧ convertible a = true ∧ convertible b = true.
Proof.
  unfold sub, ToPrimitive. destruct (convertible a); [|done].
  destruct (convertible b); [|done]. by intros [= <-].
Qed.

Lemma render_ProgressBar_inv label value total bar :
  render_ProgressBar StringToNumber ArrayToString NumberToString label value total = Normal bar →
  bar = run_ProgressBar label value total.
Proof.
  unfold render_ProgressBar. intros H.
  destruct (ToPrimitive total); [|done]. cbn [mbind completion_bind] in H.
  destruct (if js_gt _ _ total (Fin 0) then ToPrimitive value else mret tt); [|done].
  cbn [mbind completion_bind] in H.
  destruct (child value); [|done]. cbn [mbind completion_bind] in H.
  destruct (child total); [|done]. cbn [mbind completion_bind] in H.
  by injection H as <-.
Qed.

(** What a card that renders is made of. *)
Lemma CycleCard_inv cycle card :
  run_CycleCard cycle = Normal card →
  ∃ total execution_rate pass_rate passed unexecuted,
    member cycle "total_tests" = Normal total ∧
    member cycle "execution_rate" = Normal execution_rate ∧
    member cycle "pass_rate" = Normal pass_rate ∧
    member cycle "passed" = Normal passed ∧
    member cycle "unexecuted" = Normal unexecuted ∧
    card_total card = total ∧
    card_executionRate card = js_or execution_rate zero ∧
    card_passRate card = js_or pass_rate zero ∧
    card_execution card =
      run_ProgressBar "Execution Progress"
        (js_sub StringToNumber ArrayToString total unexecuted) total ∧
    card_pass card = run_ProgressBar "Pass Rate" passed total.
Proof.
  unfold CycleCard. intros H.
  destruct (member cycle "total_tests") as [total|] eqn:E1; [|done].
  destruct (member cycle "execution_rate") as [er|] eqn:E2; [|done].
  destruct (member cycle "pass_rate") as [pr|] eqn:E3; [|done].
  destruct (member cycle "cycle") as [inner|] eqn:E4; [|done].
  cbn [mbind completion_bind] in H.
  destruct (member inner "name") as [name|] eqn:E5; [|done].
  destruct (member inner "description") as [description|] eqn:E6; [|done].
  destruct (member cycle "passed") as [passed|] eqn:E7; [|done].
  destruct (member cycle "failed") as [failed|] eqn:E8; [|done].
  destruct (member cycle "blocked") as [blocked|] eqn:E9; [|done].
  destruct (member cycle "unexecuted") as [unexecuted|] eqn:E10; [|done].
  cbn [mbind completion_bind] in H.
  destruct (sub _ _ total unexecuted) as [executed|] eqn:E11; [|done].
  apply sub_inv in E11. destruct E11 as (-> & _ & _).
  cbn [mbind completion_bind] in H.
  destruct (child name); cbn [mbind completion_bind] in H; [|discriminate H].
  destruct (child description); cbn [mbind completion_bind] in H; [|discriminate H].
  destruct (child total); cbn [mbind completion_bind] in H; [|discriminate H].
  destruct (child passed); cbn [mbind completion_bind] in H; [|discriminate H].
  destruct (child failed); cbn [mbind completion_bind] in H; [|discriminate H].
  destruct (child blocked); cbn [mbind completion_bind] in H; [|discriminate H].
  destruct (child unexecuted); cbn [mbind completion_bind] in H; [|discriminate H].
  destruct (render_ProgressBar _ _ _ "Execution Progress" _ total) as [execution|] eqn:E12;
    cbn [mbind completion_bind] in H; [|discriminate H].
  apply render_ProgressBar_inv in E12.
  destruct (render_ProgressBar _ _ _ "Pass Rate" passed total) as [pass|] eqn:E13;
    cbn [mbind completion_bind] in H; [|discriminate H].
  apply render_ProgressBar_inv in E13.
  injection H as <-. subst.
  by exists total, er, pr, passed, unexecuted.
Qed.

(** C2, as the code has it.  With a total of zero the percentage of a
    progress bar is 0 and its text is 0.0%, whatever the value is, and so
    are both bars of a cycle card; a missing or [null] total gives 0 as
    well.  The locals [executionRate] and [passRate] of the card default
    to 0 when the cycle has no such field; the card does not render them:
    its two rates are the bar percentages, computed from the counts. *)
Theorem zero_total_zero_rates label value total q cycle card :
  (q == 0)%Q →
  nullish total = true →
  run_CycleCard cycle = Normal card →
  (run_percentage value (VNum (Fin q)) = Fin 0 ∧
   bar_text (run_ProgressBar label value (VNum (Fin q))) = "0.0%" ∧
   run_percentage value total = Fin 0) ∧
  (member cycle "total_tests" = Normal (VNum (Fin q)) →
   bar_percentage (card_execution card) = Fin 0 ∧
   bar_text (card_execution card) = "0.0%" ∧
   bar_percentage (card_pass card) = Fin 0 ∧
   bar_text (card_pass card) = "0.0%") ∧
  (∀ execution_rate, member cycle "execution_rate" = Normal execution_rate →
     nullish execution_rate = true → card_executionRate card = zero) ∧
  (∀ pass_rate, member cycle "pass_rate" = Normal pass_rate →
     nullish pass_rate = true → card_passRate card = zero) ∧
  (∃ total_tests passed unexecuted,
     member cycle "total_tests" = Normal total_tests ∧
     member cycle "passed" = Normal passed ∧
     member cycle "unexecuted" = Normal unexecuted ∧
     bar_percentage (card_execution card) =
       run_percentage (js_sub StringToNumber ArrayToString total_tests unexecuted) total_tests ∧
     bar_percentage (card_pass card) = run_percentage passed total_tests).
Proof.
  intros Hq Htotal Hcard.
  assert (Hzero : ∀ v, run_percentage v (VNum (Fin q)) = Fin 0).
  { intros v. apply percentage_guard. unfold js_gt; simpl. by apply Qlt_bool_zero. }
  destruct (CycleCard_inv _ _ Hcard)
    as (tt' & er & pr & pa & un & Ht & Her & Hpr & Hpa & Hun & _ & HeR & HpR & Hex & Hps).
  split; [|split; [|split; [|split]]].
  - split; [apply Hzero|]. split.
    + unfold ProgressBar; simpl. by rewrite Hzero.
    + apply percentage_guard. by destruct total.
  - intros Ht'. rewrite Ht in Ht'. injection Ht' as ->.
    rewrite Hex, Hps. unfold ProgressBar; simpl. by rewrite !Hzero.
  - intros er' Her' Hn. rewrite Her in Her'. injection Her' as ->.
    rewrite HeR. by destruct er'.
  - intros pr' Hpr' Hn. rewrite Hpr in Hpr'. injection Hpr' as ->.
    rewrite HpR. by destruct pr'.
  - exists tt', pa, un. repeat (split; [done|]). by rewrite Hex, Hps.
Qed.

Lemma shows_rate_comp bar rate rate' :
  (rate == rate')%Q → shows_rate bar rate → shows_rate bar rate'.
Proof.
  intros E (p & Hp & Herr & Hsign & Htext & Htol).
  exists p. split; [done|]. rewrite <- E. done.
Qed.

(** The bar of two numbers whose quotient is zero or of ordinary
    size. *)
Lemma ProgressBar_shows label v t :
  (0 < t)%Q →
  (v == 0)%Q ∨ (pow2 (-60) <= Qabs (v / t))%Q ∧ (Qabs (v / t) <= pow2 60)%Q →
  shows_rate (run_ProgressBar label (VNum (Fin v)) (VNum (Fin t))) (v / t * 100).
Proof.
  intros Ht Hv. unfold shows_rate, ProgressBar. cbn [bar_percentage bar_text].
  rewrite (percentage_numbers _ _ Ht).
  destruct Hv as [Hv | [Hlo Hhi]].
  - rewrite (percent_zero v t Ht Hv). exists 0%Q.
    assert (E : (v / t * 100 == 0)%Q) by (rewrite Hv; unfold Qdiv; ring).
    split; [done|]. rewrite E. by repeat split.
  - destruct (percent_error v t Ht Hlo Hhi) as (p & -> & Herr & Hsign).
    exists p. split; [done|]. split; [done|]. split; [done|].
    set (rate := (v / t * 100)%Q) in *.
    assert (Hrate : (Qabs rate <= 115292150460684697600)%Q).
    { unfold rate. rewrite Qabs_Qmult. change (Qabs 100) with 100%Q.
      change (pow2 60) with (1152921504606846976 # 1)%Q in Hhi. lra. }
    pose proof (tenths_close p) as Hclose.
    change (pow2 (-51)) with (1 # 2251799813685248)%Q in *.
    revert Herr Hrate Hclose. apply (Qabs_case rate); intros Hr Herr Hrate;
      apply Qabs_Qle_condition in Herr; apply (Qabs_case p); intros Hp Hclose;
      apply Qabs_Qle_condition in Hclose.
    all: split;
      [ unfold toFixed1;
        destruct (Qle_bool (inject_Z (10 ^ 21)) (Qabs p)) eqn:E; [|done];
        apply Qle_bool_imp_le in E;
        change (inject_Z (10 ^ 21)) with (1000000000000000000000 # 1)%Q in E;
        revert E; apply (Qabs_case p); intros; lra
      | apply Qabs_Qle_condition; split; lra ].
Qed.

(** The quotient of two whole numbers below 2^53 is of ordinary size. *)
Lemma ratio_range z T :
  (0 < T < 2 ^ 53)%Z → (Z.abs z < 2 ^ 53)%Z →
  (inject_Z z == 0)%Q ∨
  (pow2 (-60) <= Qabs (inject_Z z / inject_Z T))%Q ∧
  (Qabs (inject_Z z / inject_Z T) <= pow2 60)%Q.
Proof.
  intros HT Hz. destruct (decide (z = 0%Z)) as [->|Hne]; [by left|]. right.
  assert (T1 : (1 <= inject_Z T)%Q) by (change 1%Q with (inject_Z 1); rewrite <- Zle_Qle; lia).
  assert (T2 : (inject_Z T < inject_Z (2 ^ 53))%Q) by (rewrite <- Zlt_Qlt; lia).
  assert (Z1 : (1 <= inject_Z (Z.abs z))%Q).
  { change 1%Q with (inject_Z 1). rewrite <- Zle_Qle. lia. }
  assert (Z2 : (inject_Z (Z.abs z) < inject_Z (2 ^ 53))%Q) by (rewrite <- Zlt_Qlt; lia).
  change (inject_Z (2 ^ 53)) with (9007199254740992 # 1)%Q in T2, Z2.
  assert (E : (Qabs (inject_Z z / inject_Z T) == inject_Z (Z.abs z) / inject_Z T)%Q).
  { unfold Qdiv. rewrite Qabs_Qmult. rewrite (Qabs_pos (/ inject_Z T)).
    - reflexivity.
    - apply Qinv_le_0_compat. lra. }
  rewrite E.
  change (pow2 (-60)) with (1 # 1152921504606846976)%Q.
  change (pow2 60) with (1152921504606846976 # 1)%Q.
  split.
  - apply Qle_shift_div_l; lra.
  - apply Qle_shift_div_r; lra.
Qed.

(** C3.  For a cycle with a total above zero, the counts being whole
    numbers below 2^53, the card shows the execution rate
    (total - unexecuted) / total * 100 and the pass rate
    passed / total * 100 within the tolerance of rounding.  The
    percentage of each bar is the double that the subtraction, the
    division and the multiplication of the source give: it differs from
    the exact rate by at most the 2^-51th part of the rate.  The bar
    prints it with one decimal, the tenths nearest to that double, so the
    printed rate is within half a tenth, and that part, of the exact
    rate.  For the counts 450, 70 and 320 the card prints 84.4% and
    71.1%; for 23 executed tests out of 80, an exact rate of 28.75, it
    prints 28.7%, the double being just below. *)
Theorem displayed_rates cycle card T U S :
  run_CycleCard cycle = Normal card →
  member cycle "total_tests" = Normal (int T) →
  member cycle "unexecuted" = Normal (int U) →
  member cycle "passed" = Normal (int S) →
  (0 < T < 2 ^ 53)%Z → (0 <= U < 2 ^ 53)%Z → (0 <= S < 2 ^ 53)%Z →
  shows_rate (card_execution card) (inject_Z (T - U) / inject_Z T * 100) ∧
  shows_rate (card_pass card) (inject_Z S / inject_Z T * 100) ∧
  (bar_text ∘ card_execution <$> run_CycleCard summary_cycle = Normal "84.4%" ∧
   bar_text ∘ card_pass <$> run_CycleCard summary_cycle = Normal "71.1%" ∧
   bar_text ∘ card_execution <$> run_CycleCard quarter_cycle = Normal "28.7%").
Proof.
  intros Hcard Ht Hu Hs HT HU HS.
  destruct (CycleCard_inv _ _ Hcard)
    as (tt' & er & pr & pa & un & Ht' & _ & _ & Hpa & Hun & _ & _ & _ & Hex & Hps).
  rewrite Ht in Ht'. injection Ht' as <-.
  rewrite Hu in Hun. injection Hun as <-.
  rewrite Hs in Hpa. injection Hpa as <-.
  assert (Hpos : (0 < inject_Z T)%Q).
  { change 0%Q with (inject_Z 0). rewrite <- Zlt_Qlt. lia. }
  split; [|split].
  - rewrite Hex. unfold js_sub, int. cbn [ToNumber num_sub].
    assert (E : (inject_Z T - inject_Z U == inject_Z (T - U))%Q).
    { unfold Z.sub. rewrite inject_Z_plus, inject_Z_opp. ring. }
    rewrite (round64_comp _ _ E).
    destruct (round64_integer (T - U)) as (r & -> & Hr); [lia|].
    apply (shows_rate_comp _ (r / inject_Z T * 100)); [by rewrite Hr|].
    apply ProgressBar_shows; [done|].
    destruct (ratio_range (T - U) T) as [Hz|Hrange]; [lia|lia|left|right].
    + by rewrite Hr.
    + by rewrite Hr.
  - rewrite Hps. unfold int. apply ProgressBar_shows; [done|].
    apply ratio_range; lia.
  - repeat split; vm_compute; reflexivity.
Qed.

(** ** The tool client and the single-call loaders *)

Abbreviation run_callTool := (callTool JSON_parse).
Abbreviation run_loadProjects := (loadProjects JSON_parse).
Abbreviation run_loadVersions := (loadVersions JSON_parse).

(** A body that is neither [null] nor [undefined] and lacks the content
    is answered with the error of the source. *)
Lemma callTool_settle_invalid result :
  nullish result = false → ¬ has_content result →
  settle (Body result) = Throw (PlainError "Invalid response from MCP server").
Proof.
  intros Hn Hc. unfold callTool_settle.
  destruct (member result "result") as [r|] eqn:Er; [|by destruct result].
  simpl. destruct (truthy r) eqn:Tr; simpl.
  - destruct (member r "content") as [c|] eqn:Ec; [|by destruct r].
    simpl. destruct (truthy c) eqn:Tc; [|done].
    destruct Hc. by exists r, c.
  - by rewrite Tr.
Qed.

(** C6.  For every tool name and argument map, [callTool] sends one
    request with that name and those arguments, and awaiting it gives the
    parsed JSON of the first content item when the response carries the
    content, and throws to the caller when it does not: the error of the
    source for every body that is not [null]. *)
Theorem callTool_contract name args result w :
  let call := (p ← run_callTool name args (Body result); await p) in
  (∀ r content item text v,
     member result "result" = Normal r → truthy r = true →
     member r "content" = Normal content → truthy content = true →
     index content 0 = Normal item → member item "text" = Normal text →
     JSON_parse text = Normal v →
     call w = (Returned v, with_request name args w)) ∧
  (¬ has_content result →
     ∃ e, call w = (Raised e, with_request name args w) ∧
          (nullish result = false →
           e = PlainError "Invalid response from MCP server")).
Proof.
  intros call. unfold call, callTool, await, lift, mbind, Act_bind, with_request.
  split.
  - intros r content item text v Hr Tr Hc Tc Hi Ht Hv.
    unfold callTool_settle. rewrite Hr; simpl. rewrite Tr, Hc; simpl.
    rewrite Tc, Hi; simpl. rewrite Ht; simpl. by rewrite Hv.
  - intros Hc. destruct (nullish result) eqn:Hn.
    + destruct result; try discriminate; simpl; eexists; (split; [reflexivity|done]).
    + rewrite (callTool_settle_invalid _ Hn Hc). eexists. split; [reflexivity|done].
Qed.

(** A rejected call ends each single-call loader in its [catch] block. *)
Lemma loadProjects_rejected t e w :
  settle t = Throw e →
  run_loadProjects t w =
    (Returned tt,
     {| ui := with_error (VStr ("Failed to load projects: " +:+ message e)) (ui w);
        sent := sent w ++ [{| toolName := "get_projects"; arguments := obj [] |}] |}).
Proof.
  intros He. unfold loadProjects, try_catch, callTool, await, lift, mbind, Act_bind.
  by rewrite He.
Qed.

Lemma loadVersions_rejected projectId t e w :
  settle t = Throw e →
  run_loadVersions projectId t w =
    (Returned tt,
     {| ui := with_error (VStr ("Failed to load versions: " +:+ message e)) (ui w);
        sent := sent w ++ [{| toolName := "get_release_status";
                              arguments := obj [("project_id", projectId)] |}] |}).
Proof.
  intros He. unfold loadVersions, try_catch, callTool, await, lift, mbind, Act_bind.
  by rewrite He.
Qed.

(** A result with a truthy error field is shown as the error by the two
    single-call loaders. *)
Lemma loadProjects_upstream_error t result err w :
  settle t = Normal result →
  member result "error" = Normal err → truthy err = true →
  run_loadProjects t w =
    (Returned tt,
     {| ui := with_error err (ui w);
        sent := sent w ++ [{| toolName := "get_projects"; arguments := obj [] |}] |}).
Proof.
  intros Hr He Ht.
  unfold loadProjects, try_catch, callTool, await, lift, mbind, Act_bind.
  rewrite Hr; simpl. rewrite He; simpl. by rewrite Ht.
Qed.

Lemma loadVersions_upstream_error projectId t result err w :
  settle t = Normal result →
  member result "error" = Normal err → truthy err = true →
  run_loadVersions projectId t w =
    (Returned tt,
     {| ui := with_error err (ui w);
        sent := sent w ++ [{| toolName := "get_release_status";
                              arguments := obj [("project_id", projectId)] |}] |}).
Proof.
  intros Hr He Ht.
  unfold loadVersions, try_catch, callTool, await, lift, mbind, Act_bind.
  rewrite Hr; simpl. rewrite He; simpl. by rewrite Ht.
Qed.

(** C7.  A release status without an error whose releases are absent,
    [null] or the empty array gives the empty version list: the loader
    returns, the versions are the empty array and the error field is the
    one from before. *)
Theorem loadVersions_no_versions projectId t result err releases w :
  settle t = Normal result →
  member result "error" = Normal err → truthy err = false →
  member result "releases" = Normal releases →
  releases = VUndefined ∨ releases = VNull ∨ releases = VArr [] →
  run_loadVersions projectId t w =
    (Returned tt,
     {| ui := with_versions (VArr []) (ui w);
        sent := sent w ++ [{| toolName := "get_release_status";
                              arguments := obj [("project_id", projectId)] |}] |}) ∧
  versions (ui (run_loadVersions projectId t w).2) = VArr [] ∧
  error (ui (run_loadVersions projectId t w).2) = error (ui w).
Proof.
  intros Hr He Ht Hrel Hcases.
  assert (Hrun : run_loadVersions projectId t w =
    (Returned tt,
     {| ui := with_versions (VArr []) (ui w);
        sent := sent w ++ [{| toolName := "get_release_status";
                              arguments := obj [("project_id", projectId)] |}] |})).
  { unfold loadVersions, try_catch, callTool, await, lift, mbind, Act_bind.
    rewrite Hr; simpl. rewrite He; simpl. rewrite Ht, Hrel; simpl.
    by destruct Hcases as [-> | [-> | ->]]. }
  by rewrite Hrun.
Qed.

(** ** The rendered dashboard *)

Abbreviation run_keyMetrics := (keyMetrics NumberToString).
Abbreviation run_cycleDetails := (cycleDetails StringToNumber ArrayToString NumberToString).
Abbreviation run_dashboardElements := (dashboardElements NumberToString).
Abbreviation run_dashboardView :=
  (dashboardView StringToNumber ArrayToString NumberToString).
Abbreviation run_render := (render StringToNumber ArrayToString NumberToString).

Lemma mapM_Normal {A B} (f : A → completion B) l k :
  mapM f l = Normal k → Forall2 (λ x y, f x = Normal y) l k.
Proof.
  revert k. induction l as [|x l IH]; intros k; simpl.
  - intros [= <-]. constructor.
  - destruct (f x) as [y|] eqn:Ex; simpl; [|done].
    destruct (mapM f l) as [k'|]; simpl; [|done].
    intros [= <-]. constructor; [done|by apply IH].
Qed.

(** Where each key metric comes from. *)
Lemma keyMetrics_inv d m :
  run_keyMetrics d = Normal m →
  ∃ om ds cb total_tests execution_rate pass_rate openDefects regression negative len,
    member (report d) "overall_metrics" = Normal om ∧
    member (report d) "defect_summary" = Normal ds ∧
    member (report d) "cycle_breakdown" = Normal cb ∧
    opt_member om "total_tests" = Normal total_tests ∧
    opt_member om "execution_rate" = Normal execution_rate ∧
    opt_member om "pass_rate" = Normal pass_rate ∧
    opt_member ds "openDefects" = Normal openDefects ∧
    opt_member (regressionTests d) "total_regression_tests" = Normal regression ∧
    opt_member (negativeTests d) "negative_test_count" = Normal negative ∧
    opt_member cb "length" = Normal len ∧
    metric_total_tests m = js_or total_tests zero ∧
    (∃ n, js_or execution_rate zero = VNum n ∧
          metric_execution_rate m = toFixed1 NumberToString n +:+ "%") ∧
    (∃ n, js_or pass_rate zero = VNum n ∧
          metric_pass_rate m = toFixed1 NumberToString n +:+ "%") ∧
    metric_open_defects m = js_or openDefects zero ∧
    metric_regression_tests m = js_or regression zero ∧
    metric_negative_tests m = js_or negative zero ∧
    metric_test_cycles m = js_or len zero.
Proof.
  unfold keyMetrics. intros H.
  destruct (member (report d) "overall_metrics") as [om|] eqn:E1; [|done]. simpl in H.
  destruct (opt_member om "total_tests") as [tt'|] eqn:E2; [|done]. simpl in H.
  destruct (opt_member om "execution_rate") as [er|] eqn:E3; [|done]. simpl in H.
  destruct (call_toFixed1 NumberToString _ (js_or er zero)) as [et|] eqn:E4; [|done]. simpl in H.
  destruct (opt_member om "pass_rate") as [pr|] eqn:E5; [|done]. simpl in H.
  destruct (call_toFixed1 NumberToString _ (js_or pr zero)) as [pt|] eqn:E6; [|done]. simpl in H.
  destruct (member (report d) "defect_summary") as [ds|] eqn:E7; [|done]. simpl in H.
  destruct (opt_member ds "openDefects") as [od|] eqn:E8; [|done]. simpl in H.
  destruct (opt_member (regressionTests d) "total_regression_tests") as [rg|] eqn:E9; [|done].
  simpl in H.
  destruct (opt_member (negativeTests d) "negative_test_count") as [ng|] eqn:E10; [|done].
  simpl in H.
  destruct (member (report d) "cycle_breakdown") as [cb|] eqn:E11; [|done]. simpl in H.
  destruct (opt_member cb "length") as [len|] eqn:E12; [|done]. simpl in H.
  injection H as <-.
  exists om, ds, cb, tt', er, pr, od, rg, ng, len. simpl.
  repeat (split; [done|]).
  split; [|split; [|done]].
  - destruct (js_or er zero) as [| | |n| | |]; try discriminate.
    injection E4 as <-. by exists n.
  - destruct (js_or pr zero) as [| | |n| | |]; try discriminate.
    injection E6 as <-. by exists n.
Qed.

(** The fallback [x || 0] is never [undefined], [null] or [NaN], and it
    is 0 for a field that is missing or [null]. *)
Lemma js_or_zero_defined v :
  js_or v zero ≠ VUndefined ∧ js_or v zero ≠ VNull ∧ js_or v zero ≠ VNum NaN ∧
  (nullish v = true → js_or v zero = zero).
Proof.
  unfold js_or, zero.
  destruct v as [| |b|[|s|q]|s|l|f]; simpl; try done.
  - by destruct b.
  - by destruct (Qzero q).
  - by destruct (String.eqb s "").
Qed.

Lemma mapM_mret (l : list value) : mapM (M := completion) mret l = Normal l.
Proof.
  induction l as [|x l IH]; [done|].
  simpl. cbv [mret completion_ret] in *. cbn [mbind completion_bind]. by rewrite IH.
Qed.

(** The cycle elements are the cycles of the progress result. *)
Lemma cycleElements_inv d elements :
  cycleElements d = Normal elements →
  ∃ cycles,
    opt_member (progress d) "progress" = Normal cycles ∧
    (nullish cycles = true → elements = []) ∧
    (∀ items, cycles = VArr items → elements = items).
Proof.
  unfold cycleElements. intros H.
  destruct (opt_member (progress d) "progress") as [cycles|] eqn:Ep; [|done].
  cbn [mbind completion_bind] in H. exists cycles. split; [done|].
  destruct cycles as [| | | | |items|]; try discriminate H.
  - injection H as <-. by split.
  - injection H as <-. by split.
  - cbn [opt_map] in H. rewrite mapM_mret in H. injection H as <-.
    split; [done|]. by intros ? [= <-].
Qed.

(** What a page that renders is made of. *)
Lemma render_inv s page :
  run_render s = Normal page →
  call_map "projects.map" projectOption (projects s) = Normal (page_projects page) ∧
  call_map "versions.map" versionOption (versions s) = Normal (page_versions page) ∧
  page_refresh_disabled page =
    negb (truthy (selectedProject s)) || negb (truthy (selectedVersion s)) || loading s ∧
  page_error page = (if truthy (error s) then Some (error s) else None) ∧
  (truthy (error s) = true → valid_child (error s) = true) ∧
  match page_main page with
  | LoadingSpinner => loading s = true
  | Welcome => loading s = false ∧ dashboardData s = None
  | Dashboard view =>
      loading s = false ∧
      ∃ d elements,
        dashboardData s = Some d ∧
        run_dashboardElements d = Normal elements ∧
        run_dashboardView elements = Normal view
  end.
Proof.
  unfold render. intros H.
  destruct (call_map "projects.map" projectOption (projects s)) as [po|];
    cbn [mbind completion_bind] in H; [|discriminate H].
  destruct (member (versions s) "length") as [vl|];
    cbn [mbind completion_bind] in H; [|discriminate H].
  destruct (call_map "versions.map" versionOption (versions s)) as [vo|];
    cbn [mbind completion_bind] in H; [|discriminate H].
  assert (Hbanner : ∀ u, (if truthy (error s) then child (error s) else mret tt) = Normal u →
                         truthy (error s) = true → valid_child (error s) = true).
  { intros u Hu Ht. rewrite Ht in Hu. by apply child_inv in Hu. }
  destruct (loading s) eqn:Hl.
  - cbv [mret completion_ret] in H. cbn [mbind completion_bind] in H.
    destruct (mapM render_projectOption po); cbn [mbind completion_bind] in H; [|discriminate H].
    destruct (mapM render_versionOption vo); cbn [mbind completion_bind] in H; [|discriminate H].
    destruct (if truthy (error s) then child (error s) else Normal tt) eqn:Eb;
      cbn [mbind completion_bind] in H; [|discriminate H].
    injection H as <-. cbn. repeat (split; [done|]). split; [by eapply Hbanner|done].
  - destruct (dashboardData s) as [d|] eqn:Hd.
    + destruct (dashboardElements NumberToString d) as [elements|] eqn:Ee;
        cbn [fmap completion_fmap mbind completion_bind] in H; [|discriminate H].
      destruct (mapM render_projectOption po); cbn [mbind completion_bind] in H;
        [|discriminate H].
      destruct (mapM render_versionOption vo); cbn [mbind completion_bind] in H;
        [|discriminate H].
      destruct (if truthy (error s) then child (error s) else mret tt) eqn:Eb;
        cbn [mbind completion_bind] in H; [|discriminate H].
      destruct (dashboardView _ _ _ elements) as [view|] eqn:Ev;
        cbn [fmap completion_fmap mbind completion_bind] in H; [|discriminate H].
      cbv [mret completion_ret] in H. injection H as <-. cbn.
      repeat (split; [done|]). split; [by eapply Hbanner|].
      split; [done|]. by exists d, elements.
    + cbv [mret completion_ret] in H. cbn [mbind completion_bind] in H.
      destruct (mapM render_projectOption po); cbn [mbind completion_bind] in H;
        [|discriminate H].
      destruct (mapM render_versionOption vo); cbn [mbind completion_bind] in H;
        [|discriminate H].
      destruct (if truthy (error s) then child (error s) else Normal tt) eqn:Eb;
        cbn [mbind completion_bind] in H; [|discriminate H].
      injection H as <-. cbn. repeat (split; [done|]). split; [by eapply Hbanner|done].
Qed.

(** A page with the dashboard comes from a state that is not loading
    and has data, and shows the view of that data. *)
Lemma render_dashboard s page view :
  run_render s = Normal page → page_main page = Dashboard view →
  ∃ d elements, dashboardData s = Some d ∧ loading s = false ∧
       run_dashboardElements d = Normal elements ∧
       run_dashboardView elements = Normal view.
Proof.
  intros H Hmain. destruct (render_inv _ _ H) as (_ & _ & _ & _ & _ & Hm).
  rewrite Hmain in Hm. destruct Hm as (Hl & d & elements & Hd & He & Hv).
  by exists d, elements.
Qed.

Lemma dashboardElements_inv d elements :
  run_dashboardElements d = Normal elements →
  run_keyMetrics d = Normal (element_metrics elements) ∧
  getExecutionChartData (Some d) = Normal (element_execution_chart elements) ∧
  getDistributionChartData (Some d) = Normal (element_distribution_chart elements) ∧
  cycleElements d = Normal (element_cycles elements).
Proof.
  unfold dashboardElements. intros H.
  destruct (run_keyMetrics d) as [m|] eqn:Em; [|done].
  destruct (getExecutionChartData (Some d)) as [ec|] eqn:E1; [|done].
  destruct (getDistributionChartData (Some d)) as [dc|] eqn:E2; [|done].
  destruct (cycleElements d) as [cycles|] eqn:Ec; [|done].
  by injection H as <-.
Qed.

Lemma dashboardView_inv elements view :
  run_dashboardView elements = Normal view →
  view_metrics view = element_metrics elements ∧
  view_execution_chart view = element_execution_chart elements ∧
  view_distribution_chart view = element_distribution_chart elements ∧
  metricCards (element_metrics elements) = Normal tt ∧
  mapM run_CycleCard (element_cycles elements) = Normal (view_cards view).
Proof.
  unfold dashboardView. intros H.
  destruct (metricCards (element_metrics elements)) as [[]|] eqn:Em;
    cbn [mbind completion_bind] in H; [|discriminate H].
  destruct (mapM run_CycleCard (element_cycles elements)) as [cards|] eqn:Ec;
    cbn [mbind completion_bind] in H; [|discriminate H].
  by injection H as <-.
Qed.

(** C4, as the code has it.  A load whose four calls succeed stores the
    four results side by side and unchanged.  The page then shows the
    total of tests and the number of cycles from the report call, the
    regression and the negative count from the results of their own
    calls, and one card for each cycle of the progress call, whose rates
    are computed by the card from the counts of that cycle. *)
Theorem dashboard_shows_four_results t0 t1 t2 t3 r0 r1 r2 r3 arrivals w page view :
  settle t0 = Normal r0 → settle t1 = Normal r1 →
  settle t2 = Normal r2 → settle t3 = Normal r3 →
  (∀ i, i < 4 → i ∈ arrivals) →
  run_render (ui (run_loadDashboard t0 t1 t2 t3 arrivals w).2) = Normal page →
  page_main page = Dashboard view →
  dashboardData (ui (run_loadDashboard t0 t1 t2 t3 arrivals w).2) =
    Some {| report := r0; progress := r1; regressionTests := r2; negativeTests := r3 |} ∧
  (∃ om total_tests,
     member r0 "overall_metrics" = Normal om ∧
     opt_member om "total_tests" = Normal total_tests ∧
     metric_total_tests (view_metrics view) = js_or total_tests zero) ∧
  (∃ regression,
     opt_member r2 "total_regression_tests" = Normal regression ∧
     metric_regression_tests (view_metrics view) = js_or regression zero) ∧
  (∃ negative,
     opt_member r3 "negative_test_count" = Normal negative ∧
     metric_negative_tests (view_metrics view) = js_or negative zero) ∧
  (∃ cb len,
     member r0 "cycle_breakdown" = Normal cb ∧
     opt_member cb "length" = Normal len ∧
     metric_test_cycles (view_metrics view) = js_or len zero) ∧
  (∃ cycles,
     opt_member r1 "progress" = Normal cycles ∧
     (nullish cycles = true → view_cards view = []) ∧
     (∀ items, cycles = VArr items →
        Forall2 (λ cycle card, run_CycleCard cycle = Normal card) items (view_cards view))).
Proof.
  intros H0 H1 H2 H3 Hall Hpage Hmain.
  rewrite (loadDashboard_fulfilled _ _ _ _ _ _ _ _ _ _ H0 H1 H2 H3 Hall) in Hpage |- *.
  split; [reflexivity|].
  apply render_dashboard with (view := view) in Hpage; [|done].
  destruct Hpage as (d & elements & Hd & _ & Helements & Hview).
  cbn in Hd. injection Hd as <-.
  destruct (dashboardElements_inv _ _ Helements) as (Em & _ & _ & Hcycles).
  destruct (dashboardView_inv _ _ Hview) as (Hm & _ & _ & _ & Ec).
  rewrite <- Hm in Em.
  destruct (keyMetrics_inv _ _ Em)
    as (om & ds & cb & tt' & er & pr & od & rg & ng & len & Hom & Hds & Hcb & Htt & _ & _ & _
        & Hrg & Hng & Hlen & Mtt & _ & _ & _ & Mrg & Mng & Mlen).
  simpl in *.
  split; [by exists om, tt'|]. split; [by exists rg|]. split; [by exists ng|].
  split; [by exists cb, len|].
  destruct (cycleElements_inv _ _ Hcycles) as (cycles & Hp & Hnull & Hitems).
  cbn [progress] in Hp. change (element [r0; r1; r2; r3] 1) with r1 in Hp.
  exists cycles. split; [done|]. split.
  - intros Hn. rewrite (Hnull Hn) in Ec. by injection Ec as <-.
  - intros items ->. rewrite (Hitems items eq_refl) in Ec. by apply mapM_Normal.
Qed.

(** The refresh button starts a dashboard load when a project and a
    version are selected, and is enabled then unless a load is running. *)
Lemma refreshDashboard_selected t0 t1 t2 t3 arrivals w :
  truthy (selectedProject (ui w)) = true →
  truthy (selectedVersion (ui w)) = true →
  refreshDashboard JSON_parse t0 t1 t2 t3 arrivals w =
    run_loadDashboard t0 t1 t2 t3 arrivals w ∧
  (∀ page, run_render (ui w) = Normal page →
           page_refresh_disabled page = loading (ui w)).
Proof.
  intros Hp Hv. split.
  - unfold refreshDashboard, get_state, mbind, Act_bind, js_and. by rewrite Hp, Hv.
  - intros page Hpage. destruct (render_inv _ _ Hpage) as (_ & _ & Hd & _).
    by rewrite Hd, Hp, Hv.
Qed.

(** The message of a failed load is not empty, so the page shows it. *)
Lemma failure_text_shown e : truthy (failure_text e) = true.
Proof. reflexivity. Qed.

(** One load sends each of its requests once, whatever the outcome. *)
Lemma loads_send_once t0 t1 t2 t3 arrivals projectId w :
  sent (run_loadProjects t0 w).2 =
    (sent w ++ [{| toolName := "get_projects"; arguments := obj [] |}])%list ∧
  sent (run_loadVersions projectId t0 w).2 =
    (sent w ++ [{| toolName := "get_release_status";
                   arguments := obj [("project_id", projectId)] |}])%list ∧
  sent (run_loadDashboard t0 t1 t2 t3 arrivals w).2 =
    (sent w ++ dashboard_requests (ui w))%list.
Proof.
  split; [|split].
  - unfold loadProjects, try_catch, callTool, await, lift, mbind, Act_bind.
    destruct (settle t0) as [result|e]; simpl; [|done].
    destruct (member result "error") as [err|e]; simpl; [|done].
    destruct (truthy err); simpl; [done|].
    by destruct (member result "projects").
  - unfold loadVersions, try_catch, callTool, await, lift, mbind, Act_bind.
    destruct (settle t0) as [result|e]; simpl; [|done].
    destruct (member result "error") as [err|e]; simpl; [|done].
    destruct (truthy err); simpl; [done|].
    destruct (member result "releases") as [releases|e]; simpl; [|done].
    by destruct (opt_map _ _ releases).
  - rewrite loadDashboard_run.
    by destruct (Promise_all _ arrivals) as [[?|?]|].
Qed.

End Properties.

(** ** The model on concrete inputs *)

Abbreviation host_CycleCard :=
  (CycleCard host_StringToNumber host_ArrayToString host_NumberToString).
Abbreviation host_render :=
  (render host_StringToNumber host_ArrayToString host_NumberToString).
Abbreviation host_loadDashboard := (loadDashboard host_JSON_parse).

(** The second example of the specification: the smoke-test cycle prints
    98.0% and 90.0%. *)
Example smoke_cycle_rates :
  bar_text ∘ card_execution <$> host_CycleCard smoke_cycle = Normal "98.0%" ∧
  bar_text ∘ card_pass <$> host_CycleCard smoke_cycle = Normal "90.0%".
Proof. split; vm_compute; reflexivity. Qed.

(** For every value up to a total of at most 100, the rounded
    arithmetic of the model gives the percentage that the binary64
    division and multiplication of the Standard Library give. *)
Example percentage_as_binary64 :
  forallb (λ '(v, t), num_eqb (percentage host_StringToNumber host_ArrayToString (int v) (int t))
                              (binary64_percentage v t))
    (counts_upto 100) = true.
Proof. vm_compute. reflexivity. Qed.

(** 23 of 80 tests are executed.  The exact rate is 28.75; the double
    that the division and the multiplication give lies just below it, and
    the card prints 28.7%. *)
Example quarter_cycle_rates :
  bar_percentage ∘ card_execution <$> host_CycleCard quarter_cycle =
    Normal (Fin (8092405580431359 # 281474976710656)) ∧
  (8092405580431359 # 281474976710656 < 2875 # 100)%Q ∧
  bar_text ∘ card_execution <$> host_CycleCard quarter_cycle = Normal "28.7%" ∧
  bar_text ∘ card_pass <$> host_CycleCard quarter_cycle = Normal "28.7%".
Proof. repeat split; vm_compute; reflexivity. Qed.

(** C2, as stated, at the smoke-test cycle without rate fields: the rates
    the card shows are not 0 but the ones computed from the counts. *)
Lemma absent_rate_is_not_shown_as_zero :
  member bare_cycle "execution_rate" = Normal VUndefined ∧
  member bare_cycle "pass_rate" = Normal VUndefined ∧
  bar_text ∘ card_execution <$> host_CycleCard bare_cycle = Normal "98.0%" ∧
  bar_text ∘ card_pass <$> host_CycleCard bare_cycle = Normal "90.0%" ∧
  bar_percentage ∘ card_execution <$> host_CycleCard bare_cycle ≠ Normal (Fin 0) ∧
  bar_percentage ∘ card_pass <$> host_CycleCard bare_cycle ≠ Normal (Fin 0).
Proof.
  repeat split; try (vm_compute; reflexivity); vm_compute; discriminate.
Qed.

(** C4, as stated, at results of the documented shapes.  The report
    call answers with a report that has 125 regression tests, 35 negative
    tests and a cycle breakdown of one entry; the progress call answers
    with two cycles, the regression call with 130 and the negative call
    with 40.  What the load stores as the report is the answer of the
    report call as it came: no count is copied into it and its breakdown
    is not rebuilt from the progress, so the merge rule does not hold of
    what is stored. *)
Lemma stored_report_is_not_merged :
  let w' := (loadDashboard sample_JSON_parse report_response progress_response
               regression_response negative_response [0; 1; 2; 3] selected).2 in
  let stored := {| report := sample_report; progress := sample_progress;
                   regressionTests := later_regression;
                   negativeTests := later_negative |} in
  callTool_settle sample_JSON_parse report_response = Normal sample_report ∧
  callTool_settle sample_JSON_parse progress_response = Normal sample_progress ∧
  callTool_settle sample_JSON_parse regression_response = Normal later_regression ∧
  callTool_settle sample_JSON_parse negative_response = Normal later_negative ∧
  dashboardData (ui w') = Some stored ∧
  read (report stored) ["overall_metrics"; "regression_test_count"] = Normal (int 125) ∧
  read later_regression ["total_regression_tests"] = Normal (int 130) ∧
  read (report stored) ["overall_metrics"; "negative_test_count"] = Normal (int 35) ∧
  read later_negative ["negative_test_count"] = Normal (int 40) ∧
  read (report stored) ["cycle_breakdown"; "length"] = Normal (int 1) ∧
  read sample_progress ["progress"; "length"] = Normal (int 2) ∧
  ¬ merge_rule_as_stated sample_report sample_progress later_regression later_negative stored.
Proof.
  do 11 (split; [vm_compute; reflexivity|]).
  intros (_ & Hregression & _). vm_compute in Hregression. discriminate.
Qed.

(** C1 at an upstream failure.  The regression call fails upstream: it
    answers with the error object of the upstream service, which the two
    single-call loaders take for a failure.  The dashboard load does not
    fail.  It stores the answers of the other three calls together with
    the error object and sets no error; the page shows the dashboard
    without a banner, with the total of the report and a regression count
    of 0.  A rejected regression call, by contrast, stores nothing. *)
Theorem upstream_failure_stores_partial_report :
  let w' := (loadDashboard sample_JSON_parse report_response progress_response
               error_response negative_response [0; 1; 2; 3] selected).2 in
  callTool_settle sample_JSON_parse error_response = Normal upstream_error ∧
  dashboardData (ui w') =
    Some {| report := sample_report; progress := sample_progress;
            regressionTests := upstream_error; negativeTests := later_negative |} ∧
  loading (ui w') = false ∧
  error (ui w') = VStr "" ∧
  page_error <$> host_render (ui w') = Normal None ∧
  fmap (metric_total_tests ∘ view_metrics) ∘ shown_dashboard <$> host_render (ui w') =
    Normal (Some (int 450)) ∧
  fmap (metric_regression_tests ∘ view_metrics) ∘ shown_dashboard <$> host_render (ui w') =
    Normal (Some zero) ∧
  error (ui (loadVersions sample_JSON_parse (VStr "10001") error_response selected).2) =
    VStr "Version not found" ∧
  dashboardData
    (ui (loadDashboard sample_JSON_parse report_response progress_response
           offline negative_response [0; 1; 2; 3] selected).2) = None.
Proof. repeat split; vm_compute; reflexivity. Qed.

(** C8 at an upstream error.  The report call answers with the error
    object of the upstream service.  The dashboard load stores it as the
    report, leaves the error empty and the page shows no error, whereas
    the two single-call loaders show the same answer as the error. *)
Theorem upstream_error_not_surfaced :
  let w' := (host_loadDashboard error_response empty_response empty_response
               empty_response [0; 1; 2; 3] selected).2 in
  callTool_settle host_JSON_parse error_response = Normal upstream_error ∧
  dashboardData (ui w') =
    Some {| report := upstream_error; progress := obj [];
            regressionTests := obj []; negativeTests := obj [] |} ∧
  error (ui w') = VStr "" ∧
  page_error <$> host_render (ui w') = Normal None ∧
  error (ui (loadProjects host_JSON_parse error_response selected).2) =
    VStr "Version not found" ∧
  error (ui (loadVersions host_JSON_parse (VStr "10001") error_response selected).2) =
    VStr "Version not found".
Proof. repeat split; vm_compute; reflexivity. Qed.

(** C10 at a report call that answers [null].  The load succeeds and
    stores [null] as the report; rendering the key metrics then throws
    on [dashboardData.report.overall_metrics], whereas a [null] answer of
    the regression call, which is read with [?.], is shown as 0. *)
Theorem null_report_breaks_key_metrics :
  let w' := (host_loadDashboard null_response empty_response empty_response
               empty_response [0; 1; 2; 3] selected).2 in
  dashboardData (ui w') =
    Some {| report := VNull; progress := obj [];
            regressionTests := obj []; negativeTests := obj [] |} ∧
  loading (ui w') = false ∧
  error (ui w') = VStr "" ∧
  host_render (ui w') =
    Throw (TypeError "Cannot read properties of null (reading 'overall_metrics')") ∧
  metric_regression_tests <$>
    keyMetrics host_NumberToString
      {| report := obj []; progress := VNull;
         regressionTests := VNull; negativeTests := VNull |} = Normal zero.
Proof. repeat split; vm_compute; reflexivity. Qed.

(** ** The theorems at concrete inputs *)

(** The progress call is offline and its failure has arrived after the
    report: the load ends with the message of that failure and stores
    nothing, whatever arrives. *)
Lemma loadDashboard_all_or_nothing_witness :
  [empty_response; offline; empty_response; empty_response] !! 1 = Some offline ∧
  callTool_settle host_JSON_parse offline = Throw (TypeError "Failed to fetch") ∧
  1 ∈ [0; 1] ∧
  (∃ e' j t',
      j ∈ [0; 1] ∧
      [empty_response; offline; empty_response; empty_response] !! j = Some t' ∧
      callTool_settle host_JSON_parse t' = Throw e' ∧
      host_loadDashboard empty_response offline empty_response empty_response [0; 1] selected =
        (Returned tt, finished (with_error (failure_text e')) selected)) ∧
  (∀ arrivals',
      dashboardData
        (ui (host_loadDashboard empty_response offline empty_response empty_response
               arrivals' selected).2) = dashboardData (ui selected)).
Proof.
  assert (H1 : 1 ∈ [0; 1]) by (apply list_elem_of_In; simpl; auto).
  split; [reflexivity|]. split; [reflexivity|]. split; [exact H1|].
  exact (loadDashboard_all_or_nothing host_JSON_parse
           empty_response offline empty_response empty_response [0; 1] selected
           1 offline (TypeError "Failed to fetch") eq_refl eq_refl H1).
Defined.

(** A cycle without tests: both bars are at 0.0%. *)
Lemma zero_total_zero_rates_witness :
  ∃ card,
    (0 == 0)%Q ∧ nullish VUndefined = true ∧
    host_CycleCard empty_cycle = Normal card ∧
    member empty_cycle "total_tests" = Normal (VNum (Fin 0)) ∧
    bar_percentage (card_execution card) = Fin 0 ∧
    bar_text (card_execution card) = "0.0%" ∧
    bar_percentage (card_pass card) = Fin 0 ∧
    bar_text (card_pass card) = "0.0%" ∧
    card_executionRate card = zero ∧
    card_passRate card = zero.
Proof.
  destruct (host_CycleCard empty_cycle) as [card|e] eqn:Hcard; [|vm_compute in Hcard; discriminate].
  exists card.
  assert (Hq : (0 == 0)%Q) by reflexivity.
  assert (Ht : member empty_cycle "total_tests" = Normal (VNum (Fin 0))) by reflexivity.
  destruct (zero_total_zero_rates host_StringToNumber host_ArrayToString host_NumberToString
              "Execution Progress" (int 0) VUndefined 0 empty_cycle card Hq eq_refl Hcard)
    as (_ & Hbars & Her & Hpr & _).
  destruct (Hbars Ht) as (? & ? & ? & ?).
  repeat (split; [done|]).
  split; [exact (Her VUndefined eq_refl eq_refl) | exact (Hpr VUndefined eq_refl eq_refl)].
Defined.

(** The counts of the documented summary. *)
Lemma displayed_rates_witness :
  ∃ card,
    host_CycleCard summary_cycle = Normal card ∧
    member summary_cycle "total_tests" = Normal (int 450) ∧
    member summary_cycle "unexecuted" = Normal (int 70) ∧
    member summary_cycle "passed" = Normal (int 320) ∧
    (0 < 450 < 2 ^ 53)%Z ∧ (0 <= 70 < 2 ^ 53)%Z ∧ (0 <= 320 < 2 ^ 53)%Z ∧
    shows_rate (card_execution card) (inject_Z (450 - 70) / inject_Z 450 * 100) ∧
    shows_rate (card_pass card) (inject_Z 320 / inject_Z 450 * 100) ∧
    bar_text (card_execution card) = "84.4%" ∧
    bar_text (card_pass card) = "71.1%".
Proof.
  destruct (host_CycleCard summary_cycle) as [card|e] eqn:Hcard; [|vm_compute in Hcard; discriminate].
  exists card.
  assert (HT : (0 < 450 < 2 ^ 53)%Z) by (split; reflexivity).
  assert (HU : (0 <= 70 < 2 ^ 53)%Z) by (split; [discriminate|reflexivity]).
  assert (HS : (0 <= 320 < 2 ^ 53)%Z) by (split; [discriminate|reflexivity]).
  destruct (displayed_rates host_StringToNumber host_ArrayToString host_NumberToString
              summary_cycle card 450 70 320 Hcard eq_refl eq_refl eq_refl HT HU HS)
    as (He & Hp & _).
  do 7 (split; [done|]). split; [exact He|]. split; [exact Hp|].
  vm_compute in Hcard. injection Hcard as <-. split; reflexivity.
Defined.

(** The four documented results, arriving in the order 2, 0, 3, 1. *)
Lemma loadDashboard_fan_out_join_all_witness :
  callTool_settle host_JSON_parse empty_response = Normal (obj []) ∧
  sent (host_loadDashboard empty_response empty_response empty_response empty_response
          [] selected).2 = dashboard_requests (ui selected) ∧
  host_loadDashboard empty_response empty_response empty_response empty_response
    [2; 0; 3; 1] selected =
    (Returned tt, finished (with_dashboardData (loaded [obj []; obj []; obj []; obj []])) selected) ∧
  host_loadDashboard empty_response empty_response empty_response empty_response
    [2; 0; 3] selected = (Suspended, started selected).
Proof.
  destruct (loadDashboard_fan_out_join_all host_JSON_parse
              empty_response empty_response empty_response empty_response
              (obj []) (obj []) (obj []) (obj []) [2; 0; 3; 1] selected
              eq_refl eq_refl eq_refl eq_refl) as (Hsent & _ & Hall & _).
  destruct (loadDashboard_fan_out_join_all host_JSON_parse
              empty_response empty_response empty_response empty_response
              (obj []) (obj []) (obj []) (obj []) [2; 0; 3] selected
              eq_refl eq_refl eq_refl eq_refl) as (_ & _ & _ & Hpending).
  split; [reflexivity|]. split; [exact Hsent|]. split.
  - apply Hall. intros i Hi. apply list_elem_of_In.
    destruct i as [|[|[|[|i]]]]; simpl; auto. lia.
  - apply (Hpending 1); [lia|]. intros Hin. apply list_elem_of_In in Hin.
    simpl in Hin. intuition discriminate.
Defined.

(** A load with the progress call offline, after an earlier success. *)
Lemma loadDashboard_failure_frame_witness :
  truthy (error (ui (host_loadDashboard empty_response offline empty_response
                       empty_response [1] (finished (with_dashboardData
                         (loaded [obj []; obj []; obj []; obj []])) selected)).2)) = true ∧
  ∃ e,
    ui (host_loadDashboard empty_response offline empty_response empty_response [1]
          (finished (with_dashboardData (loaded [obj []; obj []; obj []; obj []])) selected)).2 =
      {| projects := VArr [];
         selectedProject := VStr "10001";
         selectedVersion := VStr "10100";
         versions := VArr [];
         dashboardData := loaded [obj []; obj []; obj []; obj []];
         loading := false;
         error := failure_text e |}.
Proof.
  split; [reflexivity|].
  exact (loadDashboard_failure_frame host_JSON_parse
           empty_response offline empty_response empty_response [1]
           (finished (with_dashboardData (loaded [obj []; obj []; obj []; obj []])) selected)
           eq_refl).
Defined.

(** An envelope around the text of the empty object, and a body without
    content. *)
Lemma callTool_contract_witness :
  (p ← callTool host_JSON_parse "get_projects" (obj []) (Body (envelope "{}")); await p) selected =
    (Returned (obj []), with_request "get_projects" (obj []) selected) ∧
  ¬ has_content (obj [("error", VStr "no result")]) ∧
  ∃ e,
    (p ← callTool host_JSON_parse "get_projects" (obj [])
           (Body (obj [("error", VStr "no result")])); await p) selected =
      (Raised e, with_request "get_projects" (obj []) selected) ∧
    (nullish (obj [("error", VStr "no result")]) = false →
     e = PlainError "Invalid response from MCP server").
Proof.
  assert (Hc : ¬ has_content (obj [("error", VStr "no result")])).
  { intros (r & c & Hr & Tr & _). vm_compute in Hr. injection Hr as <-. discriminate. }
  split; [|split; [exact Hc|]].
  - apply (proj1 (callTool_contract host_JSON_parse "get_projects" (obj [])
                    (envelope "{}") selected))
      with (r := obj [("content", VArr [obj [("text", VStr "{}")]])])
           (content := VArr [obj [("text", VStr "{}")]])
           (item := obj [("text", VStr "{}")]) (text := VStr "{}");
      reflexivity.
  - exact (proj2 (callTool_contract host_JSON_parse "get_projects" (obj [])
                    (obj [("error", VStr "no result")]) selected) Hc).
Defined.

(** A release status that is the empty object. *)
Lemma loadVersions_no_versions_witness :
  callTool_settle host_JSON_parse empty_response = Normal (obj []) ∧
  member (obj []) "error" = Normal VUndefined ∧ truthy VUndefined = false ∧
  member (obj []) "releases" = Normal VUndefined ∧
  versions (ui (loadVersions host_JSON_parse (VStr "10001") empty_response selected).2) = VArr [] ∧
  error (ui (loadVersions host_JSON_parse (VStr "10001") empty_response selected).2) =
    error (ui selected) ∧
  page_versions <$>
    host_render (ui (loadVersions host_JSON_parse (VStr "10001") empty_response selected).2) =
    Normal [] ∧
  page_error <$>
    host_render (ui (loadVersions host_JSON_parse (VStr "10001") empty_response selected).2) =
    Normal None.
Proof.
  destruct (loadVersions_no_versions host_JSON_parse (VStr "10001") empty_response
              (obj []) VUndefined VUndefined selected
              eq_refl eq_refl eq_refl eq_refl (or_introl eq_refl)) as (_ & Hv & He).
  do 4 (split; [reflexivity|]). split; [exact Hv|]. split; [exact He|].
  split; vm_compute; reflexivity.
Defined.

(** The four documented results, arriving in the order 3, 2, 1, 0: the
    page shows the regression count 130 and the negative count 40 of
    their own calls, where the stored report says 125 and 35, and two
    cards for the two cycles of the progress call, where the report
    counts one cycle. *)
Lemma dashboard_shows_four_results_witness :
  ∃ page view,
    callTool_settle sample_JSON_parse report_response = Normal sample_report ∧
    callTool_settle sample_JSON_parse progress_response = Normal sample_progress ∧
    callTool_settle sample_JSON_parse regression_response = Normal later_regression ∧
    callTool_settle sample_JSON_parse negative_response = Normal later_negative ∧
    (∀ i, i < 4 → i ∈ [3; 2; 1; 0]) ∧
    host_render (ui (loadDashboard sample_JSON_parse report_response progress_response
                       regression_response negative_response [3; 2; 1; 0] selected).2) =
      Normal page ∧
    page_main page = Dashboard view ∧
    dashboardData (ui (loadDashboard sample_JSON_parse report_response progress_response
                         regression_response negative_response [3; 2; 1; 0] selected).2) =
      Some {| report := sample_report; progress := sample_progress;
              regressionTests := later_regression; negativeTests := later_negative |} ∧
    metric_total_tests (view_metrics view) = int 450 ∧
    metric_regression_tests (view_metrics view) = int 130 ∧
    read sample_report ["overall_metrics"; "regression_test_count"] = Normal (int 125) ∧
    metric_negative_tests (view_metrics view) = int 40 ∧
    read sample_report ["overall_metrics"; "negative_test_count"] = Normal (int 35) ∧
    metric_test_cycles (view_metrics view) = int 1 ∧
    Forall2 (λ cycle card, host_CycleCard cycle = Normal card)
      [smoke_cycle; empty_cycle] (view_cards view) ∧
    bar_text ∘ card_execution <$> view_cards view = ["98.0%"; "0.0%"].
Proof.
  assert (Hall : ∀ i, i < 4 → i ∈ [3; 2; 1; 0]).
  { intros i Hi. apply list_elem_of_In. destruct i as [|[|[|[|i]]]]; simpl; auto. lia. }
  destruct (host_render (ui (loadDashboard sample_JSON_parse report_response progress_response
                               regression_response negative_response [3; 2; 1; 0] selected).2))
    as [page|e] eqn:Hpage; [|vm_compute in Hpage; discriminate].
  destruct (page_main page) as [|view|] eqn:Hmain;
    [vm_compute in Hpage; injection Hpage as <-; discriminate | |
     vm_compute in Hpage; injection Hpage as <-; discriminate].
  exists page, view.
  destruct (dashboard_shows_four_results host_StringToNumber host_ArrayToString
              host_NumberToString sample_JSON_parse
              report_response progress_response regression_response negative_response
              sample_report sample_progress later_regression later_negative
              [3; 2; 1; 0] selected page view
              eq_refl eq_refl eq_refl eq_refl Hall Hpage Hmain)
    as (Hdata & (om & total & Hom & Htotal & Mtotal) & (rg & Hrg & Mrg) & (ng & Hng & Mng)
        & (cb & len & Hcb & Hlen & Mlen) & (cycles & Hcycles & _ & Hcards)).
  do 4 (split; [reflexivity|]). split; [exact Hall|]. split; [reflexivity|].
  split; [exact Hmain|]. split; [exact Hdata|].
  vm_compute in Hom. injection Hom as <-. vm_compute in Htotal. injection Htotal as <-.
  vm_compute in Hrg. injection Hrg as <-. vm_compute in Hng. injection Hng as <-.
  vm_compute in Hcb. injection Hcb as <-. vm_compute in Hlen. injection Hlen as <-.
  split; [exact Mtotal|]. split; [exact Mrg|]. split; [reflexivity|].
  split; [exact Mng|]. split; [reflexivity|]. split; [exact Mlen|].
  assert (Hitems : cycles = VArr [smoke_cycle; empty_cycle]).
  { unfold opt_member in Hcycles. cbn in Hcycles. by injection Hcycles as <-. }
  pose proof (Hcards _ Hitems) as Hc. split; [exact Hc|].
  destruct (view_cards view) as [|c1 [|c2 [|c3 rest]]];
    try (apply Forall2_length in Hc; discriminate Hc).
  apply Forall2_cons_1 in Hc. destruct Hc as [H1 Hc].
  apply Forall2_cons_1 in Hc. destruct Hc as [H2 _].
  vm_compute in H1. injection H1 as <-. vm_compute in H2. injection H2 as <-.
  reflexivity.
Defined.

(** * More of the component *)

(** ** Property reads *)

Lemma member_nullish o k : nullish o = true → member o k = Throw (cannot_read o k).
Proof. by destruct o. Qed.

Lemma member_total o k : nullish o = false → ∃ v, member o k = Normal v.
Proof.
  destruct o; simpl; try discriminate; intros _; eauto;
    destruct (String.eqb k "length"); eauto.
Qed.

Lemma opt_member_total o k : ∃ v, opt_member o k = Normal v.
Proof.
  unfold opt_member. destruct (nullish o) eqn:Hn; [eauto|by apply member_total].
Qed.

Lemma truthy_not_nullish v : truthy v = true → nullish v = false.
Proof. by destruct v. Qed.

(** ** Promise.all: the first rejection *)

Lemma all_arrive_settled ps a c arrivals :
  settled a = Some c → settled (foldl (all_arrive ps) a arrivals) = Some c.
Proof.
  revert a. induction arrivals as [|i arrivals IH]; intros a Ha; [done|].
  simpl. apply IH. unfold all_arrive. by rewrite Ha.
Qed.

(** The combined promise is rejected with the error of the first rejected
    promise to arrive; what arrives later does not matter. *)
Lemma Promise_all_first_rejection ps before j after e :
  ps !! j = Some (Throw e) →
  (∀ i p, i ∈ before → ps !! i = Some p → ∃ v, p = Normal v) →
  Promise_all ps (before ++ j :: after) = Some (Throw e).
Proof.
  intros Hj Hbefore. unfold Promise_all. rewrite foldl_app. simpl.
  apply all_arrive_settled.
  destruct (Promise_all ps before) as [[vs|e']|] eqn:Hs.
  - by destruct (Promise_all_not_fulfilled ps before j e vs Hj).
  - destruct (Promise_all_rejected_inv _ _ _ Hs) as (i & Hi & Hp).
    destruct (Hbefore i _ Hi Hp) as (v & ?). discriminate.
  - unfold Promise_all in Hs.
    set (a := foldl (all_arrive ps) (all_init (length ps)) before) in *.
    unfold all_arrive. by rewrite Hs, Hj.
Qed.

Section Coverage.

Variable StringToNumber : string -> num.
Variable ArrayToString : list value -> string.
Variable NumberToString : Q -> string.
Variable JSON_parse : value -> completion value.

Abbreviation settle := (callTool_settle JSON_parse).

(** ** The loaders *)

(** X1.  When several calls of a dashboard load fail, the message shown
    is the one of the failure that arrives first: with the calls before
    it fulfilled, the load ends in its [catch] block with that message,
    whatever arrives afterwards. *)
Theorem loadDashboard_first_failure t0 t1 t2 t3 before j after t e w :
  [t0; t1; t2; t3] !! j = Some t →
  settle t = Throw e →
  (∀ i t', i ∈ before → [t0; t1; t2; t3] !! i = Some t' → ∃ v, settle t' = Normal v) →
  loadDashboard JSON_parse t0 t1 t2 t3 (before ++ j :: after) w =
    (Returned tt, finished (with_error (failure_text e)) w).
Proof.
  intros Hj He Hbefore. rewrite loadDashboard_run.
  rewrite (Promise_all_first_rejection _ before j after e); [done| |].
  - change ((settle <$> [t0; t1; t2; t3]) !! j = Some (Throw e)).
    by rewrite list_lookup_fmap, Hj; simpl; rewrite He.
  - intros i p Hi Hp.
    change ((settle <$> [t0; t1; t2; t3]) !! i = Some p) in Hp.
    rewrite list_lookup_fmap in Hp.
    destruct ([t0; t1; t2; t3] !! i) as [t'|] eqn:Et; [|discriminate].
    injection Hp as <-. destruct (Hbefore i t' Hi Et) as [v Hv]. by exists v.
Qed.

(** X2.  A dashboard load never throws to its caller, whatever the
    transport does and in whatever order the responses arrive: it is
    suspended or it has returned.  When it returns to its caller at its
    first [await], before any response, it has set the loading flag,
    cleared the error, sent its four requests and left the stored data
    alone.  When it has run to its end, its last update has reset the
    loading flag. *)
Theorem loadDashboard_loading_flag t0 t1 t2 t3 arrivals w :
  let run := loadDashboard JSON_parse t0 t1 t2 t3 arrivals w in
  (run.1 = Suspended ∨ run.1 = Returned tt) ∧
  loadDashboard JSON_parse t0 t1 t2 t3 [] w = (Suspended, started w) ∧
  loading (ui (started w)) = true ∧
  error (ui (started w)) = VStr "" ∧
  dashboardData (ui (started w)) = dashboardData (ui w) ∧
  (run.1 = Returned tt → loading (ui run.2) = false).
Proof.
  intros run. unfold run. rewrite !loadDashboard_run.
  split; [destruct (Promise_all _ arrivals) as [[rs|e]|]; [by right|by right|by left]|].
  split; [reflexivity|]. do 3 (split; [done|]).
  by destruct (Promise_all _ arrivals) as [[rs|e]|].
Qed.

Lemma js_or_truthy a b : truthy b = true → truthy (js_or a b) = true.
Proof. unfold js_or. by destruct (truthy a) eqn:Ha. Qed.

(** X3.  Whatever the transport does, [loadProjects] returns to its
    caller without throwing, sends one request and changes one field of
    the state: the projects, to a truthy value, or the error, to a truthy
    value.  It never clears an error that is already shown. *)
Theorem loadProjects_outcome t w :
  ∃ v, truthy v = true ∧
    (loadProjects JSON_parse t w =
       (Returned tt, {| ui := with_projects v (ui w);
                        sent := sent (with_request "get_projects" (obj []) w) |}) ∨
     loadProjects JSON_parse t w =
       (Returned tt, {| ui := with_error v (ui w);
                        sent := sent (with_request "get_projects" (obj []) w) |})).
Proof.
  unfold loadProjects, try_catch, callTool, await, lift, mbind, Act_bind, with_request.
  destruct (settle t) as [result|e]; simpl.
  - destruct (member result "error") as [err|e]; simpl.
    + destruct (truthy err) eqn:Herr; simpl.
      * exists err. split; [done|by right].
      * destruct (member result "projects") as [ps|e]; simpl.
        -- exists (js_or ps (VArr [])). split; [by apply js_or_truthy|by left].
        -- eexists. split; [|by right]. reflexivity.
    + eexists. split; [|by right]. reflexivity.
  - eexists. split; [|by right]. reflexivity.
Qed.

(** X4.  Whatever the transport does, [loadVersions] returns without
    throwing, sends one request and changes one field: the versions, and
    then always to an array, or the error, to a truthy value. *)
Theorem loadVersions_outcome projectId t w :
  (∃ items,
     loadVersions JSON_parse projectId t w =
       (Returned tt,
        {| ui := with_versions (VArr items) (ui w);
           sent := sent (with_request "get_release_status"
                           (obj [("project_id", projectId)]) w) |})) ∨
  (∃ v, truthy v = true ∧
     loadVersions JSON_parse projectId t w =
       (Returned tt,
        {| ui := with_error v (ui w);
           sent := sent (with_request "get_release_status"
                           (obj [("project_id", projectId)]) w) |})).
Proof.
  unfold loadVersions, try_catch, callTool, await, lift, mbind, Act_bind, with_request.
  destruct (settle t) as [result|e]; simpl.
  - destruct (member result "error") as [err|e]; simpl.
    + destruct (truthy err) eqn:Herr; simpl.
      * right. by exists err.
      * destruct (member result "releases") as [releases|e]; simpl.
        -- destruct (opt_map _ _ releases) as [[items|]|e]; simpl.
           ++ left. by exists items.
           ++ left. by exists [].
           ++ right. eexists. split; [|done]. reflexivity.
        -- right. eexists. split; [|done]. reflexivity.
    + right. eexists. split; [|done]. reflexivity.
  - right. eexists. split; [|done]. reflexivity.
Qed.

(** X5.  A project list without an error whose projects are missing or
    falsy gives the empty project list, and the error keeps its value. *)
Theorem loadProjects_no_projects t result err ps w :
  settle t = Normal result →
  member result "error" = Normal err → truthy err = false →
  member result "projects" = Normal ps → truthy ps = false →
  loadProjects JSON_parse t w =
    (Returned tt, {| ui := with_projects (VArr []) (ui w);
                     sent := sent (with_request "get_projects" (obj []) w) |}).
Proof.
  intros Hr He Ht Hp Hf.
  unfold loadProjects, try_catch, callTool, await, lift, mbind, Act_bind, with_request.
  rewrite Hr; simpl. rewrite He; simpl. rewrite Ht, Hp; simpl.
  unfold js_or. by rewrite Hf.
Qed.

(** What [loadVersions] stores for an array of releases. *)
Lemma loadVersions_stores_versions projectId t result err items w :
  settle t = Normal result →
  member result "error" = Normal err → truthy err = false →
  member result "releases" = Normal (VArr items) →
  Forall (λ r, nullish r = false) items →
  ∃ vs,
    versions (ui (loadVersions JSON_parse projectId t w).2) = VArr vs ∧
    Forall2 (λ r v, member r "version" = Normal v) items vs ∧
    error (ui (loadVersions JSON_parse projectId t w).2) = error (ui w).
Proof.
  intros Hr He Ht Hrel Hall.
  assert (∃ vs, mapM (λ r, member r "version") items = Normal vs) as [vs Hvs].
  { clear Hrel. induction Hall as [|r items Hr' _ IH]; [by exists []|].
    destruct IH as [vs Hvs]. destruct (member_total r "version" Hr') as [v Hv].
    exists (v :: vs). simpl. rewrite Hv; simpl. by rewrite Hvs. }
  exists vs.
  unfold loadVersions, try_catch, callTool, await, lift, mbind, Act_bind.
  rewrite Hr; simpl. rewrite He; simpl. rewrite Ht, Hrel; simpl.
  rewrite Hvs; simpl. split; [done|]. split; [|done]. by apply mapM_Normal.
Qed.

(** X6.  The versions stored by [loadVersions] are the version fields of
    the releases, one for each release and in their order; a release
    without the field contributes [undefined]. *)
Theorem loadVersions_maps_releases projectId t result err items w :
  settle t = Normal result →
  member result "error" = Normal err → truthy err = false →
  member result "releases" = Normal (VArr items) →
  Forall (λ r, nullish r = false) items →
  ∃ vs,
    versions (ui (loadVersions JSON_parse projectId t w).2) = VArr vs ∧
    Forall2 (λ r v, member r "version" = Normal v) items vs ∧
    error (ui (loadVersions JSON_parse projectId t w).2) = error (ui w).
Proof. apply loadVersions_stores_versions. Qed.

(** ** The tool client *)

(** X7.  A call is fulfilled only with a parsed text: whenever
    [callTool] gives a value, the response carried the content and the
    value is what [JSON.parse] makes of the text of its first item.  The
    envelope itself is never handed to the caller. *)
Theorem callTool_fulfilled_is_parsed t v :
  settle t = Normal v →
  ∃ result r content item text,
    t = Body result ∧ has_content result ∧
    member result "result" = Normal r ∧ member r "content" = Normal content ∧
    index content 0 = Normal item ∧ member item "text" = Normal text ∧
    JSON_parse text = Normal v.
Proof.
  destruct t as [e|e|result]; [done|done|]. unfold callTool_settle.
  destruct (member result "result") as [r|] eqn:Hr; [|done]. simpl.
  destruct (truthy r) eqn:Tr; simpl; [|by rewrite Tr].
  destruct (member r "content") as [content|] eqn:Hc; [|done]. simpl.
  destruct (truthy content) eqn:Tc; [|done].
  destruct (index content 0) as [item|] eqn:Hi; [|done]. simpl.
  destruct (member item "text") as [text|] eqn:Ht; [|done]. simpl.
  intros Hv. exists result, r, content, item, text.
  split; [done|]. split; [by exists r, content|]. done.
Qed.

(** ** Progress bars and cycle cards *)

Abbreviation run_percentage := (percentage StringToNumber ArrayToString).
Abbreviation run_CycleCard := (CycleCard StringToNumber ArrayToString NumberToString).

Lemma toFixed1_percent p :
  (0 <= p)%Q → (p <= 100)%Q → toFixed1 NumberToString (Fin p) = fixed1 p.
Proof.
  intros H0 H100. unfold toFixed1.
  destruct (Qle_bool (inject_Z (10 ^ 21)) (Qabs p)) eqn:E; [|done].
  apply Qle_bool_imp_le in E. rewrite Qabs_pos in E by done.
  assert (100 < inject_Z (10 ^ 21))%Q by reflexivity. lra.
Qed.

(** The bar of a value between 0 and the total. *)
Lemma ProgressBar_in_range label v t :
  (0 < t)%Q → (0 <= v)%Q → (v <= t)%Q →
  ∃ p, bar_percentage (ProgressBar StringToNumber ArrayToString NumberToString
                         label (VNum (Fin v)) (VNum (Fin t))) = Fin p ∧
       (0 <= p)%Q ∧ (p <= 100)%Q ∧
       bar_text (ProgressBar StringToNumber ArrayToString NumberToString
                   label (VNum (Fin v)) (VNum (Fin t))) = fixed1 p +:+ "%".
Proof.
  intros Ht H0 Hv. unfold ProgressBar. cbn [bar_percentage bar_text].
  rewrite (percentage_numbers _ _ _ _ Ht).
  destruct (percent_bounded v t Ht H0 Hv) as (p & -> & P0 & P100).
  exists p. do 3 (split; [done|]). by rewrite toFixed1_percent.
Qed.

(** The bar of a value that is the total. *)
Lemma ProgressBar_full label v t :
  (0 < t)%Q → (v == t)%Q →
  bar_text (ProgressBar StringToNumber ArrayToString NumberToString
              label (VNum (Fin v)) (VNum (Fin t))) = "100.0%".
Proof.
  intros Ht Hv. unfold ProgressBar. cbn [bar_percentage bar_text].
  rewrite (percentage_numbers _ _ _ _ Ht). unfold num_div.
  rewrite (proj2 (Qzero_false t)) by lra.
  assert (E : (v / t == 1)%Q) by (rewrite Hv; field; lra).
  rewrite (round64_comp _ _ E). reflexivity.
Qed.

(** X8.  For a cycle with a total above zero, the counts being whole
    numbers below 2^53, an unexecuted (or passed) count between 0 and the
    total gives an execution (or pass) bar between 0 and 100 percent,
    rounding included, printed as a plain decimal with one digit behind
    the point; no unexecuted test, or every test passed, prints 100.0%.
    The bars are not clamped: a cycle with 60 passed and 60 unexecuted
    tests out of 50 prints 120.0% and -20.0%. *)
Theorem card_rates_in_range cycle card T U S :
  run_CycleCard cycle = Normal card →
  member cycle "total_tests" = Normal (int T) →
  member cycle "unexecuted" = Normal (int U) →
  member cycle "passed" = Normal (int S) →
  (0 < T < 2 ^ 53)%Z → (0 <= U <= T)%Z → (0 <= S <= T)%Z →
  (∃ execution pass,
     bar_percentage (card_execution card) = Fin execution ∧
     bar_percentage (card_pass card) = Fin pass ∧
     (0 <= execution)%Q ∧ (execution <= 100)%Q ∧
     (0 <= pass)%Q ∧ (pass <= 100)%Q ∧
     bar_text (card_execution card) = fixed1 execution +:+ "%" ∧
     bar_text (card_pass card) = fixed1 pass +:+ "%") ∧
  (U = 0%Z → bar_text (card_execution card) = "100.0%") ∧
  (S = T → bar_text (card_pass card) = "100.0%") ∧
  (bar_text ∘ card_pass <$> run_CycleCard overfull_cycle = Normal "120.0%" ∧
   bar_text ∘ card_execution <$> run_CycleCard overfull_cycle = Normal "-20.0%").
Proof.
  intros Hcard Ht Hu Hs HT HU HS.
  destruct (CycleCard_inv _ _ _ _ _ Hcard)
    as (tt' & er & pr & pa & un & Ht' & _ & _ & Hpa & Hun & _ & _ & _ & Hex & Hps).
  rewrite Ht in Ht'. injection Ht' as <-.
  rewrite Hu in Hun. injection Hun as <-.
  rewrite Hs in Hpa. injection Hpa as <-.
  assert (Hpos : (0 < inject_Z T)%Q).
  { change 0%Q with (inject_Z 0). rewrite <- Zlt_Qlt. lia. }
  assert (E : (inject_Z T - inject_Z U == inject_Z (T - U))%Q).
  { unfold Z.sub. rewrite inject_Z_plus, inject_Z_opp. ring. }
  assert (Hsub : ∃ r, js_sub StringToNumber ArrayToString (int T) (int U) = VNum (Fin r) ∧
                      (r == inject_Z (T - U))%Q).
  { unfold js_sub, int. cbn [ToNumber num_sub]. rewrite (round64_comp _ _ E).
    destruct (round64_integer (T - U)) as (r & -> & Hr); [lia|]. by exists r. }
  destruct Hsub as (r & Hsub & Hr). rewrite Hsub in Hex.
  assert (R0 : (0 <= r)%Q).
  { rewrite Hr. change 0%Q with (inject_Z 0). rewrite <- Zle_Qle. lia. }
  assert (R1 : (r <= inject_Z T)%Q) by (rewrite Hr, <- Zle_Qle; lia).
  assert (S0 : (0 <= inject_Z S)%Q).
  { change 0%Q with (inject_Z 0). rewrite <- Zle_Qle. lia. }
  assert (S1 : (inject_Z S <= inject_Z T)%Q) by (rewrite <- Zle_Qle; lia).
  split; [|split; [|split]].
  - destruct (ProgressBar_in_range "Execution Progress" r (inject_Z T) Hpos R0 R1)
      as (e & He & E0 & E100 & Etext).
    destruct (ProgressBar_in_range "Pass Rate" (inject_Z S) (inject_Z T) Hpos S0 S1)
      as (p & Hp & P0 & P100 & Ptext).
    exists e, p. rewrite Hex, Hps. unfold int. done.
  - intros ->. rewrite Hex. apply ProgressBar_full; [done|].
    rewrite Hr. by replace (T - 0)%Z with T by lia.
  - intros ->. rewrite Hps. unfold int. by apply ProgressBar_full.
  - split; vm_compute; reflexivity.
Qed.

(** X9.  With a total above zero, a count that the cycle does not have
    is not replaced by 0: the bar that needs it has the percentage [NaN]
    and prints NaN%. *)
Theorem missing_count_prints_NaN cycle card t :
  run_CycleCard cycle = Normal card →
  member cycle "total_tests" = Normal (VNum (Fin t)) →
  (0 < t)%Q →
  (member cycle "unexecuted" = Normal VUndefined →
     bar_percentage (card_execution card) = NaN ∧
     bar_text (card_execution card) = "NaN%") ∧
  (member cycle "passed" = Normal VUndefined →
     bar_percentage (card_pass card) = NaN ∧
     bar_text (card_pass card) = "NaN%").
Proof.
  intros Hcard Ht Hpos.
  destruct (CycleCard_inv _ _ _ _ _ Hcard)
    as (tt' & er & pr & pa & un & Ht' & _ & _ & Hpa & Hun & _ & _ & _ & Hex & Hps).
  rewrite Ht in Ht'. injection Ht' as <-.
  assert (Hgt : js_gt StringToNumber ArrayToString (VNum (Fin t)) (Fin 0) = true).
  { unfold js_gt; simpl. by apply Qlt_bool_pos. }
  split.
  - intros Hu. rewrite Hu in Hun. injection Hun as <-.
    rewrite Hex. unfold ProgressBar, percentage, js_sub. by rewrite Hgt.
  - intros Hp. rewrite Hp in Hpa. injection Hpa as <-.
    rewrite Hps. unfold ProgressBar, percentage. by rewrite Hgt.
Qed.

(** A value that React can render converts to a primitive. *)
Lemma valid_child_convertible : ∀ v, valid_child v = true → convertible v = true.
Proof.
  fix IH 1. intros [| |b|n|s|items|fields]; cbn [valid_child convertible]; try done.
  induction items as [|x items IHitems]; [done|].
  cbn [forallb]. intros [Hx Hitems]%andb_prop.
  by rewrite (IH x Hx), (IHitems Hitems).
Qed.

Lemma child_valid v : valid_child v = true → child v = Normal tt.
Proof. unfold child. by intros ->. Qed.

Lemma ToPrimitive_valid v : valid_child v = true → ToPrimitive v = Normal tt.
Proof. intros H. unfold ToPrimitive. by rewrite (valid_child_convertible v H). Qed.

Lemma render_ProgressBar_valid label value total :
  valid_child value = true → valid_child total = true →
  render_ProgressBar StringToNumber ArrayToString NumberToString label value total =
    Normal (ProgressBar StringToNumber ArrayToString NumberToString label value total).
Proof.
  intros Hv Ht. unfold render_ProgressBar.
  rewrite (ToPrimitive_valid total Ht), (ToPrimitive_valid value Hv),
    (child_valid value Hv), (child_valid total Ht).
  cbn [mbind completion_bind]. by destruct (js_gt _ _ total (Fin 0)).
Qed.

(** The fields of a card that renders. *)
Lemma CycleCard_fields cycle card :
  run_CycleCard cycle = Normal card →
  ∃ inner,
    member cycle "cycle" = Normal inner ∧
    member inner "name" = Normal (card_name card) ∧
    member inner "description" = Normal (card_description card) ∧
    member cycle "total_tests" = Normal (card_total card) ∧
    member cycle "passed" = Normal (card_passed card) ∧
    member cycle "failed" = Normal (card_failed card) ∧
    member cycle "blocked" = Normal (card_blocked card) ∧
    member cycle "unexecuted" = Normal (card_unexecuted card) ∧
    Forall renders (card_children cycle inner).
Proof.
  unfold CycleCard. intros H.
  destruct (member cycle "total_tests") as [total|] eqn:E1; [|done].
  destruct (member cycle "execution_rate") as [er|] eqn:E2; [|done].
  destruct (member cycle "pass_rate") as [pr|] eqn:E3; [|done].
  destruct (member cycle "cycle") as [inner|] eqn:E4; [|done].
  cbn [mbind completion_bind] in H.
  destruct (member inner "name") as [name|] eqn:E5; [|done].
  destruct (member inner "description") as [description|] eqn:E6; [|done].
  destruct (member cycle "passed") as [passed|] eqn:E7; [|done].
  destruct (member cycle "failed") as [failed|] eqn:E8; [|done].
  destruct (member cycle "blocked") as [blocked|] eqn:E9; [|done].
  destruct (member cycle "unexecuted") as [unexecuted|] eqn:E10; [|done].
  cbn [mbind completion_bind] in H.
  destruct (sub _ _ total unexecuted) as [executed|]; [|done].
  cbn [mbind completion_bind] in H.
  destruct (child name) eqn:C1; cbn [mbind completion_bind] in H; [|discriminate H].
  destruct (child description) eqn:C2; cbn [mbind completion_bind] in H; [|discriminate H].
  destruct (child total) eqn:C3; cbn [mbind completion_bind] in H; [|discriminate H].
  destruct (child passed) eqn:C4; cbn [mbind completion_bind] in H; [|discriminate H].
  destruct (child failed) eqn:C5; cbn [mbind completion_bind] in H; [|discriminate H].
  destruct (child blocked) eqn:C6; cbn [mbind completion_bind] in H; [|discriminate H].
  destruct (child unexecuted) eqn:C7; cbn [mbind completion_bind] in H; [|discriminate H].
  destruct (render_ProgressBar _ _ _ "Execution Progress" _ total) as [execution|];
    cbn [mbind completion_bind] in H; [|discriminate H].
  destruct (render_ProgressBar _ _ _ "Pass Rate" passed total) as [pass|];
    cbn [mbind completion_bind] in H; [|discriminate H].
  injection H as <-. exists inner. cbn. do 8 (split; [done|]).
  unfold card_children. rewrite E1, E5, E6, E7, E8, E9, E10.
  repeat constructor; eexists; (split; [reflexivity|]); by eapply child_inv.
Qed.

(** When a cycle card renders. *)
Lemma CycleCard_renders cycle :
  (∃ card, run_CycleCard cycle = Normal card) ↔
  nullish cycle = false ∧
  ∃ inner, member cycle "cycle" = Normal inner ∧ nullish inner = false ∧
           Forall renders (card_children cycle inner).
Proof.
  split.
  - intros [card Hcard].
    destruct (CycleCard_fields _ _ Hcard) as (inner & Hinner & Hname & _ & Htotal & _ & _ & _ & _ & Hall).
    split.
    { destruct (nullish cycle) eqn:Hn; [|done].
      by rewrite (member_nullish cycle "total_tests" Hn) in Htotal. }
    exists inner. split; [done|]. split; [|done].
    destruct (nullish inner) eqn:Hi; [|done].
    by rewrite (member_nullish inner "name" Hi) in Hname.
  - intros (Hn & inner & Hinner & Hi & Hall). unfold CycleCard.
    destruct (member_total cycle "execution_rate" Hn) as [er Her].
    destruct (member_total cycle "pass_rate" Hn) as [pr Hpr].
    unfold card_children in Hall.
    apply Forall_cons in Hall. destruct Hall as [(name & Hname & Vname) Hall].
    apply Forall_cons in Hall. destruct Hall as [(description & Hdescription & Vdescription) Hall].
    apply Forall_cons in Hall. destruct Hall as [(total & Htotal & Vtotal) Hall].
    apply Forall_cons in Hall. destruct Hall as [(passed & Hpassed & Vpassed) Hall].
    apply Forall_cons in Hall. destruct Hall as [(failed & Hfailed & Vfailed) Hall].
    apply Forall_cons in Hall. destruct Hall as [(blocked & Hblocked & Vblocked) Hall].
    apply Forall_cons in Hall. destruct Hall as [(unexecuted & Hunexecuted & Vunexecuted) _].
    rewrite Htotal, Her, Hpr, Hinner. cbn [mbind completion_bind].
    rewrite Hname, Hdescription, Hpassed, Hfailed, Hblocked, Hunexecuted.
    cbn [mbind completion_bind]. unfold sub.
    rewrite (ToPrimitive_valid total Vtotal), (ToPrimitive_valid unexecuted Vunexecuted).
    cbn [mbind completion_bind]. cbv [mret completion_ret]. cbn [mbind completion_bind].
    rewrite (child_valid name Vname), (child_valid description Vdescription),
      (child_valid total Vtotal), (child_valid passed Vpassed), (child_valid failed Vfailed),
      (child_valid blocked Vblocked), (child_valid unexecuted Vunexecuted).
    cbn [mbind completion_bind].
    rewrite (render_ProgressBar_valid _ (js_sub _ _ total unexecuted) total eq_refl Vtotal).
    cbn [mbind completion_bind].
    rewrite (render_ProgressBar_valid _ passed total Vpassed Vtotal).
    cbn [mbind completion_bind]. by eexists.
Qed.

(** X10.  A cycle card renders exactly for the cycles that are neither
    [null] nor [undefined], whose [cycle] field is neither, and whose
    name, description and five counts are values that React can render:
    no objects.  No field has to be there.  On a cycle that is [null] or
    [undefined], and on one whose [cycle] field is, the card throws the
    TypeError of the first read; on a name given as an object React
    throws. *)
Theorem CycleCard_renders_iff cycle :
  ((∃ card, run_CycleCard cycle = Normal card) ↔
   nullish cycle = false ∧
   ∃ inner, member cycle "cycle" = Normal inner ∧ nullish inner = false ∧
            Forall renders (card_children cycle inner)) ∧
  (nullish cycle = true →
     run_CycleCard cycle = Throw (cannot_read cycle "total_tests")) ∧
  (∀ inner, nullish cycle = false → member cycle "cycle" = Normal inner →
     nullish inner = true →
     run_CycleCard cycle = Throw (cannot_read inner "name")) ∧
  run_CycleCard bilingual_cycle =
    Throw (PlainError "Objects are not valid as a React child").
Proof.
  split; [apply CycleCard_renders|]. split; [|split].
  - intros Hn. unfold CycleCard. by rewrite (member_nullish cycle "total_tests" Hn).
  - intros inner Hn Hinner Hi. unfold CycleCard.
    destruct (member_total cycle "total_tests" Hn) as [? ->].
    destruct (member_total cycle "execution_rate" Hn) as [? ->].
    destruct (member_total cycle "pass_rate" Hn) as [? ->].
    rewrite Hinner. cbn [mbind completion_bind].
    by rewrite (member_nullish inner "name" Hi).
  - vm_compute. reflexivity.
Qed.

(** ** Chart data *)

Abbreviation run_cycleDetails := (cycleDetails StringToNumber ArrayToString NumberToString).
Abbreviation run_keyMetrics := (keyMetrics NumberToString).
Abbreviation run_render := (render StringToNumber ArrayToString NumberToString).

Lemma mapM_all {A B} (f : A → completion B) l :
  Forall (λ x, ∃ y, f x = Normal y) l → ∃ k, mapM f l = Normal k ∧ length k = length l.
Proof.
  induction 1 as [|x l [y Hy] _ [k [Hk Hlen]]]; [by exists []|].
  exists (y :: k). simpl. rewrite Hy; simpl. rewrite Hk; simpl. by rewrite Hlen.
Qed.

Lemma mapM_some_throws {A B} (f : A → completion B) l x e :
  x ∈ l → f x = Throw e → ∃ e', mapM f l = Throw e'.
Proof.
  induction l as [|y l IH]; intros Hin Hx; [by apply elem_of_nil in Hin|].
  apply elem_of_cons in Hin. simpl.
  destruct (f y) as [b|e'] eqn:Hy; simpl; [|by exists e'].
  destruct Hin as [->|Hin]; [congruence|].
  destruct (IH Hin Hx) as [e' ->]. by exists e'.
Qed.

(** X11.  The distribution chart data never throws, whatever is stored,
    a [null] report included.  It is absent when there is no dashboard
    data or no truthy [overall_metrics]; with a truthy [overall_metrics]
    it is there, and it is the four counts passed, failed, blocked and
    unexecuted of the overall metrics, in this order. *)
Theorem getDistributionChartData_never_throws dashboardData :
  (dashboardData = None → getDistributionChartData dashboardData = Normal None) ∧
  (∀ d, dashboardData = Some d →
     ∃ metrics,
       opt_member (report d) "overall_metrics" = Normal metrics ∧
       (truthy metrics = false → getDistributionChartData dashboardData = Normal None) ∧
       (truthy metrics = true →
          ∃ passed failed blocked unexecuted,
            member metrics "passed" = Normal passed ∧
            member metrics "failed" = Normal failed ∧
            member metrics "blocked" = Normal blocked ∧
            member metrics "unexecuted" = Normal unexecuted ∧
            getDistributionChartData dashboardData =
              Normal (Some [passed; failed; blocked; unexecuted]))).
Proof.
  split; [by intros ->|]. intros d ->. unfold getDistributionChartData.
  destruct (opt_member_total (report d) "overall_metrics") as [metrics Hm].
  exists metrics. split; [done|]. rewrite Hm. cbn [mbind completion_bind]. split.
  - by intros ->.
  - intros Tm. rewrite Tm. cbn [negb].
    assert (Hmember : member (report d) "overall_metrics" = Normal metrics).
    { unfold opt_member in Hm. destruct (nullish (report d)); [|done].
      injection Hm as <-. discriminate Tm. }
    rewrite Hmember. cbn [mbind completion_bind].
    pose proof (truthy_not_nullish _ Tm) as Hnm.
    destruct (member_total metrics "passed" Hnm) as [v1 H1].
    destruct (member_total metrics "failed" Hnm) as [v2 H2].
    destruct (member_total metrics "blocked" Hnm) as [v3 H3].
    destruct (member_total metrics "unexecuted" Hnm) as [v4 H4].
    exists v1, v2, v3, v4. rewrite H1, H2, H3, H4. done.
Qed.

Lemma Forall2_fmap_agree {A B C} (P : A → B → Prop) (Q : A → C → Prop) (f : B → C) l k m :
  (∀ a b c, P a b → Q a c → f b = c) →
  Forall2 P l k → Forall2 Q l m → f <$> k = m.
Proof.
  intros Hagree Hk. revert m.
  induction Hk as [|a b l k Hab _ IH]; intros m Hm.
  - by apply Forall2_nil_inv_l in Hm as ->.
  - apply Forall2_cons_inv_l in Hm as (c & m' & Hac & Hm' & ->).
    cbn. by rewrite (Hagree a b c Hab Hac), (IH m' Hm').
Qed.

(** X12.  When the execution chart data is there, the progress result
    holds an array of cycles, each with a [cycle] field; the labels are
    their names and the four series their counts, one entry for each
    cycle and in their order.  The cycle cards are built from the same
    cycles.  They render exactly when the name, the description and the
    counts of every cycle are values that React can render, and then the
    name and the counts on the i-th card are the i-th label and the i-th
    entries of the series: the chart and the cards never disagree on the
    cycles. *)
Theorem execution_chart_matches_cards d chart :
  getExecutionChartData (Some d) = Normal (Some chart) →
  ∃ items,
    member (progress d) "progress" = Normal (VArr items) ∧
    cycleElements d = Normal items ∧
    Forall2 (λ c label, ∃ inner, member c "cycle" = Normal inner ∧ nullish inner = false ∧
                                 member inner "name" = Normal label)
            items (chart_labels chart) ∧
    Forall2 (λ c v, member c "passed" = Normal v) items (chart_passed chart) ∧
    Forall2 (λ c v, member c "failed" = Normal v) items (chart_failed chart) ∧
    Forall2 (λ c v, member c "blocked" = Normal v) items (chart_blocked chart) ∧
    Forall2 (λ c v, member c "unexecuted" = Normal v) items (chart_unexecuted chart) ∧
    ((∃ cards, run_cycleDetails d = Normal cards) ↔
     Forall (λ c, ∀ inner, member c "cycle" = Normal inner →
                           Forall renders (card_children c inner)) items) ∧
    (∀ cards, run_cycleDetails d = Normal cards →
       card_name <$> cards = chart_labels chart ∧
       card_passed <$> cards = chart_passed chart ∧
       card_failed <$> cards = chart_failed chart ∧
       card_blocked <$> cards = chart_blocked chart ∧
       card_unexecuted <$> cards = chart_unexecuted chart).
Proof.
  unfold getExecutionChartData. intros H.
  destruct (opt_member (progress d) "progress") as [guard|] eqn:Hg; [|done].
  cbn [mbind completion_bind] in H.
  destruct (truthy guard) eqn:Tg; simpl in H; [|done].
  destruct (member (progress d) "progress") as [cycles|] eqn:Hc; [|done].
  cbn [mbind completion_bind] in H.
  assert (guard = cycles) as ->.
  { unfold opt_member in Hg. destruct (nullish (progress d)); [|congruence].
    injection Hg as <-. discriminate. }
  destruct cycles as [| | | | |items|]; try discriminate H.
  unfold call_map in H.
  destruct (mapM (λ c, cycle ← member c "cycle"; member cycle "name") items)
    as [labels|] eqn:Hl; [|by simpl in H].
  cbn [mbind completion_bind] in H.
  destruct (mapM (λ c, member c "passed") items) as [passed|] eqn:Hp; [|by simpl in H].
  cbn [mbind completion_bind] in H.
  destruct (mapM (λ c, member c "failed") items) as [failed|] eqn:Hf; [|by simpl in H].
  cbn [mbind completion_bind] in H.
  destruct (mapM (λ c, member c "blocked") items) as [blocked|] eqn:Hb; [|by simpl in H].
  cbn [mbind completion_bind] in H.
  destruct (mapM (λ c, member c "unexecuted") items) as [unexecuted|] eqn:Hu;
    [|by simpl in H].
  cbn [mbind completion_bind] in H.
  injection H as <-. cbn [chart_labels chart_passed chart_failed chart_blocked chart_unexecuted].
  apply mapM_Normal in Hl, Hp, Hf, Hb, Hu.
  assert (Hlabels : Forall2 (λ c label, ∃ inner, member c "cycle" = Normal inner ∧
                                        nullish inner = false ∧
                                        member inner "name" = Normal label) items labels).
  { eapply Forall2_impl; [exact Hl|]. intros c label Hname. cbn beta in Hname.
    destruct (member c "cycle") as [inner|]; [|done].
    cbn [mbind completion_bind] in Hname. exists inner. split; [done|]. split; [|done].
    destruct (nullish inner) eqn:Hi; [|done].
    by rewrite (member_nullish inner "name" Hi) in Hname. }
  assert (Helements : cycleElements d = Normal items).
  { unfold cycleElements. rewrite Hg. cbn [mbind completion_bind opt_map].
    rewrite mapM_mret. done. }
  assert (Hdetails : run_cycleDetails d = mapM run_CycleCard items).
  { unfold cycleDetails. by rewrite Helements. }
  exists items. do 7 (split; [done|]). rewrite Hdetails. split.
  - split.
    + intros [cards Hcards]. apply mapM_Normal in Hcards.
      apply Forall_forall. intros c Hin inner Hinner.
      apply list_elem_of_lookup in Hin. destruct Hin as [i Hi].
      destruct (Forall2_lookup_l _ _ _ i c Hcards Hi) as (card & _ & Hcard).
      pose proof (proj1 (CycleCard_renders c)) as Hr.
      destruct (Hr (ex_intro _ card Hcard)) as (_ & inner' & Hinner' & _ & Hall).
      rewrite Hinner in Hinner'. by injection Hinner' as <-.
    + intros Hall.
      assert (Hcards : Forall (λ c, ∃ card, run_CycleCard c = Normal card) items).
      { apply Forall_forall. intros c Hin.
        pose proof (proj1 (Forall_forall _ _) Hall c Hin) as Hc'.
        apply list_elem_of_lookup in Hin. destruct Hin as [i Hi].
        destruct (Forall2_lookup_l _ _ _ i c Hlabels Hi) as (l & _ & inner & Hinner & Hn & _).
        apply CycleCard_renders. split.
        - destruct (nullish c) eqn:Hnc; [|done].
          by rewrite (member_nullish c "cycle" Hnc) in Hinner.
        - exists inner. split; [done|]. split; [done|]. by apply Hc'. }
      destruct (mapM_all _ _ Hcards) as (cards & Hmap & _). by exists cards.
  - intros cards Hcards. apply mapM_Normal in Hcards.
    split; [|split; [|split; [|split]]].
    + eapply Forall2_fmap_agree; [|exact Hcards|exact Hlabels].
      intros c card label Hcard (inner & Hinner & _ & Hname). cbn beta in Hcard.
      destruct (CycleCard_fields _ _ Hcard) as (inner' & Hinner' & Hname' & _).
      congruence.
    + eapply Forall2_fmap_agree; [|exact Hcards|exact Hp].
      intros c card v Hcard Hv. cbn beta in Hcard, Hv.
      destruct (CycleCard_fields _ _ Hcard) as (_ & _ & _ & _ & _ & Hx & _). congruence.
    + eapply Forall2_fmap_agree; [|exact Hcards|exact Hf].
      intros c card v Hcard Hv. cbn beta in Hcard, Hv.
      destruct (CycleCard_fields _ _ Hcard) as (_ & _ & _ & _ & _ & _ & Hx & _). congruence.
    + eapply Forall2_fmap_agree; [|exact Hcards|exact Hb].
      intros c card v Hcard Hv. cbn beta in Hcard, Hv.
      destruct (CycleCard_fields _ _ Hcard) as (_ & _ & _ & _ & _ & _ & _ & Hx & _). congruence.
    + eapply Forall2_fmap_agree; [|exact Hcards|exact Hu].
      intros c card v Hcard Hv. cbn beta in Hcard, Hv.
      destruct (CycleCard_fields _ _ Hcard) as (_ & _ & _ & _ & _ & _ & _ & _ & Hx & _).
      congruence.
Qed.

(** ** Key metrics *)

Lemma call_toFixed1_or_zero callee v :
  (truthy v = true → ∃ n, v = VNum n) →
  ∃ text, call_toFixed1 NumberToString callee (js_or v zero) = Normal text.
Proof.
  intros Hv. unfold js_or. destruct (truthy v) eqn:Tv; [|by eexists].
  destruct (Hv eq_refl) as [n ->]. by eexists.
Qed.

(** A falsy value is no object, and the fallback [x || 0] can be
    rendered exactly when [x] can. *)
Lemma js_or_zero_valid v : valid_child (js_or v zero) = valid_child v.
Proof. unfold js_or. destruct (truthy v) eqn:Tv; [done|]. by destruct v. Qed.

Lemma metricCards_valid m :
  metricCards m = Normal tt ↔
  Forall (λ v, valid_child v = true)
    [metric_total_tests m; metric_open_defects m; metric_regression_tests m;
     metric_negative_tests m; metric_test_cycles m].
Proof.
  unfold metricCards, MetricCard, child. cbn [valid_child]. split.
  - intros H.
    destruct (valid_child (metric_total_tests m)) eqn:V1; [|done].
    destruct (valid_child (metric_open_defects m)) eqn:V2; [|done].
    destruct (valid_child (metric_regression_tests m)) eqn:V3; [|done].
    destruct (valid_child (metric_negative_tests m)) eqn:V4; [|done].
    destruct (valid_child (metric_test_cycles m)) eqn:V5; [|done].
    by repeat constructor.
  - intros H.
    apply Forall_cons in H. destruct H as [-> H].
    apply Forall_cons in H. destruct H as [-> H].
    apply Forall_cons in H. destruct H as [-> H].
    apply Forall_cons in H. destruct H as [-> H].
    apply Forall_cons in H. destruct H as [-> _]. done.
Qed.

(** X13.  The key metric cards render exactly when the report is
    neither [null] nor [undefined], each of the two rates of its overall
    metrics is a number or falsy, and each of the five counts is a value
    that React can render, no object; nothing else that can be stored
    makes them throw. *)
Theorem keyMetrics_renders_iff d :
  (∃ m, run_keyMetrics d = Normal m ∧ metricCards m = Normal tt) ↔
  nullish (report d) = false ∧
  ∀ om ds cb,
    member (report d) "overall_metrics" = Normal om →
    member (report d) "defect_summary" = Normal ds →
    member (report d) "cycle_breakdown" = Normal cb →
    (∀ v, opt_member om "execution_rate" = Normal v → truthy v = true → ∃ n, v = VNum n) ∧
    (∀ v, opt_member om "pass_rate" = Normal v → truthy v = true → ∃ n, v = VNum n) ∧
    Forall renders
      [opt_member om "total_tests"; opt_member ds "openDefects";
       opt_member (regressionTests d) "total_regression_tests";
       opt_member (negativeTests d) "negative_test_count";
       opt_member cb "length"].
Proof.
  split.
  - intros (m & Hm & Hcards).
    destruct (keyMetrics_inv _ _ _ Hm)
      as (om & ds & cb & tt' & er & pr & od & rg & ng & len & Hom & Hds & Hcb & Htt & Her & Hpr
          & Hod & Hrg & Hng & Hlen & Mtt & [n Hn] & [n' Hn'] & Mod & Mrg & Mng & Mlen).
    split.
    + destruct (nullish (report d)) eqn:Hnull; [|done].
      by rewrite (member_nullish _ "overall_metrics" Hnull) in Hom.
    + intros om' ds' cb' Hom' Hds' Hcb'.
      rewrite Hom in Hom'. injection Hom' as <-.
      rewrite Hds in Hds'. injection Hds' as <-.
      rewrite Hcb in Hcb'. injection Hcb' as <-.
      split; [|split].
      * intros v Hv Tv. rewrite Her in Hv. injection Hv as <-.
        exists n. destruct Hn as [Hn _]. unfold js_or in Hn. by rewrite Tv in Hn.
      * intros v Hv Tv. rewrite Hpr in Hv. injection Hv as <-.
        exists n'. destruct Hn' as [Hn' _]. unfold js_or in Hn'. by rewrite Tv in Hn'.
      * apply metricCards_valid in Hcards. rewrite Mtt, Mod, Mrg, Mng, Mlen in Hcards.
        rewrite !Forall_cons in Hcards. rewrite !js_or_zero_valid in Hcards.
        destruct Hcards as (V1 & V2 & V3 & V4 & V5 & _).
        rewrite Htt, Hod, Hrg, Hng, Hlen.
        repeat constructor; by eexists.
  - intros [Hnull Hrates]. unfold keyMetrics.
    destruct (member_total (report d) "overall_metrics" Hnull) as [om Hom].
    destruct (member_total (report d) "defect_summary" Hnull) as [ds Hds].
    destruct (member_total (report d) "cycle_breakdown" Hnull) as [cb Hcb].
    destruct (Hrates om ds cb Hom Hds Hcb) as (Her & Hpr & Hall).
    apply Forall_cons in Hall. destruct Hall as [(tt' & Htt & Vtt) Hall].
    apply Forall_cons in Hall. destruct Hall as [(od & Hod & Vod) Hall].
    apply Forall_cons in Hall. destruct Hall as [(rg & Hrg & Vrg) Hall].
    apply Forall_cons in Hall. destruct Hall as [(ng & Hng & Vng) Hall].
    apply Forall_cons in Hall. destruct Hall as [(len & Hlen & Vlen) _].
    destruct (opt_member_total om "execution_rate") as [er Her'].
    destruct (opt_member_total om "pass_rate") as [pr Hpr'].
    destruct (call_toFixed1_or_zero
                "(dashboardData.report.overall_metrics?.execution_rate || 0).toFixed"
                er (Her er Her')) as [et Het].
    destruct (call_toFixed1_or_zero
                "(dashboardData.report.overall_metrics?.pass_rate || 0).toFixed"
                pr (Hpr pr Hpr')) as [pt Hpt].
    rewrite Hom; cbn [mbind completion_bind]. rewrite Htt; cbn [mbind completion_bind].
    rewrite Her'; cbn [mbind completion_bind]. rewrite Het; cbn [mbind completion_bind].
    rewrite Hpr'; cbn [mbind completion_bind]. rewrite Hpt; cbn [mbind completion_bind].
    rewrite Hds; cbn [mbind completion_bind]. rewrite Hod; cbn [mbind completion_bind].
    rewrite Hrg; cbn [mbind completion_bind]. rewrite Hng; cbn [mbind completion_bind].
    rewrite Hcb; cbn [mbind completion_bind]. rewrite Hlen; cbn [mbind completion_bind].
    eexists. split; [reflexivity|].
    apply metricCards_valid.
    cbn [metric_total_tests metric_open_defects metric_regression_tests
         metric_negative_tests metric_test_cycles].
    repeat constructor; by rewrite js_or_zero_valid.
Qed.

(** X14.  Whatever is stored, key metrics that render show neither
    [undefined] nor [null] nor [NaN]: the five counts are values other
    than these, and each of the two rates is the print of a number that is
    not [NaN]. *)
Theorem keyMetrics_values_defined d m :
  run_keyMetrics d = Normal m →
  Forall (λ v, v ≠ VUndefined ∧ v ≠ VNull ∧ v ≠ VNum NaN)
    [metric_total_tests m; metric_open_defects m; metric_regression_tests m;
     metric_negative_tests m; metric_test_cycles m] ∧
  (∃ n, n ≠ NaN ∧ metric_execution_rate m = toFixed1 NumberToString n +:+ "%") ∧
  (∃ n, n ≠ NaN ∧ metric_pass_rate m = toFixed1 NumberToString n +:+ "%").
Proof.
  intros Hm.
  destruct (keyMetrics_inv _ _ _ Hm)
    as (om & ds & cb & tt' & er & pr & od & rg & ng & len & _ & _ & _ & _ & _ & _
        & _ & _ & _ & _ & -> & (n & Hn & ->) & (n' & Hn' & ->) & -> & -> & -> & ->).
  assert (Hdef : ∀ v, js_or v zero ≠ VUndefined ∧ js_or v zero ≠ VNull ∧
                      js_or v zero ≠ VNum NaN).
  { intros v. destruct (js_or_zero_defined v) as (? & ? & ? & _). done. }
  split; [repeat constructor; apply Hdef|].
  split.
  - exists n. split; [|done]. intros ->. by destruct (Hdef er) as (_ & _ & []).
  - exists n'. split; [|done]. intros ->. by destruct (Hdef pr) as (_ & _ & []).
Qed.

(** ** The page *)

(** X15.  While the loading flag is set, as it is from the start of a
    dashboard load, the page shows the spinner in place of the dashboard,
    whatever data is stored, and the refresh button is disabled.  The
    error banner does not depend on the flag: an error that is set
    meanwhile is shown above the spinner. *)
Theorem pending_load_page s page :
  loading s = true →
  run_render s = Normal page →
  page_main page = LoadingSpinner ∧
  page_refresh_disabled page = true ∧
  page_error page = (if truthy (error s) then Some (error s) else None).
Proof.
  intros Hl Hpage.
  destruct (render_inv _ _ _ _ _ Hpage) as (_ & _ & Hd & Herr & _ & Hmain).
  split; [|split; [|done]].
  - destruct (page_main page) as [|view|]; [done|..].
    + destruct Hmain as [Hl' _]. congruence.
    + destruct Hmain as [Hl' _]. congruence.
  - by rewrite Hd, Hl, !orb_true_r.
Qed.

(** X16.  The refresh button and its handler agree.  When the button is
    enabled, a click starts a dashboard load and sends its four requests;
    when a project or a version is not selected, the button is disabled
    and the handler, were it called, would do nothing. *)
Theorem refresh_button_guard t0 t1 t2 t3 arrivals w page :
  run_render (ui w) = Normal page →
  (page_refresh_disabled page = false →
     refreshDashboard JSON_parse t0 t1 t2 t3 arrivals w =
       loadDashboard JSON_parse t0 t1 t2 t3 arrivals w ∧
     sent (refreshDashboard JSON_parse t0 t1 t2 t3 arrivals w).2 =
       (sent w ++ dashboard_requests (ui w))%list) ∧
  (truthy (selectedProject (ui w)) = false ∨ truthy (selectedVersion (ui w)) = false →
     page_refresh_disabled page = true ∧
     refreshDashboard JSON_parse t0 t1 t2 t3 arrivals w = (Returned tt, w)).
Proof.
  intros Hpage. destruct (render_inv _ _ _ _ _ Hpage) as (_ & _ & Hd & _).
  rewrite Hd. split.
  - intros Hen.
    destruct (truthy (selectedProject (ui w))) eqn:Hp; [|done].
    destruct (truthy (selectedVersion (ui w))) eqn:Hv; [|done].
    assert (Hrun : refreshDashboard JSON_parse t0 t1 t2 t3 arrivals w =
                   loadDashboard JSON_parse t0 t1 t2 t3 arrivals w).
    { unfold refreshDashboard, get_state, mbind, Act_bind, js_and. by rewrite Hp, Hv. }
    rewrite Hrun. split; [done|]. rewrite loadDashboard_run.
    by destruct (Promise_all _ arrivals) as [[?|?]|].
  - intros Hsel. split.
    + destruct Hsel as [-> | ->]; [done|]. by rewrite orb_true_r.
    + unfold refreshDashboard, get_state, mbind, Act_bind, js_and.
      destruct Hsel as [Hp | Hv].
      * by rewrite Hp, Hp.
      * destruct (truthy (selectedProject (ui w))) eqn:Hp; [by rewrite Hv|by rewrite Hp].
Qed.

(** ** Handlers and effects *)

(** X17.  Choosing another project does not touch the selected version.
    With a version selected, the effect that follows the change starts a
    dashboard load at once, and each of its four requests names the new
    project together with the version that was selected for the old
    one. *)
Theorem project_change_keeps_version chosen t0 t1 t2 t3 w :
  chosen ≠ "" →
  truthy (selectedVersion (ui w)) = true →
  let run := (onProjectChange chosen;; effect_selection JSON_parse t0 t1 t2 t3 []) w in
  run.1 = Suspended ∧
  selectedProject (ui run.2) = VStr chosen ∧
  selectedVersion (ui run.2) = selectedVersion (ui w) ∧
  ∃ requests,
    sent run.2 = (sent w ++ requests)%list ∧
    length requests = 4 ∧
    Forall (λ r, member (arguments r) "project_id" = Normal (VStr chosen) ∧
                 member (arguments r) "version_id" = Normal (selectedVersion (ui w)))
           requests.
Proof.
  intros Hchosen Hv run.
  assert (Hp : truthy (VStr chosen) = true).
  { simpl. destruct (String.eqb chosen "") eqn:E; [|done].
    by apply String.eqb_eq in E. }
  assert (Hrun : run = loadDashboard JSON_parse t0 t1 t2 t3 []
                         {| ui := with_selectedProject (VStr chosen) (ui w); sent := sent w |}).
  { unfold run, onProjectChange, setSelectedProject, set_state, effect_selection, get_state,
      mbind, Act_bind, js_and. cbn [ui selectedProject selectedVersion with_selectedProject].
    by rewrite Hp, Hv. }
  rewrite Hrun, loadDashboard_run. cbn [Promise_all foldl length all_init Nat.eqb settled].
  cbn [fst snd started ui sent with_error with_loading with_selectedProject
       selectedProject selectedVersion].
  do 3 (split; [done|]).
  eexists. split; [reflexivity|]. split; [reflexivity|].
  unfold dashboard_requests. cbn [selectedProject selectedVersion with_selectedProject].
  repeat constructor.
Qed.

(** X18.  Choosing the empty option of the project select starts
    nothing: neither effect sends a request, and the page keeps showing
    what it showed, a dashboard loaded for the old project included, with
    the refresh button disabled. *)
Theorem deselecting_project_keeps_page t t0 t1 t2 t3 arrivals w page :
  run_render (ui w) = Normal page →
  let run := (onProjectChange "";; effect_selectedProject JSON_parse t;;
              effect_selection JSON_parse t0 t1 t2 t3 arrivals) w in
  run = (Returned tt, {| ui := with_selectedProject (VStr "") (ui w); sent := sent w |}) ∧
  ∃ page',
    run_render (ui run.2) = Normal page' ∧
    page_main page' = page_main page ∧
    page_error page' = page_error page ∧
    page_refresh_disabled page' = true.
Proof.
  intros Hpage run.
  assert (Hrun : run = (Returned tt, {| ui := with_selectedProject (VStr "") (ui w);
                                        sent := sent w |})) by reflexivity.
  rewrite Hrun. split; [done|]. cbn [snd ui].
  assert (Hsame : ∀ v, render StringToNumber ArrayToString NumberToString
                         (with_selectedProject v (ui w)) =
                       (λ page, {| page_projects := page_projects page;
                                   page_versions_disabled := page_versions_disabled page;
                                   page_versions := page_versions page;
                                   page_refresh_disabled :=
                                     negb (truthy v) || negb (truthy (selectedVersion (ui w)))
                                     || loading (ui w);
                                   page_error := page_error page;
                                   page_main := page_main page |}) <$> run_render (ui w)).
  { intros v. unfold render.
    cbn [projects versions loading dashboardData error selectedProject selectedVersion
         with_selectedProject].
    destruct (call_map "projects.map" projectOption (projects (ui w))) as [po|]; [|done].
    cbn [mbind completion_bind].
    destruct (member (versions (ui w)) "length") as [vl|]; [|done].
    cbn [mbind completion_bind].
    destruct (call_map "versions.map" versionOption (versions (ui w))) as [vo|]; [|done].
    cbn [mbind completion_bind].
    destruct (_ : completion (option DashboardElements)) as [elements|]; [|done].
    cbn [mbind completion_bind].
    destruct (mapM render_projectOption po); [|done]. cbn [mbind completion_bind].
    destruct (mapM render_versionOption vo); [|done]. cbn [mbind completion_bind].
    destruct (if truthy (error (ui w)) then child (error (ui w)) else mret tt); [|done].
    cbn [mbind completion_bind].
    by destruct (_ : completion MainView) as [main|]. }
  rewrite Hsame, Hpage. eexists. split; [reflexivity|]. done.
Qed.

(** X19.  One release without a version is enough to break the page:
    [loadVersions] stores [undefined] in its place without an error, and
    the next render throws when it builds the options of the version
    select. *)
Theorem release_without_version_breaks_page projectId t result err items r v w :
  settle t = Normal result →
  member result "error" = Normal err → truthy err = false →
  member result "releases" = Normal (VArr items) →
  Forall (λ r, nullish r = false) items →
  r ∈ items → member r "version" = Normal v → nullish v = true →
  error (ui (loadVersions JSON_parse projectId t w).2) = error (ui w) ∧
  ∃ e, run_render (ui (loadVersions JSON_parse projectId t w).2) = Throw e.
Proof.
  intros Hr He Ht Hrel Hall Hin Hv Hn.
  destruct (loadVersions_stores_versions projectId t result err items w Hr He Ht Hrel Hall)
    as (vs & Hvs & Hmap & Herr).
  split; [done|].
  assert (Hvin : v ∈ vs).
  { apply list_elem_of_lookup in Hin. destruct Hin as [i Hi].
    destruct (Forall2_lookup_l _ _ _ i r Hmap Hi) as (v' & Hv' & Hm).
    rewrite Hv in Hm. injection Hm as <-. apply list_elem_of_lookup. by exists i. }
  unfold render. rewrite Hvs.
  destruct (call_map "projects.map" projectOption _) as [po|e]; [|by exists e].
  cbn [mbind completion_bind member]. cbn [String.eqb Ascii.eqb Bool.eqb].
  assert (Hopt : versionOption v = Throw (cannot_read v "id")).
  { unfold versionOption. by rewrite (member_nullish v "id" Hn). }
  destruct (mapM_some_throws versionOption vs v _ Hvin Hopt) as [e He'].
  exists e. cbn [call_map]. by rewrite He'.
Qed.

End Coverage.

Section NoRetry.

Variable JSON_parse : value -> completion value.

(** X20.  No loader retries.  Whatever the transport does and in
    whatever order the responses arrive, [loadProjects] sends its one
    request, [loadVersions] its one request for the given project, and
    [loadDashboard] its four requests in the order of the source, for the
    selected project and version; nothing is sent a second time. *)
Theorem loaders_never_retry t0 t1 t2 t3 arrivals projectId w :
  sent (loadProjects JSON_parse t0 w).2 =
    (sent w ++ [{| toolName := "get_projects"; arguments := obj [] |}])%list ∧
  sent (loadVersions JSON_parse projectId t0 w).2 =
    (sent w ++ [{| toolName := "get_release_status";
                   arguments := obj [("project_id", projectId)] |}])%list ∧
  sent (loadDashboard JSON_parse t0 t1 t2 t3 arrivals w).2 =
    (sent w ++ dashboard_requests (ui w))%list.
Proof. apply loads_send_once. Qed.

End NoRetry.

(** ** The further theorems at concrete inputs *)

Abbreviation more_loadVersions := (loadVersions more_JSON_parse).

(** The progress call is offline and the regression call answers with a
    page that is not JSON: the message is the one of whichever arrives
    first. *)
Lemma loadDashboard_first_failure_witness :
  [empty_response; offline; not_json; empty_response] !! 2 = Some not_json ∧
  callTool_settle host_JSON_parse not_json = Throw (SyntaxError "Unexpected token <") ∧
  error (ui (loadDashboard host_JSON_parse empty_response offline not_json empty_response
               [0; 2; 1; 3] selected).2) =
    VStr "Failed to load dashboard: Unexpected token <" ∧
  error (ui (loadDashboard host_JSON_parse empty_response offline not_json empty_response
               [0; 1; 2; 3] selected).2) =
    VStr "Failed to load dashboard: Failed to fetch".
Proof.
  assert (Hbefore : ∀ i t', i ∈ [0] →
            [empty_response; offline; not_json; empty_response] !! i = Some t' →
            ∃ v, callTool_settle host_JSON_parse t' = Normal v).
  { intros i t' Hi%list_elem_of_singleton Ht. subst i. injection Ht as <-. by eexists. }
  split; [reflexivity|]. split; [reflexivity|]. split.
  - pose proof (loadDashboard_first_failure host_JSON_parse
                  empty_response offline not_json empty_response [0] 2 [1; 3] not_json
                  (SyntaxError "Unexpected token <") selected eq_refl eq_refl Hbefore) as H.
    cbn [app] in H. by rewrite H.
  - pose proof (loadDashboard_first_failure host_JSON_parse
                  empty_response offline not_json empty_response [0] 1 [2; 3] offline
                  (TypeError "Failed to fetch") selected eq_refl eq_refl Hbefore) as H.
    cbn [app] in H. by rewrite H.
Defined.

(** A project list that is the empty object. *)
Lemma loadProjects_no_projects_witness :
  callTool_settle host_JSON_parse empty_response = Normal (obj []) ∧
  member (obj []) "error" = Normal VUndefined ∧ truthy VUndefined = false ∧
  member (obj []) "projects" = Normal VUndefined ∧
  projects (ui (loadProjects host_JSON_parse empty_response selected).2) = VArr [] ∧
  error (ui (loadProjects host_JSON_parse empty_response selected).2) = VStr "".
Proof.
  do 4 (split; [reflexivity|]).
  by rewrite (loadProjects_no_projects host_JSON_parse empty_response (obj [])
                VUndefined VUndefined selected eq_refl eq_refl eq_refl eq_refl eq_refl).
Defined.

(** Two releases, the second without a version. *)
Lemma loadVersions_maps_releases_witness :
  callTool_settle more_JSON_parse (Body (envelope releases_text)) = Normal release_status ∧
  ∃ vs,
    versions (ui (more_loadVersions (VStr "10001") (Body (envelope releases_text))
                    selected).2) = VArr vs ∧
    length vs = 2 ∧
    vs !! 1 = Some VUndefined.
Proof.
  split; [reflexivity|].
  destruct (loadVersions_maps_releases more_JSON_parse (VStr "10001")
              (Body (envelope releases_text)) release_status VUndefined
              [obj [("version", obj [("id", VStr "10100"); ("name", VStr "v2.1.0")])]; obj []]
              selected eq_refl eq_refl eq_refl eq_refl)
    as (vs & Hvs & Hmap & _); [by repeat constructor|].
  exists vs. split; [exact Hvs|].
  split; [symmetry; exact (Forall2_length _ _ _ Hmap)|].
  destruct (Forall2_lookup_l _ _ _ 1 (obj []) Hmap eq_refl) as (v & Hv & Hm).
  vm_compute in Hm. injection Hm as <-. exact Hv.
Defined.

Lemma callTool_fulfilled_is_parsed_witness :
  callTool_settle host_JSON_parse empty_response = Normal (obj []) ∧
  ∃ result r content item text,
    empty_response = Body result ∧ has_content result ∧
    member result "result" = Normal r ∧ member r "content" = Normal content ∧
    index content 0 = Normal item ∧ member item "text" = Normal text ∧
    host_JSON_parse text = Normal (obj []).
Proof.
  split; [reflexivity|].
  exact (callTool_fulfilled_is_parsed host_JSON_parse empty_response (obj []) eq_refl).
Defined.

(** The distribution chart of the documented report, and of a [null]
    report. *)
Lemma getDistributionChartData_never_throws_witness :
  getDistributionChartData (Some sample_data) =
    Normal (Some [int 320; int 45; int 15; int 70]) ∧
  getDistributionChartData
    (Some {| report := VNull; progress := VNull;
             regressionTests := VNull; negativeTests := VNull |}) = Normal None.
Proof.
  split.
  - destruct (proj2 (getDistributionChartData_never_throws (Some sample_data))
                sample_data eq_refl) as (metrics & Hm & _ & Hsome).
    assert (Hm' : opt_member (report sample_data) "overall_metrics" = Normal sample_metrics)
      by (vm_compute; reflexivity).
    rewrite Hm' in Hm. injection Hm as <-.
    destruct (Hsome eq_refl) as (v1 & v2 & v3 & v4 & H1 & H2 & H3 & H4 & ->).
    assert (P1 : member sample_metrics "passed" = Normal (int 320)) by (vm_compute; reflexivity).
    assert (P2 : member sample_metrics "failed" = Normal (int 45)) by (vm_compute; reflexivity).
    assert (P3 : member sample_metrics "blocked" = Normal (int 15)) by (vm_compute; reflexivity).
    assert (P4 : member sample_metrics "unexecuted" = Normal (int 70))
      by (vm_compute; reflexivity).
    rewrite P1 in H1. rewrite P2 in H2. rewrite P3 in H3. rewrite P4 in H4.
    injection H1 as <-. injection H2 as <-. injection H3 as <-. injection H4 as <-.
    reflexivity.
  - destruct (proj2 (getDistributionChartData_never_throws
                       (Some {| report := VNull; progress := VNull;
                                regressionTests := VNull; negativeTests := VNull |}))
                _ eq_refl) as (metrics & Hm & Hnone & _).
    vm_compute in Hm. injection Hm as <-. exact (Hnone eq_refl).
Defined.

(** The counts of the documented summary lie between 0 and the total. *)
Lemma card_rates_in_range_witness :
  ∃ card execution pass,
    host_CycleCard summary_cycle = Normal card ∧
    (0 < 450 < 2 ^ 53)%Z ∧ (0 <= 70 <= 450)%Z ∧ (0 <= 320 <= 450)%Z ∧
    bar_percentage (card_execution card) = Fin execution ∧
    bar_percentage (card_pass card) = Fin pass ∧
    (0 <= execution)%Q ∧ (execution <= 100)%Q ∧
    (0 <= pass)%Q ∧ (pass <= 100)%Q ∧
    bar_text (card_execution card) = "84.4%" ∧
    bar_text (card_pass card) = "71.1%".
Proof.
  destruct (host_CycleCard summary_cycle) as [card|e] eqn:Hcard;
    [|vm_compute in Hcard; discriminate].
  assert (HT : (0 < 450 < 2 ^ 53)%Z) by (split; reflexivity).
  assert (HU : (0 <= 70 <= 450)%Z) by (split; discriminate).
  assert (HS : (0 <= 320 <= 450)%Z) by (split; discriminate).
  destruct (card_rates_in_range host_StringToNumber host_ArrayToString host_NumberToString
              summary_cycle card 450 70 320 Hcard eq_refl eq_refl eq_refl HT HU HS)
    as ((execution & pass & He & Hp & E0 & E100 & P0 & P100 & _) & _).
  exists card, execution, pass. do 4 (split; [done|]).
  do 6 (split; [assumption|]).
  vm_compute in Hcard. injection Hcard as <-. split; reflexivity.
Defined.

(** A cycle with a total and no counts. *)
Lemma missing_count_prints_NaN_witness :
  ∃ card,
    host_CycleCard countless_cycle = Normal card ∧
    member countless_cycle "total_tests" = Normal (VNum (Fin 50)) ∧
    (0 < 50)%Q ∧
    member countless_cycle "unexecuted" = Normal VUndefined ∧
    member countless_cycle "passed" = Normal VUndefined ∧
    bar_text (card_execution card) = "NaN%" ∧
    bar_text (card_pass card) = "NaN%".
Proof.
  destruct (host_CycleCard countless_cycle) as [card|e] eqn:Hcard;
    [|vm_compute in Hcard; discriminate].
  destruct (missing_count_prints_NaN host_StringToNumber host_ArrayToString
              host_NumberToString countless_cycle card 50 Hcard eq_refl eq_refl)
    as [Hex Hpa].
  destruct (Hex eq_refl) as [_ He]. destruct (Hpa eq_refl) as [_ Hp].
  exists card. do 5 (split; [reflexivity|]). split; [exact He | exact Hp].
Defined.

(** The chart and the cards of the documented progress: two cycles,
    with the same names and passed counts on the chart and on the
    cards. *)
Lemma execution_chart_matches_cards_witness :
  ∃ chart cards,
    getExecutionChartData (Some sample_data) = Normal (Some chart) ∧
    chart_labels chart = [VStr "Smoke Test"; VStr "Not planned yet"] ∧
    chart_passed chart = [int 45; int 0] ∧
    cycleDetails host_StringToNumber host_ArrayToString host_NumberToString sample_data =
      Normal cards ∧
    card_name <$> cards = chart_labels chart ∧
    card_passed <$> cards = chart_passed chart.
Proof.
  destruct (getExecutionChartData (Some sample_data)) as [[chart|]|e] eqn:Hchart;
    [|vm_compute in Hchart; discriminate..].
  destruct (cycleDetails host_StringToNumber host_ArrayToString host_NumberToString
              sample_data) as [cards|e] eqn:Hcards; [|vm_compute in Hcards; discriminate].
  destruct (execution_chart_matches_cards host_StringToNumber host_ArrayToString
              host_NumberToString sample_data chart Hchart)
    as (items & _ & _ & _ & _ & _ & _ & _ & _ & Hagree).
  destruct (Hagree cards Hcards) as (Hnames & Hpassed & _).
  exists chart, cards.
  assert (Hl : chart_labels chart = [VStr "Smoke Test"; VStr "Not planned yet"]).
  { vm_compute in Hchart. by injection Hchart as <-. }
  assert (Hp : chart_passed chart = [int 45; int 0]).
  { vm_compute in Hchart. by injection Hchart as <-. }
  split; [reflexivity|]. split; [exact Hl|]. split; [exact Hp|].
  split; [reflexivity|]. split; [exact Hnames | exact Hpassed].
Defined.

(** The key metrics of the documented report. *)
Lemma keyMetrics_values_defined_witness :
  ∃ m,
    keyMetrics host_NumberToString sample_data = Normal m ∧
    metric_total_tests m ≠ VUndefined ∧
    metric_regression_tests m ≠ VNum NaN ∧
    ∃ n, n ≠ NaN ∧ metric_execution_rate m = toFixed1 host_NumberToString n +:+ "%".
Proof.
  destruct (keyMetrics host_NumberToString sample_data) as [m|e] eqn:Hm;
    [|vm_compute in Hm; discriminate].
  destruct (keyMetrics_values_defined host_NumberToString sample_data m Hm)
    as (Hall & Hrate & _).
  exists m. split; [reflexivity|].
  apply Forall_cons in Hall. destruct Hall as [(Ht & _) Hall].
  apply Forall_cons in Hall. destruct Hall as [_ Hall].
  apply Forall_cons in Hall. destruct Hall as [(_ & _ & Hr) _].
  split; [exact Ht|]. split; [exact Hr | exact Hrate].
Defined.

(** A dashboard load has started over the data of an earlier load, and
    the release status has answered with an upstream error meanwhile:
    the page shows the spinner, not the data, and the error above it. *)
Lemma pending_load_page_witness :
  let earlier := (loadDashboard sample_JSON_parse report_response progress_response
                    regression_response negative_response [0; 1; 2; 3] selected).2 in
  let pending := (loadDashboard sample_JSON_parse report_response progress_response
                    regression_response negative_response [] earlier).2 in
  let w := (loadVersions sample_JSON_parse (VStr "10001") error_response pending).2 in
  ∃ page,
    loading (ui w) = true ∧
    dashboardData (ui w) ≠ None ∧
    host_render (ui w) = Normal page ∧
    page_main page = LoadingSpinner ∧
    page_refresh_disabled page = true ∧
    page_error page = Some (VStr "Version not found").
Proof.
  intros earlier pending w.
  destruct (host_render (ui w)) as [page|e] eqn:Hpage; [|vm_compute in Hpage; discriminate].
  exists page. split; [reflexivity|]. split; [discriminate|]. split; [reflexivity|].
  exact (pending_load_page host_StringToNumber host_ArrayToString host_NumberToString
           (ui w) page eq_refl Hpage).
Defined.

(** A project and a version are selected and nothing is loading. *)
Lemma refresh_button_guard_witness :
  ∃ page,
    host_render (ui selected) = Normal page ∧
    page_refresh_disabled page = false ∧
    refreshDashboard host_JSON_parse empty_response empty_response empty_response
      empty_response [] selected =
    host_loadDashboard empty_response empty_response empty_response empty_response
      [] selected ∧
    sent (refreshDashboard host_JSON_parse empty_response empty_response empty_response
            empty_response [] selected).2 = dashboard_requests (ui selected).
Proof.
  destruct (host_render (ui selected)) as [page|e] eqn:Hpage;
    [|vm_compute in Hpage; discriminate].
  assert (Hen : page_refresh_disabled page = false).
  { vm_compute in Hpage. by injection Hpage as <-. }
  destruct (refresh_button_guard host_StringToNumber host_ArrayToString host_NumberToString
              host_JSON_parse empty_response empty_response empty_response empty_response
              [] selected page Hpage) as [Hclick _].
  destruct (Hclick Hen) as [Hrun Hsent].
  exists page. split; [reflexivity|]. split; [exact Hen|]. split; [exact Hrun | exact Hsent].
Defined.

(** Project 10002 is chosen while version 10100 of project 10001 is
    selected. *)
Lemma project_change_keeps_version_witness :
  "10002" ≠ "" ∧
  truthy (selectedVersion (ui selected)) = true ∧
  selectedVersion
    (ui ((onProjectChange "10002";;
          effect_selection host_JSON_parse empty_response empty_response empty_response
            empty_response []) selected).2) = VStr "10100" ∧
  ∃ requests,
    sent ((onProjectChange "10002";;
           effect_selection host_JSON_parse empty_response empty_response empty_response
             empty_response []) selected).2 = requests ∧
    length requests = 4 ∧
    Forall (λ r, member (arguments r) "project_id" = Normal (VStr "10002") ∧
                 member (arguments r) "version_id" = Normal (VStr "10100")) requests.
Proof.
  assert (Hne : "10002" ≠ "") by discriminate.
  destruct (project_change_keeps_version host_JSON_parse "10002"
              empty_response empty_response empty_response empty_response selected
              Hne eq_refl) as (_ & _ & Hv & requests & Hsent & Hlen & Hall).
  split; [exact Hne|]. split; [reflexivity|]. split; [exact Hv|].
  exists requests. split; [exact Hsent|]. split; [exact Hlen | exact Hall].
Defined.

(** The empty option is chosen while a project is selected. *)
Lemma deselecting_project_keeps_page_witness :
  ∃ page page',
    host_render (ui selected) = Normal page ∧
    (onProjectChange "";; effect_selectedProject host_JSON_parse offline;;
     effect_selection host_JSON_parse offline offline offline offline [0]) selected =
      (Returned tt, {| ui := with_selectedProject (VStr "") (ui selected);
                       sent := sent selected |}) ∧
    host_render (with_selectedProject (VStr "") (ui selected)) = Normal page' ∧
    page_main page' = page_main page ∧
    page_refresh_disabled page' = true.
Proof.
  destruct (host_render (ui selected)) as [page|e] eqn:Hpage;
    [|vm_compute in Hpage; discriminate].
  destruct (deselecting_project_keeps_page host_StringToNumber host_ArrayToString
              host_NumberToString host_JSON_parse offline offline offline offline offline
              [0] selected page Hpage) as (Hrun & page' & Hpage' & Hmain & _ & Hd).
  rewrite Hrun in Hpage'.
  exists page, page'. split; [reflexivity|]. split; [exact Hrun|].
  split; [exact Hpage'|]. split; [exact Hmain | exact Hd].
Defined.

(** Two releases, the second without a version: no error, and no page. *)
Lemma release_without_version_breaks_page_witness :
  callTool_settle more_JSON_parse (Body (envelope releases_text)) = Normal release_status ∧
  member (obj []) "version" = Normal VUndefined ∧
  error (ui (more_loadVersions (VStr "10001") (Body (envelope releases_text)) selected).2) =
    VStr "" ∧
  ∃ e,
    host_render (ui (more_loadVersions (VStr "10001") (Body (envelope releases_text))
                       selected).2) = Throw e.
Proof.
  split; [reflexivity|]. split; [reflexivity|].
  refine (release_without_version_breaks_page host_StringToNumber host_ArrayToString
            host_NumberToString more_JSON_parse (VStr "10001")
            (Body (envelope releases_text)) release_status VUndefined
            [obj [("version", obj [("id", VStr "10100"); ("name", VStr "v2.1.0")])]; obj []]
            (obj []) VUndefined selected eq_refl eq_refl eq_refl eq_refl _ _ eq_refl eq_refl).
  - by repeat constructor.
  - apply list_elem_of_In. simpl. auto.
Defined.
